(** * Legal-intelligence dashboard: the analysis orchestrator of [LegalAIAnalyzer]

    A shallow embedding of the class [LegalAIAnalyzer] of [app.py] (the
    gateway variant of the repository carries the same methods and differs
    only in passing [seed] to the client): the six public analysis
    methods, the cache-key helper and the fallback constructor, together
    with the part of the Python run-time they rely on.

    - JSON documents and result dictionaries are values of [Py.value];
      Python floats are binary64 primitive floats, Python integers are [Z].
    - A Python [str] is a [string]; every [ascii] stands for one character
      (code points below 256), so slicing and [len] count characters.
    - [st.session_state.ai_analysis_cache] is a [gmap string Py.value]; the
      requests sent to the client are recorded in a log.
    - An analysis method is a computation in the monad [M]: it threads the
      session and either returns a value or raises a Python exception.
    - Values are compared as values: that a cached dictionary and the
      dictionary a call returns are one object is not modelled. *)

From Stdlib Require Import ZArith Ascii List Bool Lia PrimFloat SpecFloat FloatOps.
From stdpp Require Import base option list strings gmap.

Set Default Proof Using "Type".
#[local] Set Warnings "-register-all,-inexact-float".

(** ** Python values and the operations the analyzer applies to them *)

Module Py.

(** What [json.loads] can return, and what the analyzer builds. A [dict]
    keeps its items in insertion order. *)
Inductive value : Type :=
| VNone
| VBool (b : bool)
| VInt (z : Z)
| VFloat (f : float)
| VStr (s : string)
| VList (l : list value)
| VDict (d : list (string * value)).

(** Exceptions (all of them subclasses of [Exception]).  [ClientError] is
    raised by [client.chat.completions.create] or while reading
    [response.choices[0].message.content]; [JSONDecodeError] by
    [json.loads]; a [RuntimeFault] is the [TypeError], [AttributeError],
    [KeyError] or [ValueError] the interpreter raises when it evaluates
    the operation [op] on the operands [args]. *)
Inductive exn : Type :=
| ClientError (msg : string)
| JSONDecodeError (msg : string)
| RuntimeFault (op : string) (args : list value).

Inductive outcome (A : Type) : Type :=
| Returns (a : A)
| Raises (e : exn).
Arguments Returns {A} a.
Arguments Raises {A} e.

Definition bind_outcome {A B} (o : outcome A) (k : A -> outcome B) : outcome B :=
  match o with
  | Returns a => k a
  | Raises e => Raises e
  end.

(** *** Strings *)

Fixpoint len (s : string) : nat :=
  match s with
  | EmptyString => 0
  | String _ s' => S (len s')
  end.

(** [s[:n]] *)
Fixpoint take (n : nat) (s : string) : string :=
  match n, s with
  | S n', String c s' => String c (take n' s')
  | _, _ => EmptyString
  end.

(** Characters for which [str.isspace] holds, below code point 256. *)
Definition is_space (c : ascii) : bool :=
  let n := nat_of_ascii c in
  ((9 <=? n) && (n <=? 13)) || ((28 <=? n) && (n <=? 32))
  || (n =? 133) || (n =? 160).

Fixpoint lstrip (s : string) : string :=
  match s with
  | String c s' => if is_space c then lstrip s' else s
  | EmptyString => EmptyString
  end.

Fixpoint rstrip (s : string) : string :=
  match s with
  | String c s' =>
      match rstrip s' with
      | EmptyString => if is_space c then EmptyString else String c EmptyString
      | r => String c r
      end
  | EmptyString => EmptyString
  end.

(** [s.strip()] *)
Definition strip (s : string) : string := rstrip (lstrip s).

(** [s.split(sep)] for a separator of one character. *)
Fixpoint split (sep : ascii) (s : string) : list string :=
  match s with
  | EmptyString => [EmptyString]
  | String c s' =>
      if decide (c = sep) then EmptyString :: split sep s'
      else match split sep s' with
           | w :: ws => String c w :: ws
           | [] => [String c EmptyString]
           end
  end.

(** [sep.join(items)] on strings. *)
Fixpoint join (sep : string) (items : list string) : string :=
  match items with
  | [] => EmptyString
  | [x] => x
  | x :: rest => x +:+ sep +:+ join sep rest
  end.

Fixpoint chars (s : string) : list string :=
  match s with
  | EmptyString => []
  | String c s' => String c EmptyString :: chars s'
  end.

(** [s1 < s2]: code-point order. *)
Fixpoint str_ltb (s1 s2 : string) : bool :=
  match s1, s2 with
  | _, EmptyString => false
  | EmptyString, String _ _ => true
  | String c1 r1, String c2 r2 =>
      let n1 := nat_of_ascii c1 in
      let n2 := nat_of_ascii c2 in
      if n1 <? n2 then true else if n2 <? n1 then false else str_ltb r1 r2
  end.

(** *** Numbers *)

(** [bool] is a subclass of [int]; the three numeric types compare with
    each other by value. *)
Inductive num : Type :=
| NInt (z : Z)
| NFloat (f : float).

Definition as_num (v : value) : option num :=
  match v with
  | VBool b => Some (NInt (Z.b2z b))
  | VInt z => Some (NInt z)
  | VFloat f => Some (NFloat f)
  | _ => None
  end.

Definition signed_mantissa (neg : bool) (m : positive) : Z :=
  if neg then Z.neg m else Z.pos m.

(** [z < f], comparing the integer with the exact value of the float. *)
Definition Z_lt_float (z : Z) (f : float) : bool :=
  match Prim2SF f with
  | S754_nan => false
  | S754_infinity neg => negb neg
  | S754_zero _ => (z <? 0)%Z
  | S754_finite neg m e =>
      if (0 <=? e)%Z then (z <? signed_mantissa neg m * 2 ^ e)%Z
      else (z * 2 ^ (- e) <? signed_mantissa neg m)%Z
  end.

(** [f < z] *)
Definition float_lt_Z (f : float) (z : Z) : bool :=
  match Prim2SF f with
  | S754_nan => false
  | S754_infinity neg => neg
  | S754_zero _ => (0 <? z)%Z
  | S754_finite neg m e =>
      if (0 <=? e)%Z then (signed_mantissa neg m * 2 ^ e <? z)%Z
      else (signed_mantissa neg m <? z * 2 ^ (- e))%Z
  end.

Definition num_ltb (a b : num) : bool :=
  match a, b with
  | NInt x, NInt y => (x <? y)%Z
  | NFloat x, NFloat y => PrimFloat.ltb x y
  | NInt x, NFloat y => Z_lt_float x y
  | NFloat x, NInt y => float_lt_Z x y
  end.

Definition num_gtb (a b : num) : bool := num_ltb b a.

(** [z <= f] *)
Definition Z_le_float (z : Z) (f : float) : bool :=
  match Prim2SF f with
  | S754_nan => false
  | S754_infinity neg => negb neg
  | S754_zero _ => (z <=? 0)%Z
  | S754_finite neg m e =>
      if (0 <=? e)%Z then (z <=? signed_mantissa neg m * 2 ^ e)%Z
      else (z * 2 ^ (- e) <=? signed_mantissa neg m)%Z
  end.

(** [f <= z] *)
Definition float_le_Z (f : float) (z : Z) : bool :=
  match Prim2SF f with
  | S754_nan => false
  | S754_infinity neg => neg
  | S754_zero _ => (0 <=? z)%Z
  | S754_finite neg m e =>
      if (0 <=? e)%Z then (signed_mantissa neg m * 2 ^ e <=? z)%Z
      else (signed_mantissa neg m <=? z * 2 ^ (- e))%Z
  end.

Definition num_leb (a b : num) : bool :=
  match a, b with
  | NInt x, NInt y => (x <=? y)%Z
  | NFloat x, NFloat y => PrimFloat.leb x y
  | NInt x, NFloat y => Z_le_float x y
  | NFloat x, NInt y => float_le_Z x y
  end.

Definition num_geb (a b : num) : bool := num_leb b a.

(** *** Dynamic operations *)

Definition truthy (v : value) : bool :=
  match v with
  | VNone => false
  | VBool b => b
  | VInt z => negb (z =? 0)%Z
  | VFloat f => negb (PrimFloat.eqb f 0)
  | VStr s => negb (bool_decide (s = EmptyString))
  | VList l => negb (bool_decide (l = []))
  | VDict d => negb (bool_decide (d = []))
  end.

Fixpoint lookup_item (k : string) (d : list (string * value)) : option value :=
  match d with
  | [] => None
  | (k', v) :: d' => if decide (k = k') then Some v else lookup_item k d'
  end.

(** [d[k] = v] on a dictionary: an existing key keeps its position. *)
Fixpoint set_item (k : string) (v : value) (d : list (string * value))
  : list (string * value) :=
  match d with
  | [] => [(k, v)]
  | (k', v') :: d' =>
      if decide (k = k') then (k, v) :: d' else (k', v') :: set_item k v d'
  end.

(** The value under [k] in the items [d], or else [default]. *)
Definition item_or (d : list (string * value)) (k : string) (default : value) : value :=
  match lookup_item k d with
  | Some v => v
  | None => default
  end.

(** [x.get(k, default)] *)
Definition get (x : value) (k : string) (default : value) : outcome value :=
  match x with
  | VDict d => Returns (item_or d k default)
  | _ => Raises (RuntimeFault "get" [x])
  end.

(** The value under [k] when [x] is a dictionary that has the key. *)
Definition field (k : string) (x : value) : option value :=
  match x with
  | VDict d => lookup_item k d
  | _ => None
  end.

Definition of_num (n : num) : value :=
  match n with
  | NInt z => VInt z
  | NFloat f => VFloat f
  end.

(** [a > c] for a numeric constant [c]: every JSON value that is not a
    number raises [TypeError] there. *)
Definition gt_num (a : value) (c : num) : outcome bool :=
  match as_num a with
  | Some x => Returns (num_gtb x c)
  | None => Raises (RuntimeFault ">" [a; of_num c])
  end.

(** [a >= c] for a numeric [c] *)
Definition ge_num (a : value) (c : num) : outcome bool :=
  match as_num a with
  | Some x => Returns (num_geb x c)
  | None => Raises (RuntimeFault ">=" [a; of_num c])
  end.

Fixpoint all_nums (l : list value) : option (list num) :=
  match l with
  | [] => Some []
  | v :: l' =>
      match as_num v, all_nums l' with
      | Some x, Some xs => Some (x :: xs)
      | _, _ => None
      end
  end.

(** [max] keeps its first argument until a later one is greater. *)
Definition max_num (first : num) (rest : list num) : num :=
  fold_left (fun cur x => if num_gtb x cur then x else cur) rest first.

(** [max(items) > c] for a numeric constant [c].  [max] of an empty list
    raises [ValueError].  When some item is not a number, either [max]
    raises [TypeError] on a mixed comparison or it returns an item that is
    not a number, and then the comparison with [c] raises [TypeError]. *)
Definition max_gt_num (items : list value) (c : num) : outcome bool :=
  match all_nums items with
  | Some (x :: xs) => Returns (num_gtb (max_num x xs) c)
  | _ => Raises (RuntimeFault "max" [VList items; of_num c])
  end.

(** [x[k]] for a string [k]: [KeyError] when a dictionary lacks the key,
    [TypeError] on everything that is not a dictionary. *)
Definition getitem (x : value) (k : string) : outcome value :=
  match x with
  | VDict d =>
      match lookup_item k d with
      | Some v => Returns v
      | None => Raises (RuntimeFault "getitem" [x; VStr k])
      end
  | _ => Raises (RuntimeFault "getitem" [x; VStr k])
  end.

(** [x[:n]] *)
Definition slice_to (n : nat) (x : value) : outcome value :=
  match x with
  | VList l => Returns (VList (firstn n l))
  | VStr s => Returns (VStr (take n s))
  | _ => Raises (RuntimeFault "slice" [x])
  end.

(** The items a [for] loop or [str.join] draws from [x]. *)
Definition iter (x : value) : outcome (list value) :=
  match x with
  | VList l => Returns l
  | VStr s => Returns (VStr <$> chars s)
  | VDict d => Returns ((fun kv => VStr kv.1) <$> d)
  | _ => Raises (RuntimeFault "iter" [x])
  end.

Fixpoint all_strs (l : list value) : option (list string) :=
  match l with
  | [] => Some []
  | VStr s :: l' =>
      match all_strs l' with
      | Some ss => Some (s :: ss)
      | None => None
      end
  | _ :: _ => None
  end.

(** [sep.join(x)] *)
Definition join_value (sep : string) (x : value) : outcome string :=
  bind_outcome (iter x) (fun items =>
    match all_strs items with
    | Some ss => Returns (join sep ss)
    | None => Raises (RuntimeFault "join" [x])
    end).

(** [x.split(sep)]: only [str] has the method. *)
Definition split_value (x : value) (sep : ascii) : outcome value :=
  match x with
  | VStr s => Returns (VList (VStr <$> split sep s))
  | _ => Raises (RuntimeFault "split" [x])
  end.

(** [x == s] for a string [s] *)
Definition eq_str (x : value) (s : string) : bool :=
  match x with
  | VStr s' => bool_decide (s' = s)
  | _ => false
  end.

(** [s in items] *)
Definition str_in (s : string) (items : list value) : bool :=
  existsb (fun x => eq_str x s) items.

(** What the model leaves to the interpreter and its libraries. *)
Class Runtime : Type := {
  (** [hashlib.md5(s.encode()).hexdigest()] *)
  md5_hexdigest : string -> string;
  (** [str(x)] for [x] that is not a [str] *)
  repr : value -> string;
  (** [str(e)] for an exception raised by the interpreter *)
  fault_text : string -> list value -> string;
  (** [x < y] on two lists; [None] when it raises [TypeError] *)
  list_lt : list value -> list value -> option bool;
  (** [x + y] on an [int] and a [float]; [None] when it raises
      [OverflowError] *)
  mixed_add : num -> num -> option value
}.

Section WithRuntime.
Context {rt : Runtime}.

(** [str(x)], also what an f-string inserts for [{x}] *)
Definition str_of (x : value) : string :=
  match x with
  | VStr s => s
  | _ => repr x
  end.

(** [str(e)] *)
Definition str_exn (e : exn) : string :=
  match e with
  | ClientError msg => msg
  | JSONDecodeError msg => msg
  | RuntimeFault op args => fault_text op args
  end.

(** [x < y] *)
Definition lt (x y : value) : outcome bool :=
  match x, y with
  | VStr a, VStr b => Returns (str_ltb a b)
  | VList a, VList b =>
      match list_lt a b with
      | Some r => Returns r
      | None => Raises (RuntimeFault "<" [x; y])
      end
  | _, _ =>
      match as_num x, as_num y with
      | Some a, Some b => Returns (num_ltb a b)
      | _, _ => Raises (RuntimeFault "<" [x; y])
      end
  end.

(** [min(x, y)]: the second argument is taken only when it is smaller. *)
Definition min2 (x y : value) : outcome value :=
  bind_outcome (lt y x) (fun smaller => Returns (if smaller then y else x)).

(** [x + y] *)
Definition add (x y : value) : outcome value :=
  match x, y with
  | VList a, VList b => Returns (VList (a ++ b))
  | VStr a, VStr b => Returns (VStr (a +:+ b))
  | _, _ =>
      match as_num x, as_num y with
      | Some (NInt a), Some (NInt b) => Returns (VInt (a + b))
      | Some (NFloat a), Some (NFloat b) => Returns (VFloat (a + b)%float)
      | Some a, Some b =>
          match mixed_add a b with
          | Some r => Returns r
          | None => Raises (RuntimeFault "+" [x; y])
          end
      | _, _ => Raises (RuntimeFault "+" [x; y])
      end
  end.

End WithRuntime.

End Py.

(** ** The session: result cache and language-model client *)

(** The keyword arguments of one [client.chat.completions.create] call;
    [response_format] is [{"type": "json_object"}] in every call. *)
Record request : Type := Request {
  model : string;
  system_content : string;
  user_content : string;
  temperature : float;
  max_tokens : Z;
  seed : option Z
}.

(** What one call to the client, followed by
    [json.loads(response.choices[0].message.content)], comes to: the call
    (or the access to the response) raises, the content is not JSON, or
    the content decodes to a value. *)
Inductive reply : Type :=
| CallRaises (msg : string)
| ContentNotJson (msg : string)
| ContentJson (v : Py.value).

(** [ai_analysis_cache] is the dictionary of [st.session_state]; [sent]
    lists the requests made so far, oldest first. *)
Record session : Type := Session {
  ai_analysis_cache : gmap string Py.value;
  sent : list request
}.

Definition M (A : Type) : Type := session -> Py.outcome A * session.

Definition ret {A} (a : A) : M A := fun s => (Py.Returns a, s).

Definition bind {A B} (c : M A) (k : A -> M B) : M B :=
  fun s =>
    match c s with
    | (Py.Returns a, s') => k a s'
    | (Py.Raises e, s') => (Py.Raises e, s')
    end.

Notation "'let*' x ':=' c 'in' k" := (bind c (fun x => k))
  (at level 10, x name, c at level 100, k at level 200).

(** A pure operation of the interpreter, run inside a method. *)
Definition lift {A} (o : Py.outcome A) : M A := fun s => (o, s).

(** [try: body / except Exception as e: handler(e)] *)
Definition try_except {A} (body : M A) (handler : Py.exn -> M A) : M A :=
  fun s =>
    match body s with
    | (Py.Returns a, s') => (Py.Returns a, s')
    | (Py.Raises e, s') => handler e s'
    end.

(** [st.session_state.ai_analysis_cache.get(key)]: the test
    [key in cache] and the read [cache[key]] in one. *)
Definition cache_lookup (key : string) : M (option Py.value) :=
  fun s => (Py.Returns (ai_analysis_cache s !! key), s).

(** [st.session_state.ai_analysis_cache[key] = v] *)
Definition cache_store (key : string) (v : Py.value) : M unit :=
  fun s =>
    (Py.Returns tt,
     {| ai_analysis_cache := <[key := v]> (ai_analysis_cache s); sent := sent s |}).

(** The language-model service: its answer to the [i]-th request of the
    session.  It may depend on [i], so it need not answer the same request
    twice in the same way, and it may stop answering at any point. *)
Definition service : Type := nat -> request -> reply.

(** One call to the client and the decoding of its content. *)
Definition ask (client : service) (req : request) : M Py.value :=
  fun s =>
    let s' := {| ai_analysis_cache := ai_analysis_cache s; sent := sent s ++ [req] |} in
    match client (length (sent s)) req with
    | CallRaises msg => (Py.Raises (Py.ClientError msg), s')
    | ContentNotJson msg => (Py.Raises (Py.JSONDecodeError msg), s')
    | ContentJson v => (Py.Returns v, s')
    end.

(** ** The prompt templates, with their placeholders filled in *)

Module Prompts.

Definition dq : string := String (ascii_of_nat 34) EmptyString.

(** [s] between double quotes *)
Definition q (s : string) : string := dq +:+ s +:+ dq.

(** [SearchRelevancePrompts.get_semantic_match_prompt().format(...)] *)
Definition get_semantic_match_prompt (search_query document_text : string) : string :=
  "Identify if this document contains concepts semantically related to: " +:+ q search_query +:+ "

DOCUMENT EXCERPT:
" +:+ document_text +:+ "

Return JSON:
{
    " +:+ q "contains_related_concepts" +:+ ": true/false,
    " +:+ q "semantic_similarity_score" +:+ ": 0.0 to 1.0,
    " +:+ q "matched_concepts" +:+ ": [" +:+ q "list of matched concepts" +:+ "]
}".

(** [SearchRelevancePrompts.get_relevance_scoring_prompt().format(...)] *)
Definition get_relevance_scoring_prompt (search_query matched_concepts : string) : string :=
  "Score the relevance of this document to the query: " +:+ q search_query +:+ "

CONCEPTS FOUND: " +:+ matched_concepts +:+ "

Return JSON:
{
    " +:+ q "relevance_score" +:+ ": 0.0 to 1.0,
    " +:+ q "relevance_category" +:+ ": " +:+ q "Direct Match|Related|Tangential|Not Relevant" +:+ "
}".

(** [SearchRelevancePrompts.get_excerpt_extraction_prompt().format(...)] *)
Definition get_excerpt_extraction_prompt (search_query document_text : string) : string :=
  "Extract relevant quotes about " +:+ q search_query +:+ " from this text:

TEXT: " +:+ document_text +:+ "

Return JSON:
{
    " +:+ q "relevant_excerpts" +:+ ": [" +:+ q "up to 3 quotes, max 50 words each" +:+ "],
    " +:+ q "excerpt_relevance_scores" +:+ ": [0.0 to 1.0 for each]
}".

(** [RegulatoryTrackingPrompts.get_regulation_detection_prompt().format(...)] *)
Definition get_regulation_detection_prompt (regulation_topic document_text : string) : string :=
  "Detect if this document mentions or relates to: " +:+ q regulation_topic +:+ "

TEXT: " +:+ document_text +:+ "

Return JSON:
{
    " +:+ q "mentions_regulation" +:+ ": true/false,
    " +:+ q "mention_type" +:+ ": " +:+ q "Explicit|Implicit|Related Area|None" +:+ ",
    " +:+ q "confidence" +:+ ": 0.0 to 1.0
}".

(** [RegulatoryTrackingPrompts.get_relationship_classification_prompt().format(...)] *)
Definition get_relationship_classification_prompt (regulation_topic mention_context : string) : string :=
  "Classify how this document relates to " +:+ q regulation_topic +:+ ":

DOCUMENT CONTEXT: " +:+ mention_context +:+ "

Return JSON:
{
    " +:+ q "relationship_type" +:+ ": " +:+ q "Direct mention|Implementation|Amendment|Related topic|Reference|None" +:+ ",
    " +:+ q "relationship_strength" +:+ ": 0.0 to 1.0
}".

(** [RegulatoryTrackingPrompts.get_temporal_extraction_prompt().format(...)] *)
Definition get_temporal_extraction_prompt (regulation_topic document_text : string) : string :=
  "Extract temporal information related to " +:+ q regulation_topic +:+ ":

TEXT: " +:+ document_text +:+ "

Return JSON:
{
    " +:+ q "dates_mentioned" +:+ ": [" +:+ q "YYYY-MM-DD format if found" +:+ "],
    " +:+ q "deadlines" +:+ ": [" +:+ q "deadline descriptions" +:+ "],
    " +:+ q "time_references" +:+ ": [" +:+ q "any temporal language" +:+ "]
}".

(** [RegulatoryTrackingPrompts.get_evolution_indicators_prompt().format(...)] *)
Definition get_evolution_indicators_prompt (regulation_topic document_text : string) : string :=
  "Identify how this document shows evolution of " +:+ q regulation_topic +:+ ":

TEXT: " +:+ document_text +:+ "

Return JSON:
{
    " +:+ q "evolution_type" +:+ ": " +:+ q "New Introduction|Amendment|Clarification|Extension|None" +:+ ",
    " +:+ q "evolution_indicators" +:+ ": [" +:+ q "specific indicators found" +:+ "],
    " +:+ q "importance" +:+ ": " +:+ q "High|Medium|Low" +:+ "
}".

(** [DocumentSummaryPrompts.get_document_type_prompt().format(...)] *)
Definition get_document_type_prompt (document_text : string) : string :=
  "Identify the type of this legal document:

TEXT (first 500 chars): " +:+ document_text +:+ "

Return JSON:
{
    " +:+ q "document_type" +:+ ": " +:+ q "Regulation|Directive|Decision|Communication|Recommendation|Opinion|Other" +:+ ",
    " +:+ q "type_confidence" +:+ ": 0.0 to 1.0
}".

(** [DocumentSummaryPrompts.get_main_purpose_prompt().format(...)] *)
Definition get_main_purpose_prompt (document_text : string) : string :=
  "Extract the main purpose of this document in one sentence:

TEXT: " +:+ document_text +:+ "

Return JSON:
{
    " +:+ q "main_purpose" +:+ ": " +:+ q "One sentence, max 25 words" +:+ ",
    " +:+ q "purpose_clarity" +:+ ": 0.0 to 1.0
}".

(** [DocumentSummaryPrompts.get_key_points_prompt().format(...)] *)
Definition get_key_points_prompt (document_text : string) : string :=
  "Extract 3 key points from this document:

TEXT: " +:+ document_text +:+ "

Return JSON:
{
    " +:+ q "key_points" +:+ ": [
        {" +:+ q "point" +:+ ": " +:+ q "max 15 words" +:+ ", " +:+ q "importance" +:+ ": 0.0 to 1.0},
        {" +:+ q "point" +:+ ": " +:+ q "max 15 words" +:+ ", " +:+ q "importance" +:+ ": 0.0 to 1.0},
        {" +:+ q "point" +:+ ": " +:+ q "max 15 words" +:+ ", " +:+ q "importance" +:+ ": 0.0 to 1.0}
    ]
}".

(** [DocumentStructurePrompts.get_section_detection_prompt().format(...)] *)
Definition get_section_detection_prompt (document_text : string) : string :=
  "Identify structural sections in this document:

TEXT: " +:+ document_text +:+ "

Return JSON:
{
    " +:+ q "sections_found" +:+ ": [
        {" +:+ q "type" +:+ ": " +:+ q "Article|Chapter|Section|Annex" +:+ ", " +:+ q "identifier" +:+ ": " +:+ q "number/name" +:+ "}
    ],
    " +:+ q "has_structured_format" +:+ ": true/false
}".

(** [DocumentStructurePrompts.get_article_extraction_prompt().format(...)] *)
Definition get_article_extraction_prompt (document_text : string) : string :=
  "Extract article information if present:

TEXT: " +:+ document_text +:+ "

Return JSON:
{
    " +:+ q "articles" +:+ ": [
        {" +:+ q "number" +:+ ": " +:+ q "Article X" +:+ ", " +:+ q "title" +:+ ": " +:+ q "if present" +:+ ", " +:+ q "preview" +:+ ": " +:+ q "first 30 words" +:+ "}
    ],
    " +:+ q "total_articles" +:+ ": 0
}".

(** [ComplianceAnalysisPrompts.get_sector_relevance_prompt().format(...)] *)
Definition get_sector_relevance_prompt (sector document_text : string) : string :=
  "Is this document relevant to the " +:+ sector +:+ " sector?

TEXT: " +:+ document_text +:+ "

Return JSON:
{
    " +:+ q "is_relevant" +:+ ": true/false,
    " +:+ q "relevance_indicators" +:+ ": [" +:+ q "specific indicators" +:+ "],
    " +:+ q "relevance_score" +:+ ": 0.0 to 1.0
}".

(** [ComplianceAnalysisPrompts.get_compliance_requirements_prompt().format(...)] *)
Definition get_compliance_requirements_prompt (sector document_text : string) : string :=
  "Extract compliance requirements for " +:+ sector +:+ ":

TEXT: " +:+ document_text +:+ "

Return JSON:
{
    " +:+ q "requirements" +:+ ": [" +:+ q "specific requirements found" +:+ "],
    " +:+ q "requirement_type" +:+ ": " +:+ q "Mandatory|Recommended|Optional" +:+ ",
    " +:+ q "has_deadlines" +:+ ": true/false
}".

(** [ComplianceAnalysisPrompts.get_implementation_complexity_prompt().format(...)] *)
Definition get_implementation_complexity_prompt (sector requirements : string) : string :=
  "Assess implementation complexity for " +:+ sector +:+ ":

REQUIREMENTS: " +:+ requirements +:+ "

Return JSON:
{
    " +:+ q "complexity_level" +:+ ": " +:+ q "High|Medium|Low" +:+ ",
    " +:+ q "complexity_factors" +:+ ": [" +:+ q "factors contributing to complexity" +:+ "],
    " +:+ q "estimated_effort" +:+ ": " +:+ q "Major|Moderate|Minor" +:+ "
}".

(** [TopicAnalysisPrompts.get_legal_domains_prompt().format(...)] *)
Definition get_legal_domains_prompt (document_text : string) : string :=
  "Identify primary legal domains covered:

TEXT: " +:+ document_text +:+ "

Return JSON:
{
    " +:+ q "legal_domains" +:+ ": [" +:+ q "Data Protection" +:+ ", " +:+ q "Competition Law" +:+ ", " +:+ q "Financial Services" +:+ ", etc.],
    " +:+ q "domain_relevance_scores" +:+ ": {domain: 0.0 to 1.0},
    " +:+ q "primary_domain" +:+ ": " +:+ q "main domain" +:+ "
}".

(** The prompt of [comprehensive_document_analysis], given [document_text[:4000]]. *)
Definition comprehensive_prompt (excerpt : string) : string :=
  "
You are a senior legal analyst specializing in European Union law. Analyze this document with extreme precision.

CRITICAL RULES:
1. Extract ONLY information that is EXPLICITLY stated in the text
2. If information is not found, use " +:+ q "Not specified" +:+ "
3. Never infer or guess information
4. Provide confidence scores (0.0-1.0) for each section

DOCUMENT TEXT:
" +:+ excerpt +:+ "

Provide analysis in this exact JSON format:

{
    " +:+ q "document_metadata" +:+ ": {
        " +:+ q "title" +:+ ": " +:+ q "Extract the exact title if present, otherwise 'Not specified'" +:+ ",
        " +:+ q "document_type" +:+ ": " +:+ q "Regulation|Directive|Decision|Communication|Other" +:+ ",
        " +:+ q "reference_number" +:+ ": " +:+ q "Extract exact reference number if present" +:+ ",
        " +:+ q "publication_date" +:+ ": " +:+ q "Extract date if mentioned (YYYY-MM-DD) or 'Not specified'" +:+ ",
        " +:+ q "confidence_score" +:+ ": 0.0
    },
    " +:+ q "summary" +:+ ": {
        " +:+ q "executive_summary" +:+ ": " +:+ q "2-3 sentence summary of what this document does" +:+ ",
        " +:+ q "key_points" +:+ ": [
            " +:+ q "First key point (max 20 words)" +:+ ",
            " +:+ q "Second key point (max 20 words)" +:+ ",
            " +:+ q "Third key point (max 20 words)" +:+ "
        ],
        " +:+ q "confidence_score" +:+ ": 0.0
    },
    " +:+ q "legal_analysis" +:+ ": {
        " +:+ q "primary_topics" +:+ ": [" +:+ q "List main legal topics covered" +:+ "],
        " +:+ q "affected_sectors" +:+ ": [" +:+ q "List business sectors affected" +:+ "],
        " +:+ q "geographic_scope" +:+ ": " +:+ q "EU-wide|Specific countries|Not specified" +:+ ",
        " +:+ q "confidence_score" +:+ ": 0.0
    },
    " +:+ q "compliance_requirements" +:+ ": {
        " +:+ q "key_obligations" +:+ ": [" +:+ q "List main compliance requirements found" +:+ "],
        " +:+ q "deadlines" +:+ ": [" +:+ q "List any deadlines mentioned" +:+ "],
        " +:+ q "penalties" +:+ ": " +:+ q "Describe penalties if mentioned or 'Not specified'" +:+ ",
        " +:+ q "confidence_score" +:+ ": 0.0
    },
    " +:+ q "risk_indicators" +:+ ": {
        " +:+ q "urgency" +:+ ": " +:+ q "High|Medium|Low|Not specified" +:+ ",
        " +:+ q "complexity" +:+ ": " +:+ q "High|Medium|Low|Not specified" +:+ ",
        " +:+ q "enforcement_risk" +:+ ": " +:+ q "High|Medium|Low|Not specified" +:+ ",
        " +:+ q "confidence_score" +:+ ": 0.0
    },
    " +:+ q "overall_confidence" +:+ ": 0.0
}

IMPORTANT: Only extract what is explicitly written. Never make assumptions.".


Arguments get_semantic_match_prompt : simpl never.
Arguments get_relevance_scoring_prompt : simpl never.
Arguments get_excerpt_extraction_prompt : simpl never.
Arguments get_regulation_detection_prompt : simpl never.
Arguments get_relationship_classification_prompt : simpl never.
Arguments get_temporal_extraction_prompt : simpl never.
Arguments get_evolution_indicators_prompt : simpl never.
Arguments get_document_type_prompt : simpl never.
Arguments get_main_purpose_prompt : simpl never.
Arguments get_key_points_prompt : simpl never.
Arguments get_section_detection_prompt : simpl never.
Arguments get_article_extraction_prompt : simpl never.
Arguments get_sector_relevance_prompt : simpl never.
Arguments get_compliance_requirements_prompt : simpl never.
Arguments get_implementation_complexity_prompt : simpl never.
Arguments get_legal_domains_prompt : simpl never.
Arguments comprehensive_prompt : simpl never.

End Prompts.

(** ** The analyzer *)

Section LegalAIAnalyzer.

Context {rt : Py.Runtime}.

(** [self.client], and the [seed] keyword the focused prompts pass along:
    absent in [app.py], [42] in the gateway variant. *)
Variable client : service.
Variable self_seed : option Z.

Import Py.

(** [self.temperature] *)
Definition self_temperature : float := 0.0%float.

(** The request of a focused prompt: one system message, one user
    message, [temperature=self.temperature]. *)
Definition focused (system user : string) (tokens : Z) : request :=
  {| model := "gpt-4o-mini"; system_content := system; user_content := user;
     temperature := self_temperature; max_tokens := tokens; seed := self_seed |}.

Fixpoint map_outcome {A B} (f : A -> outcome B) (l : list A) : outcome (list B) :=
  match l with
  | [] => Returns []
  | x :: l' =>
      bind_outcome (f x) (fun y =>
      bind_outcome (map_outcome f l') (fun ys => Returns (y :: ys)))
  end.

(** [any(f(x) for x in l)]: stops at the first true item. *)
Fixpoint any_outcome {A} (f : A -> outcome bool) (l : list A) : outcome bool :=
  match l with
  | [] => Returns false
  | x :: l' =>
      bind_outcome (f x) (fun b => if b then Returns true else any_outcome f l')
  end.

(** [len(x)] *)
Definition len_value (x : value) : outcome value :=
  match x with
  | VList l => Returns (VInt (Z.of_nat (length l)))
  | VStr s => Returns (VInt (Z.of_nat (len s)))
  | VDict d => Returns (VInt (Z.of_nat (length d)))
  | _ => Raises (RuntimeFault "len" [x])
  end.

Definition create_cache_key (text analysis_type : string) : string :=
  let content_hash := md5_hexdigest (take 1000 text) in
  analysis_type +:+ "_" +:+ content_hash.

Definition create_fallback_analysis (error_message : string) : value :=
  VDict [
    ("document_metadata", VDict [
       ("title", VStr "Analysis unavailable");
       ("document_type", VStr "Other");
       ("reference_number", VStr "Not specified");
       ("confidence_score", VFloat 0.0)]);
    ("summary", VDict [
       ("executive_summary", VStr error_message);
       ("key_points", VList [VStr "Analysis failed"]);
       ("confidence_score", VFloat 0.0)]);
    ("overall_confidence", VFloat 0.0);
    ("error", VStr error_message)].

(** *** [comprehensive_document_analysis] *)

Definition comprehensive_request (document_text : string) : request :=
  {| model := "gpt-4o-mini";
     system_content := "You are a precise legal document analyzer. Extract only explicit information. Never hallucinate.";
     user_content := Prompts.comprehensive_prompt (take 4000 document_text);
     temperature := 0.1%float; max_tokens := 2000; seed := None |}.

Definition comprehensive_try (cache_key document_text : string) : M value :=
  let* analysis := ask client (comprehensive_request document_text) in
  let* _ := cache_store cache_key analysis in
  ret analysis.

Definition comprehensive_except (e : exn) : value :=
  create_fallback_analysis ("AI analysis failed: " +:+ str_exn e).

(** [not document_text or len(str(document_text).strip()) < 50] *)
Definition too_short (document_text : string) : bool :=
  bool_decide (document_text = EmptyString) || (len (strip document_text) <? 50).

Definition comprehensive_document_analysis (document_text : string) : M value :=
  if too_short document_text then
    ret (create_fallback_analysis "Document text too short or empty")
  else
    let cache_key := create_cache_key document_text "comprehensive" in
    let* cached := cache_lookup cache_key in
    match cached with
    | Some hit => ret hit
    | None =>
        try_except (comprehensive_try cache_key document_text)
                   (fun e => ret (comprehensive_except e))
    end.

(** *** [ai_powered_search] *)

Definition search_cache_key (document_text search_query : string) : string :=
  create_cache_key (take 500 document_text +:+ "_" +:+ search_query) "search".

Definition no_excerpts : value :=
  VDict [("relevant_excerpts", VList []); ("excerpt_relevance_scores", VList [])].

Definition semantic_request (document_text search_query : string) : request :=
  focused "You are a legal semantic analysis expert."
    (Prompts.get_semantic_match_prompt search_query (take 1500 document_text)) 300.

Definition relevance_request (search_query matched_concepts : string) : request :=
  focused "You are a legal relevance scoring expert."
    (Prompts.get_relevance_scoring_prompt search_query matched_concepts) 200.

Definition excerpt_request (document_text search_query : string) : request :=
  focused "You are a legal text extraction specialist."
    (Prompts.get_excerpt_extraction_prompt search_query (take 2000 document_text)) 400.

Definition search_try (cache_key document_text search_query : string) : M value :=
  (* Step 1: semantic matching *)
  let* semantic_result := ask client (semantic_request document_text search_query) in
  (* Step 2: relevance scoring *)
  let* concepts := lift (get semantic_result "matched_concepts" (VList [])) in
  let* matched_concepts := lift (join_value ", " concepts) in
  let* relevance_result := ask client (relevance_request search_query matched_concepts) in
  (* Step 3: extract excerpts if relevant *)
  let* score := lift (get relevance_result "relevance_score" (VInt 0)) in
  let* relevant := lift (gt_num score (NFloat 0.3)) in
  let* excerpts :=
    if relevant then ask client (excerpt_request document_text search_query)
    else ret no_excerpts in
  (* Combine results *)
  let* relevance_score := lift (get relevance_result "relevance_score" (VFloat 0.0)) in
  let* score' := lift (get relevance_result "relevance_score" (VInt 0)) in
  let* is_relevant := lift (gt_num score' (NFloat 0.3)) in
  let* matching_concepts := lift (get semantic_result "matched_concepts" (VList [])) in
  let* relevant_excerpts := lift (get excerpts "relevant_excerpts" (VList [])) in
  let* category := lift (get relevance_result "relevance_category" (VStr "Not Relevant")) in
  let* confidence_score := lift (get semantic_result "semantic_similarity_score" (VFloat 0.0)) in
  let result := VDict [
    ("relevance_score", relevance_score);
    ("is_relevant", VBool is_relevant);
    ("matching_concepts", matching_concepts);
    ("relevant_excerpts", relevant_excerpts);
    ("explanation", VStr (str_of category +:+ " match for " +:+ search_query));
    ("confidence_score", confidence_score)] in
  let* _ := cache_store cache_key result in
  ret result.

Definition search_except (e : exn) : value :=
  VDict [("relevance_score", VFloat 0.0); ("is_relevant", VBool false);
         ("error", VStr (str_exn e))].

Definition ai_powered_search (document_text search_query : string) : M value :=
  let cache_key := search_cache_key document_text search_query in
  let* cached := cache_lookup cache_key in
  match cached with
  | Some hit => ret hit
  | None =>
      try_except (search_try cache_key document_text search_query)
                 (fun e => ret (search_except e))
  end.

(** *** [ai_regulatory_tracking] *)

Definition tracking_cache_key (document_text regulation_topic : string) : string :=
  create_cache_key (take 500 document_text +:+ "_" +:+ regulation_topic) "tracking".

(** The result of the early return, when the detection reports no mention. *)
Definition not_related (confidence : value) : value :=
  VDict [("relevance_score", VFloat 0.0); ("is_related", VBool false);
         ("relationship_type", VStr "None"); ("confidence_score", confidence)].

Definition detection_request (document_text regulation_topic : string) : request :=
  focused "You are a regulatory detection expert."
    (Prompts.get_regulation_detection_prompt regulation_topic (take 2000 document_text)) 200.

Definition relationship_request (document_text regulation_topic : string) : request :=
  focused "You are a regulatory relationship classifier."
    (Prompts.get_relationship_classification_prompt regulation_topic
       (take 1500 document_text)) 200.

Definition temporal_request (document_text regulation_topic : string) : request :=
  focused "You are a temporal information extraction expert."
    (Prompts.get_temporal_extraction_prompt regulation_topic (take 2000 document_text)) 300.

Definition evolution_request (document_text regulation_topic : string) : request :=
  focused "You are a regulatory evolution analyst."
    (Prompts.get_evolution_indicators_prompt regulation_topic (take 2000 document_text)) 300.

Definition tracking_try (cache_key document_text regulation_topic : string) : M value :=
  (* Step 1: detect regulation mentions *)
  let* detection := ask client (detection_request document_text regulation_topic) in
  let* mentions := lift (get detection "mentions_regulation" VNone) in
  if negb (truthy mentions) then
    let* confidence := lift (get detection "confidence" (VFloat 0.0)) in
    ret (not_related confidence)
  else
    (* Step 2: classify relationship *)
    let* relationship := ask client (relationship_request document_text regulation_topic) in
    (* Step 3: extract temporal information *)
    let* temporal := ask client (temporal_request document_text regulation_topic) in
    (* Step 4: identify evolution indicators *)
    let* evolution := ask client (evolution_request document_text regulation_topic) in
    (* Combine results *)
    let* relevance_score := lift (get relationship "relationship_strength" (VFloat 0.0)) in
    let* relationship_type := lift (get relationship "relationship_type" (VStr "Related topic")) in
    let* mention_type := lift (get detection "mention_type" VNone) in
    let* related_concepts :=
      if truthy mention_type then
        let* mention_type' := lift (get detection "mention_type" (VStr "")) in
        lift (split_value mention_type' "|"%char)
      else ret (VList []) in
    let* dates := lift (get temporal "dates_mentioned" (VList [])) in
    let* deadlines := lift (get temporal "deadlines" (VList [])) in
    let* temporal_references := lift (add dates deadlines) in
    let* evolution_indicators := lift (get evolution "evolution_indicators" (VList [])) in
    let* importance := lift (get evolution "importance" (VStr "Medium")) in
    let* confidence_score := lift (get detection "confidence" (VFloat 0.0)) in
    let result := VDict [
      ("relevance_score", relevance_score);
      ("is_related", VBool true);
      ("relationship_type", relationship_type);
      ("specific_mentions", VList []);
      ("related_concepts", related_concepts);
      ("temporal_references", temporal_references);
      ("evolution_indicators", evolution_indicators);
      ("importance", importance);
      ("confidence_score", confidence_score)] in
    let* _ := cache_store cache_key result in
    ret result.

Definition tracking_except (e : exn) : value :=
  VDict [("relevance_score", VFloat 0.0); ("is_related", VBool false);
         ("error", VStr (str_exn e))].

Definition ai_regulatory_tracking (document_text regulation_topic : string) : M value :=
  let cache_key := tracking_cache_key document_text regulation_topic in
  let* cached := cache_lookup cache_key in
  match cached with
  | Some hit => ret hit
  | None =>
      try_except (tracking_try cache_key document_text regulation_topic)
                 (fun e => ret (tracking_except e))
  end.

(** *** [generate_ai_summary] *)

Definition type_request (document_text : string) : request :=
  focused "You are a legal document classifier."
    (Prompts.get_document_type_prompt (take 500 document_text)) 150.

Definition purpose_request (document_text : string) : request :=
  focused "You are a legal document purpose analyst."
    (Prompts.get_main_purpose_prompt (take 1500 document_text)) 150.

Definition points_request (document_text : string) : request :=
  focused "You are a legal key points extractor."
    (Prompts.get_key_points_prompt (take 2000 document_text)) 300.

Definition domains_request (document_text : string) : request :=
  focused "You are a legal domain identification expert."
    (Prompts.get_legal_domains_prompt (take 1500 document_text)) 300.

Definition summary_try (cache_key document_text : string) : M value :=
  (* Step 1: identify document type *)
  let* doc_type := ask client (type_request document_text) in
  (* Step 2: extract main purpose *)
  let* purpose := ask client (purpose_request document_text) in
  (* Step 3: extract key points *)
  let* points := ask client (points_request document_text) in
  (* Step 4: extract legal domains *)
  let* domains := ask client (domains_request document_text) in
  (* Combine results *)
  let* document_type := lift (get doc_type "document_type" (VStr "Other")) in
  let* main_purpose := lift (get purpose "main_purpose" (VStr "Not specified")) in
  let* listed := lift (get points "key_points" (VList [])) in
  let* items := lift (iter listed) in
  let* key_points := lift (map_outcome (fun p => getitem p "point") items) in
  let* listed' := lift (get points "key_points" (VList [VDict [("importance", VInt 0)]])) in
  let* items' := lift (iter listed') in
  let* scores := lift (map_outcome (fun p => get p "importance" (VInt 0)) items') in
  let* high := lift (max_gt_num scores (NFloat 0.7)) in
  let* legal_domains := lift (get domains "legal_domains" (VList [])) in
  let* topics := lift (slice_to 2 legal_domains) in
  let* type_confidence := lift (get doc_type "type_confidence" (VFloat 0.0)) in
  let* purpose_clarity := lift (get purpose "purpose_clarity" (VFloat 0.0)) in
  let* confidence_score := lift (min2 type_confidence purpose_clarity) in
  let summary := VDict [
    ("document_type", document_type);
    ("main_purpose", main_purpose);
    ("key_points", VList key_points);
    ("importance", VStr (if high then "High" else "Medium"));
    ("topics", topics);
    ("confidence_score", confidence_score)] in
  let* _ := cache_store cache_key summary in
  ret summary.

Definition summary_except (e : exn) : value :=
  VDict [("main_purpose", VStr "Summary generation failed");
         ("key_points", VList [VStr "Unable to generate summary"]);
         ("confidence_score", VFloat 0.0);
         ("error", VStr (str_exn e))].

Definition generate_ai_summary (document_text : string) : M value :=
  let cache_key := create_cache_key document_text "summary" in
  let* cached := cache_lookup cache_key in
  match cached with
  | Some hit => ret hit
  | None =>
      try_except (summary_try cache_key document_text)
                 (fun e => ret (summary_except e))
  end.

(** *** [extract_document_structure] *)

Definition no_articles : value :=
  VDict [("articles", VList []); ("total_articles", VInt 0)].

(** One entry of the [sections] list, built from a detected section [s]. *)
Definition section_entry (s : value) : outcome value :=
  bind_outcome (getitem s "type") (fun type =>
  bind_outcome (getitem s "identifier") (fun number =>
  bind_outcome (getitem s "type") (fun type' =>
  bind_outcome (getitem s "identifier") (fun identifier' =>
  Returns (VDict [
    ("type", type);
    ("number", number);
    ("heading", VStr (str_of type' +:+ " " +:+ str_of identifier'));
    ("summary", VStr "")]))))).

Definition is_annex (s : value) : outcome bool :=
  bind_outcome (getitem s "type") (fun type => Returns (eq_str type "Annex")).

Definition sections_request (document_text : string) : request :=
  focused "You are a document structure analyst."
    (Prompts.get_section_detection_prompt (take 2000 document_text)) 400.

Definition articles_request (document_text : string) : request :=
  focused "You are an article extraction specialist."
    (Prompts.get_article_extraction_prompt (take 3000 document_text)) 600.

Definition structure_try (cache_key document_text : string) : M value :=
  (* Step 1: detect sections *)
  let* sections := ask client (sections_request document_text) in
  (* Step 2: extract articles if structured *)
  let* structured := lift (get sections "has_structured_format" VNone) in
  let* articles :=
    if truthy structured then ask client (articles_request document_text)
    else ret no_articles in
  (* Combine results *)
  let* found := lift (get sections "sections_found" (VList [])) in
  let* items := lift (iter found) in
  let* entries := lift (map_outcome section_entry items) in
  let* total_articles := lift (get articles "total_articles" (VInt 0)) in
  let* has_articles := lift (gt_num total_articles (NInt 0)) in
  let* found' := lift (get sections "sections_found" (VList [])) in
  let* items' := lift (iter found') in
  let* has_annexes := lift (any_outcome is_annex items') in
  let* found'' := lift (get sections "sections_found" (VList [])) in
  let* total_sections := lift (len_value found'') in
  let structure := VDict [
    ("title", VStr "Document Structure Analysis");
    ("sections", VList entries);
    ("has_articles", VBool has_articles);
    ("has_annexes", VBool has_annexes);
    ("total_sections", total_sections);
    ("confidence_score", VFloat 0.8)] in
  let* _ := cache_store cache_key structure in
  ret structure.

Definition structure_except (e : exn) : value :=
  VDict [("sections", VList []); ("confidence_score", VFloat 0.0);
         ("error", VStr (str_exn e))].

Definition extract_document_structure (document_text : string) : M value :=
  let cache_key := create_cache_key document_text "structure" in
  let* cached := cache_lookup cache_key in
  match cached with
  | Some hit => ret hit
  | None =>
      try_except (structure_try cache_key document_text)
                 (fun e => ret (structure_except e))
  end.

(** *** [assess_compliance_impact] *)

Definition compliance_cache_key (document_text : string) (sectors : list string) : string :=
  create_cache_key (take 500 document_text +:+ "_" +:+ join "," sectors) "compliance".

Definition sector_relevance_request (document_text sector : string) : request :=
  focused "You are a sector relevance analyst."
    (Prompts.get_sector_relevance_prompt sector (take 1500 document_text)) 200.

Definition requirements_request (document_text sector : string) : request :=
  focused "You are a compliance requirements extractor."
    (Prompts.get_compliance_requirements_prompt sector (take 2000 document_text)) 400.

Definition complexity_request (sector requirements : string) : request :=
  focused "You are an implementation complexity assessor."
    (Prompts.get_implementation_complexity_prompt sector requirements) 200.

(** The body of the loop, for one [sector]; [sector_impacts] is the
    dictionary filled so far. *)
Definition assess_sector (document_text sector : string)
    (sector_impacts : list (string * value)) : M (list (string * value)) :=
  (* Step 1: check sector relevance *)
  let* relevance := ask client (sector_relevance_request document_text sector) in
  let* is_relevant := lift (get relevance "is_relevant" VNone) in
  if truthy is_relevant then
    (* Step 2: extract requirements *)
    let* requirements := ask client (requirements_request document_text sector) in
    (* Step 3: assess complexity *)
    let* listed := lift (get requirements "requirements" (VList [])) in
    let* joined := lift (join_value ", " listed) in
    let* complexity := ask client (complexity_request sector joined) in
    let* impact_level := lift (get complexity "complexity_level" (VStr "Medium")) in
    let* specific_requirements := lift (get requirements "requirements" (VList [])) in
    ret (set_item sector
           (VDict [("impact_level", impact_level);
                   ("specific_requirements", specific_requirements);
                   ("deadlines", VList []);
                   ("actions_required", VList [])])
           sector_impacts)
  else ret sector_impacts.

(** [for sector in ...: ...] *)
Fixpoint assess_sectors (document_text : string) (sectors : list string)
    (sector_impacts : list (string * value)) : M (list (string * value)) :=
  match sectors with
  | [] => ret sector_impacts
  | sector :: rest =>
      let* sector_impacts' := assess_sector document_text sector sector_impacts in
      assess_sectors document_text rest sector_impacts'
  end.

(** ['High' if 'High' in impact_levels else 'Medium' if 'Medium' in
    impact_levels else 'Low'] *)
Definition overall_of (impact_levels : list value) : string :=
  if str_in "High" impact_levels then "High"
  else if str_in "Medium" impact_levels then "Medium"
  else "Low".

Definition compliance_try (cache_key document_text : string) (sectors : list string)
  : M value :=
  let* sector_impacts := assess_sectors document_text (firstn 3 sectors) [] in
  (* Determine overall impact *)
  let* impact_levels :=
    lift (map_outcome (fun v => get v "impact_level" (VStr "Low")) (sector_impacts.*2)) in
  let overall_impact := overall_of impact_levels in
  let result := VDict [
    ("overall_impact", VStr overall_impact);
    ("sector_impacts", VDict sector_impacts);
    ("cross_sector_requirements", VList []);
    ("implementation_complexity", VStr overall_impact);
    ("confidence_score", VFloat 0.7)] in
  let* _ := cache_store cache_key result in
  ret result.

Definition compliance_except (e : exn) : value :=
  VDict [("overall_impact", VStr "Error"); ("confidence_score", VFloat 0.0);
         ("error", VStr (str_exn e))].

Definition assess_compliance_impact (document_text : string) (sectors : list string)
  : M value :=
  let cache_key := compliance_cache_key document_text sectors in
  let* cached := cache_lookup cache_key in
  match cached with
  | Some hit => ret hit
  | None =>
      try_except (compliance_try cache_key document_text sectors)
                 (fun e => ret (compliance_except e))
  end.

(** *** The six public operations, as one family *)

Inductive analysis : Type :=
| Comprehensive (document_text : string)
| Search (document_text search_query : string)
| Tracking (document_text regulation_topic : string)
| Summary (document_text : string)
| Structure (document_text : string)
| Compliance (document_text : string) (sectors : list string).

Definition perform (a : analysis) : M value :=
  match a with
  | Comprehensive t => comprehensive_document_analysis t
  | Search t query => ai_powered_search t query
  | Tracking t topic => ai_regulatory_tracking t topic
  | Summary t => generate_ai_summary t
  | Structure t => extract_document_structure t
  | Compliance t sectors => assess_compliance_impact t sectors
  end.

(** The string an operation hands to [hashlib.md5], before
    [create_cache_key] cuts it to 1000 characters. *)
Definition keyed_text (a : analysis) : string :=
  match a with
  | Comprehensive t | Summary t | Structure t => t
  | Search t x | Tracking t x => take 500 t +:+ "_" +:+ x
  | Compliance t sectors => take 500 t +:+ "_" +:+ join "," sectors
  end.

Definition kind_of (a : analysis) : string :=
  match a with
  | Comprehensive _ => "comprehensive"
  | Search _ _ => "search"
  | Tracking _ _ => "tracking"
  | Summary _ => "summary"
  | Structure _ => "structure"
  | Compliance _ _ => "compliance"
  end.

Definition cache_key_of (a : analysis) : string :=
  create_cache_key (keyed_text a) (kind_of a).

(** The [try] block of an operation and the value its [except] clause
    returns. *)
Definition try_block (a : analysis) : M value :=
  match a with
  | Comprehensive t => comprehensive_try (cache_key_of a) t
  | Search t query => search_try (cache_key_of a) t query
  | Tracking t topic => tracking_try (cache_key_of a) t topic
  | Summary t => summary_try (cache_key_of a) t
  | Structure t => structure_try (cache_key_of a) t
  | Compliance t sectors => compliance_try (cache_key_of a) t sectors
  end.

Definition except_value (a : analysis) (e : exn) : value :=
  match a with
  | Comprehensive _ => comprehensive_except e
  | Search _ _ => search_except e
  | Tracking _ _ => tracking_except e
  | Summary _ => summary_except e
  | Structure _ => structure_except e
  | Compliance _ _ => compliance_except e
  end.

Definition text_of (a : analysis) : string :=
  match a with
  | Comprehensive t | Search t _ | Tracking t _ | Summary t | Structure t
  | Compliance t _ => t
  end.

(** The same analysis, asked of the document text [t']. *)
Definition with_text (a : analysis) (t' : string) : analysis :=
  match a with
  | Comprehensive _ => Comprehensive t'
  | Search _ query => Search t' query
  | Tracking _ topic => Tracking t' topic
  | Summary _ => Summary t'
  | Structure _ => Structure t'
  | Compliance _ sectors => Compliance t' sectors
  end.

(** The query, topic or sector list that goes into the key besides the
    document text. *)
Definition folded_text (a : analysis) : option string :=
  match a with
  | Comprehensive _ | Summary _ | Structure _ => None
  | Search _ x | Tracking _ x => Some x
  | Compliance _ sectors => Some (join "," sectors)
  end.

(** The characters that reach the digest: the first 1000 characters of
    the document text for the analyses of a text alone; for the others
    the first 500 characters of the document text, then an underscore and
    the query, topic or sector list, the whole cut to 1000 characters. *)
Definition hashed_text (a : analysis) : string :=
  match folded_text a with
  | None => take 1000 (text_of a)
  | Some x =>
      let document_prefix := take 500 (text_of a) in
      document_prefix +:+ take (1000 - len document_prefix) ("_" +:+ x)
  end.

(** The number of requests one call of an operation can send at most:
    one per step of its pipeline, three per assessed sector. *)
Definition budget (a : analysis) : nat :=
  match a with
  | Comprehensive _ => 1
  | Search _ _ => 3
  | Tracking _ _ => 4
  | Summary _ => 4
  | Structure _ => 2
  | Compliance _ sectors => 3 * (3 `min` length sectors)
  end.

(** The input guard, which only the comprehensive analysis has. *)
(** The longest prefix of the document text that an operation cuts out
    for a prompt or for its cache key. *)
Definition window (a : analysis) : nat :=
  match a with
  | Comprehensive _ => 4000
  | Structure _ => 3000
  | Search _ _ | Tracking _ _ | Summary _ | Compliance _ _ => 2000
  end.

Definition rejected (a : analysis) : bool :=
  match a with
  | Comprehensive t => too_short t
  | _ => false
  end.

End LegalAIAnalyzer.

Arguments perform {rt} client self_seed a.
Arguments try_block {rt} client self_seed a.
Arguments focused : simpl never.
Arguments comprehensive_request : simpl never.
Arguments semantic_request : simpl never.
Arguments relevance_request : simpl never.
Arguments excerpt_request : simpl never.
Arguments detection_request : simpl never.
Arguments relationship_request : simpl never.
Arguments temporal_request : simpl never.
Arguments evolution_request : simpl never.
Arguments type_request : simpl never.
Arguments purpose_request : simpl never.
Arguments points_request : simpl never.
Arguments domains_request : simpl never.
Arguments sections_request : simpl never.
Arguments articles_request : simpl never.
Arguments sector_relevance_request : simpl never.
Arguments requirements_request : simpl never.
Arguments complexity_request : simpl never.

(** ** The document scans of [main]

    The loops that [main] runs over the filtered data frame when the
    search button and the tracking button are pressed.  The widgets they
    update (progress bar, status text) are left out. *)

Section Scans.

Context {rt : Py.Runtime}.
Variable client : service.
Variable self_seed : option Z.

(** A row of the data frame, and its [text] column. *)
Variable document : Type.
Variable text : document -> string.

(** The exceptions that are instances of [AttributeError]. *)
Variable attribute_error : Py.exn -> bool.

Import Py.

(** *** The search tab *)

(** [relevance.get('is_relevant', False) and
    relevance.get('relevance_score', 0) > 0.3] *)
Definition search_hit (relevance : value) : outcome bool :=
  bind_outcome (get relevance "is_relevant" (VBool false)) (fun is_relevant =>
    if truthy is_relevant then
      bind_outcome (get relevance "relevance_score" (VInt 0)) (fun score =>
        gt_num score (NFloat 0.3))
    else Returns false).

(** [for idx, (_, doc) in enumerate(search_sample.iterrows()): ...] *)
Fixpoint search_each (search_query : string) (search_sample : list document)
    (search_results : list (document * value)) : M (list (document * value)) :=
  match search_sample with
  | [] => ret search_results
  | doc :: rest =>
      (* AI relevance check *)
      let* relevance := ai_powered_search client self_seed (text doc) search_query in
      let* hit := lift (search_hit relevance) in
      search_each search_query rest
        (if hit then search_results ++ [(doc, relevance)] else search_results)
  end.

(** The scan behind the search button, up to the sorting of its results. *)
Definition search_scan (search_query : string) (filtered_df : list document)
  : M (list (document * value)) :=
  let search_sample := firstn 50 filtered_df in
  search_each search_query search_sample [].

(** *** The tracking tab *)

(** The tracking format of a search result. *)
Definition converted (found : value) : outcome value :=
  bind_outcome (get found "relevance_score" (VFloat 0.0)) (fun relevance_score =>
  bind_outcome (get found "is_relevant" (VBool false)) (fun is_related =>
  bind_outcome (get found "relevant_excerpts" (VList [])) (fun specific_mentions =>
  bind_outcome (get found "matching_concepts" (VList [])) (fun related_concepts =>
  bind_outcome (get found "relevance_score" (VInt 0)) (fun score =>
  bind_outcome (gt_num score (NFloat 0.5)) (fun medium =>
  bind_outcome (get found "confidence_score" (VFloat 0.0)) (fun confidence_score =>
  Returns (VDict [
    ("relevance_score", relevance_score);
    ("is_related", is_related);
    ("relationship_type", VStr "Related topic");
    ("specific_mentions", specific_mentions);
    ("related_concepts", related_concepts);
    ("temporal_references", VList []);
    ("evolution_indicators", VList []);
    ("importance", VStr (if medium then "Medium" else "Low"));
    ("confidence_score", confidence_score)])))))))).

(** [try: body / except AttributeError: handler] *)
Definition try_except_attribute {A} (body handler : M A) : M A :=
  fun s =>
    match body s with
    | (Returns a, s') => (Returns a, s')
    | (Raises e, s') => if attribute_error e then handler s' else (Raises e, s')
    end.

(** The analysis of one document. *)
Definition track_document (doc : document) (track_query : string) : M value :=
  try_except_attribute
    (* Use specialized regulatory tracking *)
    (ai_regulatory_tracking client self_seed (text doc) track_query)
    (* Fallback to regular search if method doesn't exist *)
    (let* found := ai_powered_search client self_seed (text doc) track_query in
     lift (converted found)).

(** [tracking_analysis.get('is_related') and
    tracking_analysis.get('relevance_score', 0) >= threshold] *)
Definition tracking_hit (threshold : float) (tracking_analysis : value) : outcome bool :=
  bind_outcome (get tracking_analysis "is_related" VNone) (fun is_related =>
    if truthy is_related then
      bind_outcome (get tracking_analysis "relevance_score" (VInt 0)) (fun score =>
        ge_num score (NFloat threshold))
    else Returns false).

(** [for _, doc in batch.iterrows(): ...] *)
Fixpoint track_each (threshold : float) (track_query : string) (batch : list document)
    (tracking_results : list (document * value)) : M (list (document * value)) :=
  match batch with
  | [] => ret tracking_results
  | doc :: rest =>
      let* tracking_analysis := track_document doc track_query in
      let* hit := lift (tracking_hit threshold tracking_analysis) in
      track_each threshold track_query rest
        (if hit then tracking_results ++ [(doc, tracking_analysis)] else tracking_results)
  end.

Definition batch_size : nat := 25.

(** [rows.iloc[start:stop]] for two indices that are not negative *)
Definition iloc {A} (rows : list A) (start stop : nat) : list A :=
  firstn (stop - start) (skipn start rows).

(** The batch number [batch_num] of the data frame. *)
Definition batch_of {A} (filtered_df : list A) (batch_num : nat) : list A :=
  let docs_to_analyze := length filtered_df in
  let start_idx := batch_num * batch_size in
  let end_idx := Nat.min ((batch_num + 1) * batch_size) docs_to_analyze in
  iloc filtered_df start_idx end_idx.

(** [for batch_num in range(total_batches): ...] *)
Fixpoint track_batches (threshold : float) (track_query : string)
    (filtered_df : list document) (batch_nums : list nat)
    (tracking_results : list (document * value)) : M (list (document * value)) :=
  match batch_nums with
  | [] => ret tracking_results
  | batch_num :: rest =>
      let batch := batch_of filtered_df batch_num in
      let* tracking_results' := track_each threshold track_query batch tracking_results in
      track_batches threshold track_query filtered_df rest tracking_results'
  end.

Definition total_batches (docs_to_analyze : nat) : nat :=
  (docs_to_analyze + batch_size - 1) / batch_size.

(** The scan behind the tracking button. *)
Definition tracking_scan (threshold : float) (track_query : string)
    (filtered_df : list document) : M (list (document * value)) :=
  let docs_to_analyze := length filtered_df in
  track_batches threshold track_query filtered_df
    (seq 0 (total_batches docs_to_analyze)) [].

End Scans.

Arguments search_each {rt} client self_seed {document} text.
Arguments search_scan {rt} client self_seed {document} text.
Arguments try_except_attribute attribute_error {A}.
Arguments track_document {rt} client self_seed {document} text attribute_error.
Arguments track_each {rt} client self_seed {document} text attribute_error.
Arguments track_batches {rt} client self_seed {document} text attribute_error.
Arguments tracking_scan {rt} client self_seed {document} text attribute_error.

(** ** Fixtures for running the operations on concrete inputs *)

Module Stub.

(** A run-time for examples.  The digest is the identity, so two keys are
    equal exactly when the hashed texts are; the texts of interpreter
    errors are the name of the failing operation. *)
Definition runtime : Py.Runtime :=
  {| Py.md5_hexdigest := fun s => s;
     Py.repr := fun _ => "<object>";
     Py.fault_text := fun op _ => op;
     Py.list_lt := fun _ _ => None;
     Py.mixed_add := fun _ _ => None |}.

Definition fresh : session :=
  {| ai_analysis_cache := ∅; sent := [] |}.

(** [n] copies of the character [c] *)
Fixpoint repeat_char (c : ascii) (n : nat) : string :=
  match n with
  | 0 => EmptyString
  | S n' => String c (repeat_char c n')
  end.

(** A service that answers every request with the same JSON document. *)
Definition always (v : Py.value) : service := fun _ _ => ContentJson v.

(** A service that answers the first [n] requests as [client] does and
    is unreachable from then on. *)
Definition until (n : nat) (client : service) : service :=
  fun i req => if (i <? n)%nat then client i req else CallRaises "Connection error.".

(** A service whose every response has a content that is not JSON. *)
Definition garbled (msg : string) : service := fun _ _ => ContentNotJson msg.

(** A service that answers the [i]-th request with the [i]-th document of
    a script, and is unreachable when the script has run out. *)
Definition scripted (script : list Py.value) : service :=
  fun i _ =>
    match script !! i with
    | Some v => ContentJson v
    | None => CallRaises "Connection error."
    end.

End Stub.

(** ** Reasoning about the operations *)

Section Reasoning.

Context {rt : Py.Runtime}.
Variable client : service.
Variable self_seed : option Z.

Import Py.

(** The requests [new], sent from position [n] of the log on, were all
    answered with JSON. *)
Definition answered (n : nat) (new : list request) : Prop :=
  ∀ j req, new !! j = Some req → ∃ v, client (n + j) req = ContentJson v.

(** How the exception [e] came about after the requests [new]: an
    exception of the client or of the decoder is the answer to the last
    request, every request before it having been answered; an exception of
    the interpreter comes after answered requests only. *)
Definition faulted (n : nat) (new : list request) (e : exn) : Prop :=
  match e with
  | RuntimeFault _ _ => answered n new
  | ClientError msg =>
      ∃ init req, new = init ++ [req] ∧ answered n init ∧
                  client (n + length init) req = CallRaises msg
  | JSONDecodeError msg =>
      ∃ init req, new = init ++ [req] ∧ answered n init ∧
                  client (n + length init) req = ContentNotJson msg
  end.

(** An outcome of the interpreter alone: it raises nothing but its own
    faults. *)
Definition interp {A} (o : outcome A) : Prop :=
  match o with
  | Returns _ | Raises (RuntimeFault _ _) => True
  | Raises _ => False
  end.

(** A computation that leaves the cache alone. *)
Definition quiet {A} (c : M A) : Prop :=
  ∀ s, ai_analysis_cache (c s).2 = ai_analysis_cache s ∧
       ∃ new, sent (c s).2 = sent s ++ new ∧
         match (c s).1 with
         | Returns _ => answered (length (sent s)) new
         | Raises e => faulted (length (sent s)) new e
         end.

(** A computation that writes the cache at most once, under [key], the
    value it returns; [E] describes the values it may return without
    writing. *)
Definition storing (key : string) (E : value → Prop) (c : M value) : Prop :=
  ∀ s, ∃ new, sent (c s).2 = sent s ++ new ∧
    match (c s).1 with
    | Returns r =>
        answered (length (sent s)) new ∧
        (ai_analysis_cache (c s).2 = <[key := r]> (ai_analysis_cache s) ∨
         (E r ∧ ai_analysis_cache (c s).2 = ai_analysis_cache s))
    | Raises e =>
        faulted (length (sent s)) new e ∧
        ai_analysis_cache (c s).2 = ai_analysis_cache s
    end.

(** A computation that sends at least one request. *)
Definition calling {A} (c : M A) : Prop :=
  ∀ s, ∃ req new, sent (c s).2 = sent s ++ req :: new.

(** A computation that sends at most [m] requests, each of them in [P]. *)
Definition sends {A} (P : request → Prop) (m : nat) (c : M A) : Prop :=
  ∀ s, ∃ new, sent (c s).2 = sent s ++ new ∧ Forall P new ∧ length new ≤ m.

(** A computation whose returned values are in [Q]. *)
Definition ensures {A} (c : M A) (Q : A → Prop) : Prop :=
  ∀ s a s', c s = (Returns a, s') → Q a.

(** The requests the compliance assessment makes for one sector. *)
Definition about_sector (t sector : string) (req : request) : Prop :=
  req = sector_relevance_request self_seed t sector ∨
  req = requirements_request self_seed t sector ∨
  ∃ requirements, req = complexity_request self_seed sector requirements.

Definition about_sectors (t : string) (sectors : list string) (req : request) : Prop :=
  ∃ sector, sector ∈ sectors ∧ about_sector t sector req.




(** The results [ai_regulatory_tracking] returns early, without caching. *)
Definition early_shape (a : analysis) (r : value) : Prop :=
  match a with
  | Tracking _ _ => ∃ confidence, r = not_related confidence
  | _ => False
  end.


(** The entry of the [sections] list for a detected section with the
    items [d]. *)
Definition entry_of (d : list (string * value)) : value :=
  let type := item_or d "type" VNone in
  let identifier := item_or d "identifier" VNone in
  VDict [("type", type); ("number", identifier);
         ("heading", VStr (str_of type +:+ " " +:+ str_of identifier));
         ("summary", VStr "")].

(** A detected section that has the two items a [sections] entry is
    built from. *)
Definition typed (d : list (string * value)) : Prop :=
  is_Some (lookup_item "type" d) ∧ is_Some (lookup_item "identifier" d).

(** The relevance check of [sector] is answered, whenever it is asked,
    with a dictionary whose [is_relevant] is false, falsy or absent. *)
Definition dismissed (t sector : string) : Prop :=
  ∀ m, ∃ d,
    client m (sector_relevance_request self_seed t sector) = ContentJson (VDict d) ∧
    truthy (item_or d "is_relevant" VNone) = false.

(** A search result whose [is_relevant] says what its own
    [relevance_score] says: the score exceeds 0.3. *)
Definition consistent_relevance (r : value) : Prop :=
  ∃ score b,
    field "relevance_score" r = Some score ∧
    field "is_relevant" r = Some (VBool b) ∧
    gt_num score (NFloat 0.3) = Returns b.




(** *** Requests answered, faults explained *)

Lemma answered_nil n : answered n [].
Proof. intros j req H. rewrite lookup_nil in H. discriminate. Qed.

Lemma answered_app n l1 l2 :
  answered n l1 → answered (n + length l1) l2 → answered n (l1 ++ l2).
Proof.
  intros H1 H2 j req Hj.
  apply lookup_app_Some in Hj as [Hj | [Hle Hj]].
  - eauto.
  - destruct (H2 _ _ Hj) as [v Hv]. exists v.
    replace (n + j) with (n + length l1 + (j - length l1)) by lia. exact Hv.
Qed.

Lemma answered_one n req v : client n req = ContentJson v → answered n [req].
Proof.
  intros Hv j req' Hj. destruct j as [|j]; simpl in Hj.
  - injection Hj as <-. exists v. by rewrite Nat.add_0_r.
  - rewrite lookup_nil in Hj. discriminate.
Qed.

Lemma faulted_app n l1 l2 e :
  answered n l1 → faulted (n + length l1) l2 e → faulted n (l1 ++ l2) e.
Proof.
  intros H1. destruct e as [msg | msg | op args]; simpl.
  - intros (init & req & -> & Hi & Hr). exists (l1 ++ init), req.
    rewrite length_app, Nat.add_assoc, app_assoc. auto using answered_app.
  - intros (init & req & -> & Hi & Hr). exists (l1 ++ init), req.
    rewrite length_app, Nat.add_assoc, app_assoc. auto using answered_app.
  - by apply answered_app.
Qed.


(** *** The interpreter raises only its own faults *)

Lemma interp_bind {A B} (o : outcome A) (k : A → outcome B) :
  interp o → (∀ a, interp (k a)) → interp (bind_outcome o k).
Proof. destruct o as [a | [ | | ]]; simpl; auto; contradiction. Qed.

Lemma interp_get x k d : interp (get x k d).
Proof. by destruct x. Qed.

Lemma interp_getitem x k : interp (getitem x k).
Proof. destruct x; simpl; auto. by destruct (lookup_item k d). Qed.

Lemma interp_gt_num x c : interp (gt_num x c).
Proof. unfold gt_num. by destruct (as_num x). Qed.

Lemma interp_max_gt_num l c : interp (max_gt_num l c).
Proof. unfold max_gt_num. by destruct (all_nums l) as [[|? ?]|]. Qed.

Lemma interp_slice_to n x : interp (slice_to n x).
Proof. by destruct x. Qed.

Lemma interp_iter x : interp (iter x).
Proof. by destruct x. Qed.

Lemma interp_join_value sep x : interp (join_value sep x).
Proof.
  apply interp_bind; [apply interp_iter |].
  intros items. by destruct (all_strs items).
Qed.

Lemma interp_split_value x sep : interp (split_value x sep).
Proof. by destruct x. Qed.

Lemma interp_len_value x : interp (len_value x).
Proof. by destruct x. Qed.

Lemma interp_lt x y : interp (lt x y).
Proof.
  unfold lt.
  destruct x, y; simpl; try done;
    repeat match goal with |- context [match ?o with _ => _ end] => destruct o end;
    done.
Qed.

Lemma interp_min2 x y : interp (min2 x y).
Proof. apply interp_bind; [apply interp_lt | done]. Qed.

Lemma interp_add x y : interp (add x y).
Proof.
  unfold add.
  destruct x, y; simpl; try done;
    repeat match goal with |- context [match ?o with _ => _ end] => destruct o end;
    done.
Qed.

Lemma interp_map_outcome {A B} (f : A → outcome B) l :
  (∀ x, interp (f x)) → interp (map_outcome f l).
Proof.
  intros Hf. induction l as [|x l IH]; simpl; [done |].
  apply interp_bind; [apply Hf |]. intros y.
  apply interp_bind; [apply IH | done].
Qed.

Lemma interp_any_outcome {A} (f : A → outcome bool) l :
  (∀ x, interp (f x)) → interp (any_outcome f l).
Proof.
  intros Hf. induction l as [|x l IH]; simpl; [done |].
  apply interp_bind; [apply Hf |]. by intros [].
Qed.

Lemma interp_section_entry x : interp (section_entry x).
Proof.
  unfold section_entry.
  repeat (apply interp_bind; [apply interp_getitem | intros ?]). done.
Qed.

Lemma interp_is_annex x : interp (is_annex x).
Proof. apply interp_bind; [apply interp_getitem | done]. Qed.

Create HintDb interp discriminated.

#[local] Hint Resolve interp_get interp_getitem interp_gt_num interp_max_gt_num
  interp_slice_to interp_iter interp_join_value interp_split_value
  interp_len_value interp_lt interp_min2 interp_add interp_section_entry
  interp_is_annex : interp.
#[local] Hint Extern 2 (interp (map_outcome _ _)) =>
  apply interp_map_outcome; intros ? : interp.
#[local] Hint Extern 2 (interp (any_outcome _ _)) =>
  apply interp_any_outcome; intros ? : interp.

(** *** Rules for [quiet] *)

Lemma quiet_ret {A} (a : A) : quiet (ret a).
Proof. intros s. split; [done |]. exists []. by rewrite app_nil_r. Qed.

Lemma quiet_lift {A} (o : outcome A) : interp o → quiet (lift o).
Proof.
  intros Ho s. split; [done |]. exists []. rewrite app_nil_r. split; [done |].
  simpl. destruct o as [a | [ | | ]]; simpl in *; try contradiction;
    apply answered_nil.
Qed.

Lemma quiet_ask req : quiet (ask client req).
Proof.
  intros s. unfold ask.
  destruct (client (length (sent s)) req) as [msg | msg | v] eqn:Hreply; simpl;
    (split; [done |]); exists [req]; (split; [done |]).
  - exists [], req. rewrite Nat.add_0_r. auto using answered_nil.
  - exists [], req. rewrite Nat.add_0_r. auto using answered_nil.
  - by apply answered_one with v.
Qed.

Lemma quiet_bind {A B} (c : M A) (k : A → M B) :
  quiet c → (∀ a, quiet (k a)) → quiet (bind c k).
Proof.
  intros Hc Hk s. unfold bind.
  destruct (Hc s) as (Hcache & new & Hsent & Hnew).
  destruct (c s) as [[a | e] s1]; simpl in *.
  - destruct (Hk a s1) as (Hcache' & new' & Hsent' & Hnew').
    split; [congruence |]. exists (new ++ new').
    split; [by rewrite Hsent', Hsent, app_assoc |].
    rewrite Hsent, length_app in Hnew'.
    destruct ((k a s1).1); auto using answered_app, faulted_app.
  - split; [done |]. by exists new.
Qed.

(** *** Rules for [storing] *)

Lemma storing_store key E r :
  storing key E (let* _ := cache_store key r in ret r).
Proof.
  intros s. exists []. simpl. rewrite app_nil_r. auto using answered_nil.
Qed.

Lemma storing_early key (E : value → Prop) r : E r → storing key E (ret r).
Proof.
  intros Hr s. exists []. simpl. rewrite app_nil_r. auto using answered_nil.
Qed.

Lemma storing_bind {A} key E (c : M A) (k : A → M value) :
  quiet c → (∀ a, storing key E (k a)) → storing key E (bind c k).
Proof.
  intros Hc Hk s. unfold bind.
  destruct (Hc s) as (Hcache & new & Hsent & Hnew).
  destruct (c s) as [[a | e] s1]; simpl in *.
  - destruct (Hk a s1) as (new' & Hsent' & Hnew').
    exists (new ++ new').
    split; [by rewrite Hsent', Hsent, app_assoc |].
    rewrite Hsent, length_app, Hcache in Hnew'.
    destruct ((k a s1).1); destruct Hnew' as [Hnew' Hc'];
      auto using answered_app, faulted_app.
  - by exists new.
Qed.

Ltac quiet_step :=
  first
    [ apply quiet_ret
    | apply quiet_ask
    | apply quiet_lift; solve [auto with interp]
    | apply quiet_bind; [| intros ?]
    | match goal with |- quiet (if ?b then _ else _) => destruct b end ].

Ltac storing_step :=
  first
    [ apply storing_store
    | apply storing_bind; [solve [repeat quiet_step] | intros ?]
    | match goal with |- storing _ _ (if ?b then _ else _) => destruct b end ].

(** *** Rules for [calling] and [at_most] *)

Lemma calling_ask req : calling (ask client req).
Proof.
  intros s. exists req, []. unfold ask.
  by destruct (client (length (sent s)) req).
Qed.

Lemma calling_bind {A B} (c : M A) (k : A → M B) :
  calling c → (∀ a, quiet (k a)) → calling (bind c k).
Proof.
  intros Hc Hk s. unfold bind. destruct (Hc s) as (req & new & Hsent).
  destruct (c s) as [[a | e] s1]; simpl in *; [| by exists req, new].
  destruct (Hk a s1) as (_ & new' & Hsent' & _).
  exists req, (new ++ new'). by rewrite Hsent', Hsent, <- app_assoc.
Qed.

Lemma calling_bind_storing {A} key E (c : M A) (k : A → M value) :
  calling c → (∀ a, storing key E (k a)) → calling (bind c k).
Proof.
  intros Hc Hk s. unfold bind. destruct (Hc s) as (req & new & Hsent).
  destruct (c s) as [[a | e] s1]; simpl in *; [| by exists req, new].
  destruct (Hk a s1) as (new' & Hsent' & _).
  exists req, (new ++ new'). by rewrite Hsent', Hsent, <- app_assoc.
Qed.

Lemma sends_ret {A} P (a : A) : sends P 0 (ret a).
Proof. intros s. exists []. by rewrite app_nil_r. Qed.

Lemma sends_lift {A} P (o : outcome A) : sends P 0 (lift o).
Proof. intros s. exists []. by rewrite app_nil_r. Qed.

Lemma sends_store P key r : sends P 0 (let* _ := cache_store key r in ret r).
Proof. intros s. exists []. simpl. by rewrite app_nil_r. Qed.

Lemma sends_ask (P : request → Prop) req : P req → sends P 1 (ask client req).
Proof.
  intros Hreq s. exists [req]. unfold ask.
  destruct (client (length (sent s)) req); simpl; auto.
Qed.

Lemma sends_bind {A B} P m1 m2 (c : M A) (k : A → M B) :
  sends P m1 c → (∀ a, sends P m2 (k a)) → sends P (m1 + m2) (bind c k).
Proof.
  intros Hc Hk s. unfold bind. destruct (Hc s) as (new & Hsent & HP & Hlen).
  destruct (c s) as [[a | e] s1]; simpl in *;
    [| exists new; split; [done | split; [done | lia]]].
  destruct (Hk a s1) as (new' & Hsent' & HP' & Hlen').
  exists (new ++ new'). rewrite Hsent', Hsent, <- app_assoc, length_app.
  split; [done | split; [by apply Forall_app | lia]].
Qed.

Lemma sends_weaken {A} (P P' : request → Prop) m m' (c : M A) :
  sends P m c → (∀ req, P req → P' req) → m ≤ m' → sends P' m' c.
Proof.
  intros Hc HP Hle s. destruct (Hc s) as (new & Hsent & Hnew & Hlen).
  exists new. split; [done |]. split; [by eapply Forall_impl | lia].
Qed.

(** *** Rules for [ensures] *)

Lemma ensures_ret {A} (a : A) (Q : A → Prop) : Q a → ensures (ret a) Q.
Proof. intros Ha s a' s' [= <- _]. exact Ha. Qed.

Lemma ensures_lift {A} (o : outcome A) (Q : A → Prop) :
  (∀ a, o = Returns a → Q a) → ensures (lift o) Q.
Proof. intros Ho s a s' [= -> _]. by apply Ho. Qed.

Lemma ensures_bind {A B} (c : M A) (k : A → M B) (P : A → Prop) (Q : B → Prop) :
  ensures c P → (∀ a, P a → ensures (k a) Q) → ensures (bind c k) Q.
Proof.
  intros Hc Hk s b s'. unfold bind.
  destruct (c s) as [[a | e] s1] eqn:Hrun; [| discriminate].
  intros Hk'. eapply Hk; [by eapply Hc | exact Hk'].
Qed.

Lemma ensures_any {A} (c : M A) : ensures c (λ _, True).
Proof. by intros s a s' _. Qed.

Lemma ensures_next {A B} (c : M A) (k : A → M B) (Q : B → Prop) :
  (∀ a, ensures (k a) Q) → ensures (bind c k) Q.
Proof. intros Hk. apply ensures_bind with (λ _, True); auto using ensures_any. Qed.

(** *** The [try] blocks *)

Lemma quiet_assess_sector t sector acc :
  quiet (assess_sector client self_seed t sector acc).
Proof. unfold assess_sector. repeat quiet_step. Qed.

Lemma quiet_assess_sectors t sectors acc :
  quiet (assess_sectors client self_seed t sectors acc).
Proof.
  revert acc. induction sectors as [|sector rest IH]; intros acc; simpl.
  - apply quiet_ret.
  - apply quiet_bind; [apply quiet_assess_sector | intros acc'; apply IH].
Qed.

(** Every [try] block writes the cache at most once, as its last step and
    with the value it returns; it raises without having written. *)
Lemma try_block_storing a :
  storing (cache_key_of a) (early_shape a) (try_block client self_seed a).
Proof.
  destruct a as [t | t query | t topic | t | t | t sectors]; simpl.
  - unfold comprehensive_try. repeat storing_step.
  - unfold search_try. cbv zeta. repeat storing_step.
  - unfold tracking_try. cbv zeta. repeat storing_step.
    apply storing_early. simpl. eauto.
  - unfold summary_try. cbv zeta. repeat storing_step.
  - unfold structure_try. cbv zeta. repeat storing_step.
  - unfold compliance_try. cbv zeta.
    apply storing_bind; [apply quiet_assess_sectors | intros impacts].
    repeat storing_step.
Qed.

(** How [perform] goes about an analysis: the input guard, then the cache,
    then the [try] block with its [except] clause. *)
Lemma perform_unfold a s :
  perform client self_seed a s =
    if rejected a then
      (Returns (create_fallback_analysis "Document text too short or empty"), s)
    else
      match ai_analysis_cache s !! cache_key_of a with
      | Some hit => (Returns hit, s)
      | None =>
          match try_block client self_seed a s with
          | (Returns r, s') => (Returns r, s')
          | (Raises e, s') => (Returns (except_value a e), s')
          end
      end.
Proof.
  destruct a as [t | t query | t topic | t | t | t sectors]; simpl;
    [unfold comprehensive_document_analysis; destruct (too_short t); [done |]
    | unfold ai_powered_search | unfold ai_regulatory_tracking
    | unfold generate_ai_summary | unfold extract_document_structure
    | unfold assess_compliance_impact ];
    unfold bind, cache_lookup, try_except, ret; simpl;
    by destruct (ai_analysis_cache s !! _).
Qed.

(** An operation never raises. *)
Lemma perform_returns a s : ∃ r, (perform client self_seed a s).1 = Returns r.
Proof.
  rewrite perform_unfold.
  destruct (rejected a); [by eexists |].
  destruct (ai_analysis_cache s !! cache_key_of a); [by eexists |].
  destruct (try_block client self_seed a s) as [[r | e] s']; by eexists.
Qed.

(** A [try] block that raised sent a request first, every one of them. *)
Lemma calling_assess_sectors t sector rest acc :
  calling (assess_sectors client self_seed t (sector :: rest) acc).
Proof.
  simpl. apply calling_bind; [| intros ?; apply quiet_assess_sectors].
  unfold assess_sector.
  apply calling_bind; [apply calling_ask | intros ?; repeat quiet_step].
Qed.

Lemma try_block_calling a :
  (∀ t, a ≠ Compliance t []) → calling (try_block client self_seed a).
Proof.
  intros Hsectors.
  destruct a as [t | t query | t topic | t | t | t sectors]; simpl.
  - unfold comprehensive_try.
    eapply (calling_bind_storing _ (λ _, False));
      [apply calling_ask | intros ?; repeat storing_step].
  - unfold search_try. cbv zeta.
    eapply (calling_bind_storing _ (λ _, False));
      [apply calling_ask | intros ?; repeat storing_step].
  - unfold tracking_try. cbv zeta.
    eapply (calling_bind_storing _ (early_shape (Tracking t topic)));
      [apply calling_ask | intros ?; repeat storing_step].
    apply storing_early. simpl. eauto.
  - unfold summary_try. cbv zeta.
    eapply (calling_bind_storing _ (λ _, False));
      [apply calling_ask | intros ?; repeat storing_step].
  - unfold structure_try. cbv zeta.
    eapply (calling_bind_storing _ (λ _, False));
      [apply calling_ask | intros ?; repeat storing_step].
  - destruct sectors as [|sector rest]; [by destruct (Hsectors t) |].
    unfold compliance_try. cbv zeta.
    eapply (calling_bind_storing _ (λ _, False)); [| intros ?; repeat storing_step].
    change (firstn 3 (sector :: rest)) with (sector :: firstn 2 rest).
    apply calling_assess_sectors.
Qed.

(** With no sector to assess, the compliance [try] block cannot raise. *)
Lemma compliance_no_sector_returns key t s :
  ∃ r s', compliance_try client self_seed key t [] s = (Returns r, s').
Proof. unfold compliance_try, bind. simpl. eauto. Qed.

(** *** Running a block step by step *)

Lemma ask_json req s v n :
  length (sent s) = n → client n req = ContentJson v →
  ask client req s =
    (Returns v, {| ai_analysis_cache := ai_analysis_cache s; sent := sent s ++ [req] |}).
Proof. intros <- Hv. unfold ask. by rewrite Hv. Qed.

Lemma bind_run {A B} (c : M A) (k : A → M B) s a s' :
  c s = (Returns a, s') → bind c k s = k a s'.
Proof. intros Hc. unfold bind. by rewrite Hc. Qed.

Lemma bind_lift {A B} (o : outcome A) (k : A → M B) s a :
  o = Returns a → bind (lift o) k s = k a s.
Proof. by intros ->. Qed.

Lemma miss_run a s :
  rejected a = false → ai_analysis_cache s !! cache_key_of a = None →
  perform client self_seed a s =
    match try_block client self_seed a s with
    | (Returns r, s') => (Returns r, s')
    | (Raises e, s') => (Returns (except_value a e), s')
    end.
Proof. intros Hguard Hmiss. by rewrite perform_unfold, Hguard, Hmiss. Qed.

Ltac run_ask H :=
  erewrite bind_run;
    [| apply ask_json with (2 := H); simpl; rewrite ?length_app; simpl; lia].

Ltac run_lift := erewrite bind_lift by reflexivity.

(** *** [ai_regulatory_tracking], path by path *)

(** The early return: the detection is a dictionary whose
    [mentions_regulation] is false, or any other falsy value, or absent. *)
Lemma tracking_not_mentioned t topic s d :
  ai_analysis_cache s !! tracking_cache_key t topic = None →
  client (length (sent s)) (detection_request self_seed t topic) = ContentJson (VDict d) →
  truthy (item_or d "mentions_regulation" VNone) = false →
  ai_regulatory_tracking client self_seed t topic s =
    (Returns (not_related (item_or d "confidence" (VFloat 0.0))),
     {| ai_analysis_cache := ai_analysis_cache s;
        sent := sent s ++ [detection_request self_seed t topic] |}).
Proof.
  intros Hmiss Hdetection Hfalsy.
  change (ai_regulatory_tracking client self_seed t topic)
    with (perform client self_seed (Tracking t topic)).
  rewrite miss_run by done. simpl try_block. unfold tracking_try.
  run_ask Hdetection. run_lift. rewrite Hfalsy. cbn [negb].
  run_lift. reflexivity.
Qed.

(** The full path: the detection reports a mention and the three further
    answers are dictionaries. *)
Lemma tracking_mentioned t topic s d dr dt de related refs :
  let n := length (sent s) in
  let key := tracking_cache_key t topic in
  let result := VDict [
    ("relevance_score", item_or dr "relationship_strength" (VFloat 0.0));
    ("is_related", VBool true);
    ("relationship_type", item_or dr "relationship_type" (VStr "Related topic"));
    ("specific_mentions", VList []);
    ("related_concepts", related);
    ("temporal_references", refs);
    ("evolution_indicators", item_or de "evolution_indicators" (VList []));
    ("importance", item_or de "importance" (VStr "Medium"));
    ("confidence_score", item_or d "confidence" (VFloat 0.0))] in
  ai_analysis_cache s !! key = None →
  client n (detection_request self_seed t topic) = ContentJson (VDict d) →
  truthy (item_or d "mentions_regulation" VNone) = true →
  client (n + 1) (relationship_request self_seed t topic) = ContentJson (VDict dr) →
  client (n + 2) (temporal_request self_seed t topic) = ContentJson (VDict dt) →
  client (n + 3) (evolution_request self_seed t topic) = ContentJson (VDict de) →
  (if truthy (item_or d "mention_type" VNone)
   then split_value (item_or d "mention_type" (VStr "")) "|"%char
   else Returns (VList [])) = Returns related →
  add (item_or dt "dates_mentioned" (VList [])) (item_or dt "deadlines" (VList []))
    = Returns refs →
  ai_regulatory_tracking client self_seed t topic s =
    (Returns result,
     {| ai_analysis_cache := <[key := result]> (ai_analysis_cache s);
        sent := sent s ++ [detection_request self_seed t topic;
                           relationship_request self_seed t topic;
                           temporal_request self_seed t topic;
                           evolution_request self_seed t topic] |}).
Proof.
  intros n key result Hmiss H1 Hmentions H2 H3 H4 Hrelated Hrefs.
  change (ai_regulatory_tracking client self_seed t topic)
    with (perform client self_seed (Tracking t topic)).
  rewrite miss_run by done. simpl try_block. unfold tracking_try.
  run_ask H1. run_lift. rewrite Hmentions. cbn [negb].
  run_ask H2. run_ask H3. run_ask H4.
  do 3 run_lift.
  destruct (truthy (item_or d "mention_type" VNone)).
  - erewrite bind_run by (run_lift; unfold lift; by rewrite Hrelated).
    do 2 run_lift. erewrite bind_lift by exact Hrefs. do 3 run_lift.
    cbv zeta. unfold bind, cache_store, ret. simpl.
    by rewrite <- !app_assoc.
  - injection Hrelated as <-. erewrite bind_run by reflexivity.
    do 2 run_lift. erewrite bind_lift by exact Hrefs. do 3 run_lift.
    cbv zeta. unfold bind, cache_store, ret. simpl.
    by rewrite <- !app_assoc.
Qed.

(** *** [ai_powered_search] when the score is not above the threshold *)

Lemma search_not_relevant t query s ds dr concepts :
  let n := length (sent s) in
  let key := search_cache_key t query in
  let result := VDict [
    ("relevance_score", item_or dr "relevance_score" (VFloat 0.0));
    ("is_relevant", VBool false);
    ("matching_concepts", item_or ds "matched_concepts" (VList []));
    ("relevant_excerpts", VList []);
    ("explanation",
     VStr (str_of (item_or dr "relevance_category" (VStr "Not Relevant"))
           +:+ " match for " +:+ query));
    ("confidence_score", item_or ds "semantic_similarity_score" (VFloat 0.0))] in
  ai_analysis_cache s !! key = None →
  client n (semantic_request self_seed t query) = ContentJson (VDict ds) →
  join_value ", " (item_or ds "matched_concepts" (VList [])) = Returns concepts →
  client (n + 1) (relevance_request self_seed query concepts) = ContentJson (VDict dr) →
  gt_num (item_or dr "relevance_score" (VInt 0)) (NFloat 0.3) = Returns false →
  ai_powered_search client self_seed t query s =
    (Returns result,
     {| ai_analysis_cache := <[key := result]> (ai_analysis_cache s);
        sent := sent s ++ [semantic_request self_seed t query;
                           relevance_request self_seed query concepts] |}).
Proof.
  intros n key result Hmiss H1 Hconcepts H2 Hscore.
  change (ai_powered_search client self_seed t query)
    with (perform client self_seed (Search t query)).
  rewrite miss_run by done. simpl try_block. unfold search_try.
  run_ask H1. run_lift. erewrite bind_lift by exact Hconcepts.
  run_ask H2. run_lift. erewrite bind_lift by exact Hscore.
  erewrite bind_run by reflexivity.
  do 2 run_lift. erewrite bind_lift by exact Hscore. do 4 run_lift.
  cbv zeta. unfold bind, cache_store, ret. simpl.
  by rewrite <- !app_assoc.
Qed.

(** *** [assess_compliance_impact] *)










Lemma sends_assess_sector t sector acc :
  sends (about_sector t sector) 3 (assess_sector client self_seed t sector acc).
Proof.
  unfold assess_sector.
  apply (sends_bind _ 1 2); [apply sends_ask; by left | intros ?].
  apply (sends_bind _ 0 2); [apply sends_lift | intros ?].
  destruct (truthy _);
    [| apply sends_weaken with (about_sector t sector) 0; auto using sends_ret; lia].
  apply (sends_bind _ 1 1); [apply sends_ask; right; by left | intros ?].
  apply (sends_bind _ 0 1); [apply sends_lift | intros ?].
  apply (sends_bind _ 0 1); [apply sends_lift | intros ?].
  apply (sends_bind _ 1 0); [apply sends_ask; right; right; by eexists | intros ?].
  apply (sends_bind _ 0 0); [apply sends_lift | intros ?].
  apply (sends_bind _ 0 0); [apply sends_lift | intros ?].
  apply sends_ret.
Qed.

Lemma sends_assess_sectors t sectors acc :
  sends (about_sectors t sectors) (3 * length sectors)
        (assess_sectors client self_seed t sectors acc).
Proof.
  revert acc. induction sectors as [|sector rest IH]; intros acc; simpl.
  - apply sends_ret.
  - replace (S (length rest + S (length rest + S (length rest + 0))))
      with (3 + 3 * length rest) by lia.
    apply sends_bind.
    + apply sends_weaken with (about_sector t sector) 3;
        [apply sends_assess_sector | | lia].
      intros req Hreq. exists sector. split; [by left | done].
    + intros acc'. apply sends_weaken with (about_sectors t rest) (3 * length rest);
        [apply IH | | lia].
      intros req (sector' & Hin & Hreq). exists sector'. split; [by right | done].
Qed.




(** *** Slices *)

Lemma take_take n m s : take n (take m s) = take (n `min` m) s.
Proof.
  revert m s. induction n as [|n IH]; intros [|m] [|c s]; simpl; try done.
  by rewrite IH.
Qed.

Lemma take_app n s1 s2 : take n (s1 +:+ s2) = take n s1 +:+ take (n - len s1) s2.
Proof.
  revert n. induction s1 as [|c s1 IH]; intros n; simpl.
  - rewrite Nat.sub_0_r. by destruct n.
  - destruct n as [|n]; simpl; [by destruct s2 | by rewrite IH].
Qed.

Lemma take_all n s : len s ≤ n → take n s = s.
Proof.
  revert n. induction s as [|c s IH]; intros [|n]; simpl; try done; try lia.
  intros Hle. rewrite IH; [done | lia].
Qed.

Lemma len_take n s : len (take n s) = n `min` len s.
Proof.
  revert s. induction n as [|n IH]; intros [|c s]; simpl; try done.
  by rewrite IH.
Qed.

(** Texts that share their first 1000 characters share their first 500. *)
Lemma take_500_of_1000 t t' : take 1000 t = take 1000 t' → take 500 t = take 500 t'.
Proof.
  intros Hsame.
  change 500 with (500 `min` 1000). by rewrite <- !take_take, Hsame.
Qed.

(** *** The cache key of an operation *)

Lemma cache_key_hashed a :
  cache_key_of a = kind_of a +:+ "_" +:+ md5_hexdigest (hashed_text a).
Proof.
  unfold cache_key_of, create_cache_key, hashed_text. do 2 f_equal.
  assert (∀ t x, take 1000 (take 500 t +:+ x) =
                 take 500 t +:+ take (1000 - len (take 500 t)) x) as Hcut.
  { intros t x. rewrite take_app. f_equal. apply take_all.
    rewrite len_take. lia. }
  destruct a; cbn [keyed_text folded_text text_of]; cbv zeta;
    first [reflexivity | by rewrite Hcut].
Qed.

Lemma cache_key_same_prefix a t' :
  take 1000 (text_of a) = take 1000 t' → cache_key_of (with_text a t') = cache_key_of a.
Proof.
  intros Hsame. pose proof (take_500_of_1000 _ _ Hsame) as Hsame'.
  unfold cache_key_of, create_cache_key.
  destruct a; simpl in *; rewrite ?Hsame, ?Hsame'; reflexivity.
Qed.

(** *** What a call that goes to its [try] block does *)

Lemma perform_miss a s :
  rejected a = false → ai_analysis_cache s !! cache_key_of a = None →
  ∃ new,
    sent (perform client self_seed a s).2 = sent s ++ new ∧
    match try_block client self_seed a s with
    | (Returns r, s') =>
        perform client self_seed a s = (Returns r, s') ∧
        answered (length (sent s)) new ∧
        (ai_analysis_cache s' = <[cache_key_of a := r]> (ai_analysis_cache s) ∨
         (early_shape a r ∧ ai_analysis_cache s' = ai_analysis_cache s))
    | (Raises e, s') =>
        perform client self_seed a s = (Returns (except_value a e), s') ∧
        faulted (length (sent s)) new e ∧
        ai_analysis_cache s' = ai_analysis_cache s
    end.
Proof.
  intros Hguard Hmiss. rewrite miss_run by done.
  destruct (try_block_storing a s) as (new & Hsent & Hnew).
  exists new.
  destruct (try_block client self_seed a s) as [[r | e] s']; simpl in *; tauto.
Qed.

(** A call answered by the guard or from the cache leaves the session as
    it was. *)
Lemma perform_settled a s :
  rejected a = true ∨ is_Some (ai_analysis_cache s !! cache_key_of a) →
  (perform client self_seed a s).2 = s.
Proof.
  rewrite perform_unfold. intros [-> | [hit Hhit]]; [done |].
  destruct (rejected a); [done |]. by rewrite Hhit.
Qed.

(** A [try] block that ran to its end, other than through the early
    return, left its result in the cache. *)
Lemma try_block_stored a s r s' :
  try_block client self_seed a s = (Returns r, s') → ¬ early_shape a r →
  ai_analysis_cache s' !! cache_key_of a = Some r.
Proof.
  intros Hrun Hlate.
  destruct (try_block_storing a s) as (new & _ & Hnew).
  rewrite Hrun in Hnew. simpl in Hnew.
  destruct Hnew as (_ & [-> | [Hearly _]]); [apply lookup_insert_eq | done].
Qed.

(** A call that finds nothing in the cache sends a request. *)
Lemma miss_calls a s :
  rejected a = false → ai_analysis_cache s !! cache_key_of a = None →
  (∀ t, a ≠ Compliance t []) →
  ∃ req new, sent (perform client self_seed a s).2 = sent s ++ req :: new.
Proof.
  intros Hguard Hmiss Hsectors. rewrite miss_run by done.
  destruct (try_block_calling a Hsectors s) as (req & new & Hsent).
  exists req, new.
  by destruct (try_block client self_seed a s) as [[r | e'] s2].
Qed.

(** After a [try] block that raised, the same call sends a request again. *)
Lemma retry_calls a s e s' :
  rejected a = false → ai_analysis_cache s' !! cache_key_of a = None →
  try_block client self_seed a s = (Raises e, s') →
  ∃ req new, sent (perform client self_seed a s').2 = sent s' ++ req :: new.
Proof.
  intros Hguard Hmiss Hraised. apply miss_calls; try done.
  intros t ->. simpl in Hraised.
  destruct (compliance_no_sector_returns (cache_key_of (Compliance t [])) t s)
    as (r & s1 & Hreturns). congruence.
Qed.

(** *** The values of the [except] clauses *)



(** *** The requests of a [try] block, counted *)

Ltac sends_step :=
  match goal with
  | |- sends _ _ (bind (lift _) _) =>
      apply (sends_bind _ 0 _); [apply sends_lift | intros ?]
  | |- sends _ (S ?m) (bind (ask _ _) _) =>
      apply (sends_bind _ 1 m); [by apply sends_ask | intros ?]
  | |- sends _ _ (bind (if ?b then _ else _) _) => destruct b
  | |- sends _ _ (if ?b then _ else _) => destruct b
  | |- sends _ ?m (bind (ret _) _) =>
      apply (sends_bind _ 0 m); [apply sends_ret | intros ?]
  | |- sends ?P ?m (bind (cache_store _ _) _) =>
      apply sends_weaken with P 0; [apply sends_store | done | lia]
  | |- sends ?P ?m (ret _) =>
      apply sends_weaken with P 0; [apply sends_ret | done | lia]
  | |- sends ?P ?m (lift _) =>
      apply sends_weaken with P 0; [apply sends_lift | done | lia]
  | |- sends _ ?m (bind (bind _ _) _) =>
      apply (sends_bind _ 0 m); [| intros ?]
  end.

Lemma try_block_budget a : sends (λ _, True) (budget a) (try_block client self_seed a).
Proof.
  destruct a as [t | t query | t topic | t | t | t sectors]; cbn [try_block budget].
  - unfold comprehensive_try. repeat sends_step.
  - unfold search_try. cbv zeta. repeat sends_step.
  - unfold tracking_try. cbv zeta. repeat sends_step.
  - unfold summary_try. cbv zeta. repeat sends_step.
  - unfold structure_try. cbv zeta. repeat sends_step.
  - unfold compliance_try. cbv zeta.
    apply sends_weaken
      with (λ _, True) (3 * length (firstn 3 sectors) + 0);
      [| done | rewrite length_take; lia].
    apply sends_bind.
    + apply sends_weaken
        with (about_sectors t (firstn 3 sectors)) (3 * length (firstn 3 sectors));
        [apply sends_assess_sectors | done | done].
    + intros impacts. repeat sends_step.
Qed.

(** *** Keys of different kinds *)

Lemma cache_key_kind a a' :
  kind_of a ≠ kind_of a' → cache_key_of a ≠ cache_key_of a'.
Proof.
  unfold cache_key_of, create_cache_key.
  destruct a, a'; simpl; intros Hkind Hkey; try done; discriminate Hkey.
Qed.

(** *** What a call does to the cache *)

Lemma perform_cache a s :
  ai_analysis_cache (perform client self_seed a s).2 = ai_analysis_cache s ∨
  (ai_analysis_cache s !! cache_key_of a = None ∧
   ∃ r, ai_analysis_cache (perform client self_seed a s).2 =
          <[cache_key_of a := r]> (ai_analysis_cache s)).
Proof.
  destruct (rejected a) eqn:Hguard.
  { left. by rewrite perform_settled by auto. }
  destruct (ai_analysis_cache s !! cache_key_of a) as [hit |] eqn:Hmiss.
  { left. rewrite perform_settled; [done | right; by rewrite Hmiss]. }
  destruct (perform_miss a s Hguard Hmiss) as (new & _ & Hrun).
  destruct (try_block client self_seed a s) as [[r | e] s'].
  - destruct Hrun as (-> & _ & [Hstored | [_ Hsame]]); simpl; [right | by left].
    split; [done | by exists r].
  - destruct Hrun as (-> & _ & Hsame). by left.
Qed.

(** *** [ai_powered_search] when the score is above the threshold *)

Lemma search_relevant t query s ds dr dx concepts :
  let n := length (sent s) in
  let key := search_cache_key t query in
  let result := VDict [
    ("relevance_score", item_or dr "relevance_score" (VFloat 0.0));
    ("is_relevant", VBool true);
    ("matching_concepts", item_or ds "matched_concepts" (VList []));
    ("relevant_excerpts", item_or dx "relevant_excerpts" (VList []));
    ("explanation",
     VStr (str_of (item_or dr "relevance_category" (VStr "Not Relevant"))
           +:+ " match for " +:+ query));
    ("confidence_score", item_or ds "semantic_similarity_score" (VFloat 0.0))] in
  ai_analysis_cache s !! key = None →
  client n (semantic_request self_seed t query) = ContentJson (VDict ds) →
  join_value ", " (item_or ds "matched_concepts" (VList [])) = Returns concepts →
  client (n + 1) (relevance_request self_seed query concepts) = ContentJson (VDict dr) →
  gt_num (item_or dr "relevance_score" (VInt 0)) (NFloat 0.3) = Returns true →
  client (n + 2) (excerpt_request self_seed t query) = ContentJson (VDict dx) →
  ai_powered_search client self_seed t query s =
    (Returns result,
     {| ai_analysis_cache := <[key := result]> (ai_analysis_cache s);
        sent := sent s ++ [semantic_request self_seed t query;
                           relevance_request self_seed query concepts;
                           excerpt_request self_seed t query] |}).
Proof.
  intros n key result Hmiss H1 Hconcepts H2 Hscore H3.
  change (ai_powered_search client self_seed t query)
    with (perform client self_seed (Search t query)).
  rewrite miss_run by done. simpl try_block. unfold search_try.
  run_ask H1. run_lift. erewrite bind_lift by exact Hconcepts.
  run_ask H2. run_lift. erewrite bind_lift by exact Hscore.
  run_ask H3.
  do 2 run_lift. erewrite bind_lift by exact Hscore. do 4 run_lift.
  cbv zeta. unfold bind, cache_store, ret. simpl.
  by rewrite <- !app_assoc.
Qed.

Lemma except_consistent e : consistent_relevance (search_except e).
Proof. exists (VFloat 0.0), false. repeat split; reflexivity. Qed.

Lemma ensures_search_try key t query :
  ensures (search_try client self_seed key t query) consistent_relevance.
Proof.
  unfold search_try.
  do 3 (apply ensures_next; intros ?).
  apply ensures_next; intros relevance_result.
  do 3 (apply ensures_next; intros ?).
  apply ensures_bind
    with (P := λ x, get relevance_result "relevance_score" (VFloat 0.0) = Returns x);
    [by apply ensures_lift | intros relevance_score Hfloat].
  apply ensures_bind
    with (P := λ x, get relevance_result "relevance_score" (VInt 0) = Returns x);
    [by apply ensures_lift | intros score Hint].
  apply ensures_bind with (P := λ b, gt_num score (NFloat 0.3) = Returns b);
    [by apply ensures_lift | intros is_relevant Hgt].
  do 4 (apply ensures_next; intros ?).
  cbv zeta. apply ensures_next; intros _. apply ensures_ret.
  exists relevance_score, is_relevant. split; [reflexivity |]. split; [reflexivity |].
  destruct relevance_result as [ | | | | | | d]; try discriminate Hfloat.
  simpl in Hfloat, Hint. unfold item_or in Hfloat, Hint.
  destruct (lookup_item "relevance_score" d) as [v |].
  - injection Hfloat as <-. by injection Hint as <-.
  - injection Hfloat as <-. injection Hint as <-.
    vm_compute in Hgt. injection Hgt as <-. reflexivity.
Qed.

(** *** [generate_ai_summary]: the merge of the four answers *)

Lemma points_of ds :
  Forall (λ d, is_Some (lookup_item "point" d)) ds →
  map_outcome (λ p, getitem p "point") (VDict <$> ds)
    = Returns ((λ d, item_or d "point" VNone) <$> ds).
Proof.
  induction 1 as [| d ds [v Hv] _ IH]; [done |].
  rewrite !fmap_cons. cbn [map_outcome getitem]. unfold item_or at 1.
  rewrite Hv. cbn [bind_outcome]. by rewrite IH.
Qed.

Lemma importances_of ds :
  map_outcome (λ p, get p "importance" (VInt 0)) (VDict <$> ds)
    = Returns ((λ d, item_or d "importance" (VInt 0)) <$> ds).
Proof.
  induction ds as [| d ds IH]; [done |].
  rewrite !fmap_cons. cbn [map_outcome get bind_outcome]. by rewrite IH.
Qed.

Lemma max_num_elem x xs : max_num x xs ∈ x :: xs.
Proof.
  unfold max_num. revert x. induction xs as [| y ys IH]; intros x; simpl.
  - apply elem_of_cons. by left.
  - specialize (IH (if num_gtb y x then y else x)).
    apply elem_of_cons in IH as [-> | Hin]; rewrite !elem_of_cons.
    + destruct (num_gtb y x); auto.
    + auto.
Qed.

Lemma summary_merge t s d1 d2 d3 d4 ds x xs domains confidence :
  let n := length (sent s) in
  let key := cache_key_of (Summary t) in
  let result := VDict [
    ("document_type", item_or d1 "document_type" (VStr "Other"));
    ("main_purpose", item_or d2 "main_purpose" (VStr "Not specified"));
    ("key_points", VList ((λ d, item_or d "point" VNone) <$> ds));
    ("importance", VStr (if num_gtb (max_num x xs) (NFloat 0.7) then "High" else "Medium"));
    ("topics", VList (firstn 2 domains));
    ("confidence_score", confidence)] in
  ai_analysis_cache s !! key = None →
  client n (type_request self_seed t) = ContentJson (VDict d1) →
  client (n + 1) (purpose_request self_seed t) = ContentJson (VDict d2) →
  client (n + 2) (points_request self_seed t) = ContentJson (VDict d3) →
  client (n + 3) (domains_request self_seed t) = ContentJson (VDict d4) →
  lookup_item "key_points" d3 = Some (VList (VDict <$> ds)) →
  Forall (λ d, is_Some (lookup_item "point" d)) ds →
  all_nums ((λ d, item_or d "importance" (VInt 0)) <$> ds) = Some (x :: xs) →
  item_or d4 "legal_domains" (VList []) = VList domains →
  min2 (item_or d1 "type_confidence" (VFloat 0.0))
       (item_or d2 "purpose_clarity" (VFloat 0.0)) = Returns confidence →
  perform client self_seed (Summary t) s =
    (Returns result,
     {| ai_analysis_cache := <[key := result]> (ai_analysis_cache s);
        sent := sent s ++ [type_request self_seed t; purpose_request self_seed t;
                           points_request self_seed t; domains_request self_seed t] |}).
Proof.
  intros n key result Hmiss H1 H2 H3 H4 Hpoints Hpoint Hscores Hdomains Hmin.
  assert (Hlisted : ∀ default, item_or d3 "key_points" default = VList (VDict <$> ds)).
  { intros default. unfold item_or. by rewrite Hpoints. }
  rewrite miss_run by done. cbn [try_block]. unfold summary_try.
  run_ask H1. run_ask H2. run_ask H3. run_ask H4.
  do 2 run_lift.
  erewrite bind_lift by (cbn [get]; by rewrite Hlisted).
  run_lift. erewrite bind_lift by (by apply points_of).
  erewrite bind_lift by (cbn [get]; by rewrite Hlisted).
  run_lift. erewrite bind_lift by apply importances_of.
  erewrite bind_lift by (unfold max_gt_num; by rewrite Hscores).
  erewrite bind_lift by (cbn [get]; by rewrite Hdomains).
  do 3 run_lift. erewrite bind_lift by exact Hmin.
  cbv zeta. unfold bind, cache_store, ret. simpl.
  by rewrite <- !app_assoc.
Qed.

(** A [key_points] that is present and empty: [max] of the empty list
    raises, after the four requests. *)
Lemma summary_no_point t s d1 d2 d3 v4 :
  let n := length (sent s) in
  ai_analysis_cache s !! cache_key_of (Summary t) = None →
  client n (type_request self_seed t) = ContentJson (VDict d1) →
  client (n + 1) (purpose_request self_seed t) = ContentJson (VDict d2) →
  client (n + 2) (points_request self_seed t) = ContentJson (VDict d3) →
  client (n + 3) (domains_request self_seed t) = ContentJson v4 →
  lookup_item "key_points" d3 = Some (VList []) →
  perform client self_seed (Summary t) s =
    (Returns (summary_except (RuntimeFault "max" [VList []; VFloat 0.7])),
     {| ai_analysis_cache := ai_analysis_cache s;
        sent := sent s ++ [type_request self_seed t; purpose_request self_seed t;
                           points_request self_seed t; domains_request self_seed t] |}).
Proof.
  intros n Hmiss H1 H2 H3 H4 Hpoints.
  assert (Hlisted : ∀ default, item_or d3 "key_points" default = VList []).
  { intros default. unfold item_or. by rewrite Hpoints. }
  rewrite miss_run by done. cbn [try_block]. unfold summary_try.
  run_ask H1. run_ask H2. run_ask H3. run_ask H4.
  do 2 run_lift.
  erewrite bind_lift by (cbn [get]; by rewrite Hlisted).
  do 2 run_lift.
  erewrite bind_lift by (cbn [get]; by rewrite Hlisted).
  do 2 run_lift.
  unfold bind, lift. simpl.
  by rewrite <- !app_assoc.
Qed.

(** A points answer without [key_points]: the two defaults differ, the
    list of points is empty and the importance is computed from one
    stand-in item of importance 0. *)
Lemma summary_points_absent t s d1 d2 d3 d4 domains confidence :
  let n := length (sent s) in
  let key := cache_key_of (Summary t) in
  let result := VDict [
    ("document_type", item_or d1 "document_type" (VStr "Other"));
    ("main_purpose", item_or d2 "main_purpose" (VStr "Not specified"));
    ("key_points", VList []);
    ("importance", VStr "Medium");
    ("topics", VList (firstn 2 domains));
    ("confidence_score", confidence)] in
  ai_analysis_cache s !! key = None →
  client n (type_request self_seed t) = ContentJson (VDict d1) →
  client (n + 1) (purpose_request self_seed t) = ContentJson (VDict d2) →
  client (n + 2) (points_request self_seed t) = ContentJson (VDict d3) →
  client (n + 3) (domains_request self_seed t) = ContentJson (VDict d4) →
  lookup_item "key_points" d3 = None →
  item_or d4 "legal_domains" (VList []) = VList domains →
  min2 (item_or d1 "type_confidence" (VFloat 0.0))
       (item_or d2 "purpose_clarity" (VFloat 0.0)) = Returns confidence →
  perform client self_seed (Summary t) s =
    (Returns result,
     {| ai_analysis_cache := <[key := result]> (ai_analysis_cache s);
        sent := sent s ++ [type_request self_seed t; purpose_request self_seed t;
                           points_request self_seed t; domains_request self_seed t] |}).
Proof.
  intros n key result Hmiss H1 H2 H3 H4 Hpoints Hdomains Hmin.
  assert (Hlisted : ∀ default, item_or d3 "key_points" default = default).
  { intros default. unfold item_or. by rewrite Hpoints. }
  rewrite miss_run by done. cbn [try_block]. unfold summary_try.
  run_ask H1. run_ask H2. run_ask H3. run_ask H4.
  do 2 run_lift.
  erewrite bind_lift by (cbn [get]; by rewrite Hlisted).
  do 2 run_lift.
  erewrite bind_lift by (cbn [get]; by rewrite Hlisted).
  do 3 run_lift.
  erewrite bind_lift by (cbn [get]; by rewrite Hdomains).
  do 3 run_lift. erewrite bind_lift by exact Hmin.
  cbv zeta. unfold bind, cache_store, ret. simpl.
  by rewrite <- !app_assoc.
Qed.

(** *** [extract_document_structure]: the merge of the answers *)

Lemma entries_of secs :
  Forall typed secs →
  map_outcome section_entry (VDict <$> secs) = Returns (entry_of <$> secs).
Proof.
  induction 1 as [| d secs [[type Htype] [identifier Hidentifier]] _ IH]; [done |].
  rewrite !fmap_cons. cbn [map_outcome]. rewrite IH.
  unfold section_entry, entry_of, getitem, item_or.
  by rewrite Htype, Hidentifier.
Qed.

Lemma annex_among secs :
  Forall typed secs →
  any_outcome is_annex (VDict <$> secs)
    = Returns (existsb (λ d, eq_str (item_or d "type" VNone) "Annex") secs).
Proof.
  induction 1 as [| d secs [[type Htype] _] _ IH]; [done |].
  rewrite fmap_cons. cbn [any_outcome existsb]. rewrite IH.
  unfold is_annex, getitem, item_or. rewrite Htype. cbn [bind_outcome].
  by destruct (eq_str type "Annex").
Qed.

Lemma structure_merge t s d da secs total :
  let n := length (sent s) in
  let key := cache_key_of (Structure t) in
  let structured := truthy (item_or d "has_structured_format" VNone) in
  let result := VDict [
    ("title", VStr "Document Structure Analysis");
    ("sections", VList (entry_of <$> secs));
    ("has_articles", VBool (num_gtb total (NInt 0)));
    ("has_annexes",
     VBool (existsb (λ d, eq_str (item_or d "type" VNone) "Annex") secs));
    ("total_sections", VInt (Z.of_nat (length secs)));
    ("confidence_score", VFloat 0.8)] in
  ai_analysis_cache s !! key = None →
  client n (sections_request self_seed t) = ContentJson (VDict d) →
  item_or d "sections_found" (VList []) = VList (VDict <$> secs) →
  Forall typed secs →
  (if structured
   then client (n + 1) (articles_request self_seed t) = ContentJson (VDict da)
   else VDict da = no_articles) →
  as_num (item_or da "total_articles" (VInt 0)) = Some total →
  perform client self_seed (Structure t) s =
    (Returns result,
     {| ai_analysis_cache := <[key := result]> (ai_analysis_cache s);
        sent := sent s ++ sections_request self_seed t ::
                  (if structured then [articles_request self_seed t] else []) |}).
Proof.
  intros n key structured result Hmiss H1 Hfound Htyped Harticles Htotal.
  rewrite miss_run by done. cbn [try_block]. unfold structure_try.
  run_ask H1. run_lift. fold structured.
  destruct structured.
  - run_ask Harticles.
    erewrite bind_lift by (cbn [get]; by rewrite Hfound).
    run_lift. erewrite bind_lift by (by apply entries_of).
    run_lift. erewrite bind_lift by (unfold gt_num; by rewrite Htotal).
    erewrite bind_lift by (cbn [get]; by rewrite Hfound).
    run_lift. erewrite bind_lift by (by apply annex_among).
    erewrite bind_lift by (cbn [get]; by rewrite Hfound).
    run_lift.
    cbv zeta. unfold bind, cache_store, ret. simpl.
    rewrite length_fmap. by rewrite <- !app_assoc.
  - rewrite <- Harticles.
    erewrite bind_run by reflexivity.
    erewrite bind_lift by (cbn [get]; by rewrite Hfound).
    run_lift. erewrite bind_lift by (by apply entries_of).
    run_lift. erewrite bind_lift by (unfold gt_num; by rewrite Htotal).
    erewrite bind_lift by (cbn [get]; by rewrite Hfound).
    run_lift. erewrite bind_lift by (by apply annex_among).
    erewrite bind_lift by (cbn [get]; by rewrite Hfound).
    run_lift.
    cbv zeta. unfold bind, cache_store, ret. simpl.
    by rewrite length_fmap.
Qed.

(** *** [assess_compliance_impact] when no sector is relevant *)

Lemma assess_sectors_dismissed t sectors acc s :
  Forall (dismissed t) sectors →
  assess_sectors client self_seed t sectors acc s =
    (Returns acc,
     {| ai_analysis_cache := ai_analysis_cache s;
        sent := sent s ++ (sector_relevance_request self_seed t <$> sectors) |}).
Proof.
  intros Hall. revert s.
  induction Hall as [| sector rest Hsector _ IH]; intros s.
  - destruct s. simpl. by rewrite app_nil_r.
  - destruct (Hsector (length (sent s))) as (d & Hanswer & Hfalsy).
    cbn [assess_sectors]. unfold assess_sector.
    erewrite bind_run; [| erewrite bind_run; [| by apply ask_json with (2 := Hanswer)];
                          run_lift; rewrite Hfalsy; reflexivity].
    rewrite IH. simpl. by rewrite <- app_assoc.
Qed.

Lemma compliance_dismissed t sectors s :
  let key := cache_key_of (Compliance t sectors) in
  let result := VDict [
    ("overall_impact", VStr "Low");
    ("sector_impacts", VDict []);
    ("cross_sector_requirements", VList []);
    ("implementation_complexity", VStr "Low");
    ("confidence_score", VFloat 0.7)] in
  ai_analysis_cache s !! key = None →
  Forall (dismissed t) (firstn 3 sectors) →
  perform client self_seed (Compliance t sectors) s =
    (Returns result,
     {| ai_analysis_cache := <[key := result]> (ai_analysis_cache s);
        sent := sent s ++ (sector_relevance_request self_seed t <$> firstn 3 sectors) |}).
Proof.
  intros key result Hmiss Hall.
  rewrite miss_run by done. cbn [try_block]. unfold compliance_try.
  erewrite bind_run by (by apply assess_sectors_dismissed).
  run_lift. cbv zeta. unfold bind, cache_store, ret. reflexivity.
Qed.

(** *** The part of the document text that an operation reads *)

Lemma take_within k n t t' :
  k `min` n = k → take n t = take n t' → take k t' = take k t.
Proof. intros <- Hsame. by rewrite <- !take_take, Hsame. Qed.

Lemma assess_sectors_window t t' sectors acc s :
  take 2000 t = take 2000 t' →
  assess_sectors client self_seed t' sectors acc s
    = assess_sectors client self_seed t sectors acc s.
Proof.
  intros Hsame.
  assert (Hsector : ∀ sector acc,
    assess_sector client self_seed t' sector acc
      = assess_sector client self_seed t sector acc).
  { intros sector acc'. unfold assess_sector, sector_relevance_request, requirements_request.
    by rewrite (take_within 1500 2000 t t'), (take_within 2000 2000 t t'). }
  revert acc s. induction sectors as [| sector rest IH]; intros acc s; [done |].
  cbn [assess_sectors]. unfold bind. rewrite Hsector.
  destruct (assess_sector client self_seed t sector acc s) as [[acc' | e] s']; [apply IH | done].
Qed.

Lemma key_window a t' :
  take (window a) (text_of a) = take (window a) t' →
  cache_key_of (with_text a t') = cache_key_of a.
Proof.
  intros Hsame. apply cache_key_same_prefix.
  symmetry. apply take_within with (2 := Hsame). by destruct a.
Qed.

Lemma try_block_window a t' s :
  take (window a) (text_of a) = take (window a) t' →
  try_block client self_seed (with_text a t') s = try_block client self_seed a s.
Proof.
  intros Hsame. pose proof (key_window a t' Hsame) as Hkey.
  destruct a as [t | t query | t topic | t | t | t sectors];
    cbn [try_block with_text window text_of] in *; rewrite Hkey.
  - unfold comprehensive_try, comprehensive_request.
    by rewrite (take_within 4000 4000 t t').
  - unfold search_try, semantic_request, excerpt_request.
    by rewrite (take_within 1500 2000 t t'), (take_within 2000 2000 t t').
  - unfold tracking_try, detection_request, relationship_request, temporal_request,
      evolution_request.
    by rewrite (take_within 1500 2000 t t'), (take_within 2000 2000 t t').
  - unfold summary_try, type_request, purpose_request, points_request, domains_request.
    by rewrite (take_within 500 2000 t t'), (take_within 1500 2000 t t'),
      (take_within 2000 2000 t t').
  - unfold structure_try, sections_request, articles_request.
    by rewrite (take_within 2000 3000 t t'), (take_within 3000 3000 t t').
  - unfold compliance_try, bind.
    by rewrite (assess_sectors_window t t')
      by (symmetry; by apply take_within with (n := 2000)).
Qed.

Lemma perform_window a t' s :
  take (window a) (text_of a) = take (window a) t' →
  rejected (with_text a t') = rejected a →
  perform client self_seed (with_text a t') s = perform client self_seed a s.
Proof.
  intros Hsame Hguard.
  rewrite !perform_unfold, Hguard, key_window, try_block_window by done.
  by destruct a.
Qed.

(** *** [comprehensive_document_analysis] when the model answers *)

Lemma comprehensive_answered t s v :
  too_short t = false →
  ai_analysis_cache s !! cache_key_of (Comprehensive t) = None →
  client (length (sent s)) (comprehensive_request t) = ContentJson v →
  perform client self_seed (Comprehensive t) s =
    (Returns v,
     {| ai_analysis_cache := <[cache_key_of (Comprehensive t) := v]> (ai_analysis_cache s);
        sent := sent s ++ [comprehensive_request t] |}).
Proof.
  intros Hguard Hmiss Hanswer.
  rewrite miss_run by done. cbn [try_block]. unfold comprehensive_try.
  run_ask Hanswer. reflexivity.
Qed.

(** *** What a call leaves in the cache *)

Lemma perform_keeps a s k v :
  ai_analysis_cache s !! k = Some v →
  ai_analysis_cache (perform client self_seed a s).2 !! k = Some v.
Proof.
  intros Hv.
  destruct (perform_cache a s) as [-> | (Hmiss & r & ->)]; [done |].
  rewrite lookup_insert_ne; [done |]. intros <-. congruence.
Qed.

(** A returned value is in the cache under the key of the call, unless it
    is the answer of the guard, the value of the [except] clause or an
    early return. *)
Lemma perform_result a s r s' :
  perform client self_seed a s = (Returns r, s') →
  ai_analysis_cache s' !! cache_key_of a = Some r ∨
  rejected a = true ∨ (∃ e, r = except_value a e) ∨ early_shape a r.
Proof.
  intros Hrun.
  destruct (rejected a) eqn:Hguard; [auto |].
  destruct (ai_analysis_cache s !! cache_key_of a) as [hit |] eqn:Hmiss.
  { rewrite perform_unfold, Hguard, Hmiss in Hrun. injection Hrun as <- <-. auto. }
  destruct (perform_miss a s Hguard Hmiss) as (new & _ & Hcase).
  destruct (try_block client self_seed a s) as [[r1 | e] s1].
  - destruct Hcase as (Hsame & _ & [Hstored | [Hearly _]]);
      rewrite Hsame in Hrun; injection Hrun as <- <-; [left | auto].
    rewrite Hstored. apply lookup_insert_eq.
  - destruct Hcase as (Hsame & _). rewrite Hsame in Hrun. injection Hrun as <- <-.
    right. right. left. by exists e.
Qed.

(** *** The requests of a call *)

Lemma sends_perform a : sends (λ _, True) (budget a) (perform client self_seed a).
Proof.
  intros s. rewrite perform_unfold.
  destruct (rejected a);
    [exists []; simpl; rewrite app_nil_r; split; [done | split; [done | lia]] |].
  destruct (ai_analysis_cache s !! cache_key_of a);
    [exists []; simpl; rewrite app_nil_r; split; [done | split; [done | lia]] |].
  destruct (try_block_budget a s) as (new & Hsent & Hall & Hlen).
  exists new.
  by destruct (try_block client self_seed a s) as [[r | e] s'].
Qed.

End Reasoning.

(** ** Reasoning about the scans *)

Section ScanReasoning.

Context {rt : Py.Runtime}.
Variable client : service.
Variable self_seed : option Z.
Variable document : Type.
Variable text : document → string.
Variable attribute_error : Py.exn → bool.

Import Py.

(** *** The search scan *)

Lemma sends_search_each query docs results :
  sends (λ _, True) (3 * length docs)
        (search_each client self_seed text query docs results).
Proof.
  revert results. induction docs as [| doc rest IH]; intros results.
  - apply sends_ret.
  - cbn [search_each length].
    replace (3 * S (length rest)) with (3 + (0 + 3 * length rest)) by lia.
    apply sends_bind; [apply (sends_perform client self_seed (Search (text doc) query)) |].
    intros relevance. apply sends_bind; [apply sends_lift | intros hit; apply IH].
Qed.

Lemma search_each_kept query docs results s out s' :
  search_each client self_seed text query docs results s = (Returns out, s') →
  ∃ kept,
    out = results ++ kept ∧
    kept.*1 `sublist_of` docs ∧
    Forall (λ found, search_hit found.2 = Returns true) kept.
Proof.
  revert results s. induction docs as [| doc rest IH]; intros results s Hrun.
  - injection Hrun as <- _. exists []. by rewrite app_nil_r.
  - cbn [search_each] in Hrun. unfold bind at 1 in Hrun.
    destruct (ai_powered_search client self_seed (text doc) query s)
      as [[relevance | e] s1]; [| discriminate].
    unfold bind at 1, lift in Hrun.
    destruct (search_hit relevance) as [hit | e] eqn:Hhit; [| discriminate].
    apply IH in Hrun as (kept & -> & Hsub & Hall).
    destruct hit.
    + exists ((doc, relevance) :: kept). rewrite <- app_assoc.
      split; [done |]. split; [by apply sublist_skip | by apply Forall_cons].
    + exists kept. split; [done |]. split; [by apply sublist_cons | done].
Qed.

Lemma search_each_cached query docs results s :
  (∀ doc, doc ∈ docs →
     is_Some (ai_analysis_cache s !! search_cache_key (text doc) query)) →
  (search_each client self_seed text query docs results s).2 = s.
Proof.
  revert results. induction docs as [| doc rest IH]; intros results Hcached; [done |].
  cbn [search_each]. unfold bind at 1.
  pose proof (perform_settled client self_seed (Search (text doc) query) s) as Hsame.
  change (perform client self_seed (Search (text doc) query))
    with (ai_powered_search client self_seed (text doc) query) in Hsame.
  destruct (ai_powered_search client self_seed (text doc) query s) as [[relevance | e] s1].
  - simpl in Hsame. rewrite Hsame by (right; apply Hcached, elem_of_cons; by left).
    unfold bind at 1, lift.
    destruct (search_hit relevance) as [hit | e]; [| done].
    apply IH. intros doc' Hin. apply Hcached, elem_of_cons. by right.
  - simpl in *. apply Hsame. right. apply Hcached, elem_of_cons. by left.
Qed.

Lemma search_each_stored query docs results s out s' :
  search_each client self_seed text query docs results s = (Returns out, s') →
  (∀ doc r, (doc, r) ∈ results →
     ai_analysis_cache s !! search_cache_key (text doc) query = Some r) →
  ∀ doc r, (doc, r) ∈ out →
    ai_analysis_cache s' !! search_cache_key (text doc) query = Some r.
Proof.
  revert results s. induction docs as [| doc rest IH]; intros results s Hrun Hold.
  { injection Hrun as <- <-. exact Hold. }
  cbn [search_each] in Hrun. unfold bind at 1 in Hrun.
  destruct (ai_powered_search client self_seed (text doc) query s)
    as [[relevance | e] s1] eqn:Hcall; [| discriminate].
  unfold bind at 1, lift in Hrun.
  destruct (search_hit relevance) as [hit | e] eqn:Hhit; [| discriminate].
  apply (IH _ _ Hrun).
  assert (Hkept : ∀ doc' r', (doc', r') ∈ results →
            ai_analysis_cache s1 !! search_cache_key (text doc') query = Some r').
  { intros doc' r' Hin.
    pose proof (perform_keeps client self_seed (Search (text doc) query) s _ _
                  (Hold _ _ Hin)) as Hkeeps.
    change (perform client self_seed (Search (text doc) query))
      with (ai_powered_search client self_seed (text doc) query) in Hkeeps.
    by rewrite Hcall in Hkeeps. }
  destruct hit; [| exact Hkept].
  intros doc' r' [Hin | Hin%list_elem_of_singleton]%elem_of_app; [by apply Hkept |].
  injection Hin as -> ->.
  destruct (perform_result client self_seed (Search (text doc) query) s _ _ Hcall)
    as [Hstored | [Hguard | [[e ->] | []]]]; [exact Hstored | discriminate |].
  discriminate Hhit.
Qed.

(** *** The tracking scan *)

(** [ai_regulatory_tracking] catches every exception itself: the
    [AttributeError] handler around it has nothing to catch. *)
Lemma track_document_direct doc query s :
  track_document client self_seed text attribute_error doc query s
    = ai_regulatory_tracking client self_seed (text doc) query s.
Proof.
  unfold track_document, try_except_attribute.
  destruct (perform_returns client self_seed (Tracking (text doc) query) s) as [r Hr].
  change (perform client self_seed (Tracking (text doc) query))
    with (ai_regulatory_tracking client self_seed (text doc) query) in Hr.
  by destruct (ai_regulatory_tracking client self_seed (text doc) query s) as [[r' | e] s'].
Qed.

Lemma sends_track_each threshold query docs results :
  sends (λ _, True) (4 * length docs)
        (track_each client self_seed text attribute_error threshold query docs results).
Proof.
  revert results. induction docs as [| doc rest IH]; intros results.
  - apply sends_ret.
  - cbn [track_each length].
    replace (4 * S (length rest)) with (4 + (0 + 4 * length rest)) by lia.
    apply sends_bind.
    + intros s. rewrite track_document_direct.
      apply (sends_perform client self_seed (Tracking (text doc) query)).
    + intros analysis. apply sends_bind; [apply sends_lift | intros hit; apply IH].
Qed.

Lemma track_each_stored threshold query docs results s out s' :
  track_each client self_seed text attribute_error threshold query docs results s
    = (Returns out, s') →
  (∀ doc r, (doc, r) ∈ results →
     ai_analysis_cache s !! tracking_cache_key (text doc) query = Some r) →
  ∀ doc r, (doc, r) ∈ out →
    ai_analysis_cache s' !! tracking_cache_key (text doc) query = Some r.
Proof.
  revert results s. induction docs as [| doc rest IH]; intros results s Hrun Hold.
  { injection Hrun as <- <-. exact Hold. }
  cbn [track_each] in Hrun. unfold bind at 1 in Hrun.
  rewrite track_document_direct in Hrun.
  destruct (ai_regulatory_tracking client self_seed (text doc) query s)
    as [[analysis | e] s1] eqn:Hcall; [| discriminate].
  unfold bind at 1, lift in Hrun.
  destruct (tracking_hit threshold analysis) as [hit | e] eqn:Hhit; [| discriminate].
  apply (IH _ _ Hrun).
  assert (Hkept : ∀ doc' r', (doc', r') ∈ results →
            ai_analysis_cache s1 !! tracking_cache_key (text doc') query = Some r').
  { intros doc' r' Hin.
    pose proof (perform_keeps client self_seed (Tracking (text doc) query) s _ _
                  (Hold _ _ Hin)) as Hkeeps.
    change (perform client self_seed (Tracking (text doc) query))
      with (ai_regulatory_tracking client self_seed (text doc) query) in Hkeeps.
    by rewrite Hcall in Hkeeps. }
  destruct hit; [| exact Hkept].
  intros doc' r' [Hin | Hin%list_elem_of_singleton]%elem_of_app; [by apply Hkept |].
  injection Hin as -> ->.
  destruct (perform_result client self_seed (Tracking (text doc) query) s _ _ Hcall)
    as [Hstored | [Hguard | [[e ->] | [confidence ->]]]];
    [exact Hstored | discriminate | discriminate Hhit | discriminate Hhit].
Qed.

Lemma track_each_app threshold query docs docs' results s :
  track_each client self_seed text attribute_error threshold query (docs ++ docs') results s
    = bind (track_each client self_seed text attribute_error threshold query docs results)
           (track_each client self_seed text attribute_error threshold query docs') s.
Proof.
  revert results s. induction docs as [| doc rest IH]; intros results s; [done |].
  cbn [app track_each]. unfold bind in IH |- *.
  destruct (track_document _ _ _ _ _ _ s) as [[analysis | e] s1]; [| done].
  unfold lift.
  destruct (tracking_hit threshold analysis) as [hit | e]; [| done].
  apply IH.
Qed.

Lemma track_batches_concat threshold query rows nums results s :
  track_batches client self_seed text attribute_error threshold query rows nums results s
    = track_each client self_seed text attribute_error threshold query
        (concat (batch_of rows <$> nums)) results s.
Proof.
  revert results s. induction nums as [| num rest IH]; intros results s; [done |].
  rewrite fmap_cons. cbn [track_batches concat]. cbv zeta.
  rewrite track_each_app. unfold bind.
  destruct (track_each _ _ _ _ _ _ (batch_of rows num) results s) as [[out | e] s1];
    [apply IH | done].
Qed.

Lemma iloc_app {A} (rows : list A) a b c :
  a ≤ b → b ≤ c → iloc rows a b ++ iloc rows b c = iloc rows a c.
Proof.
  intros Hab Hbc. unfold iloc.
  replace (skipn b rows) with (skipn (b - a) (skipn a rows))
    by (rewrite drop_drop; f_equal; lia).
  rewrite take_take_drop. f_equal. lia.
Qed.

Lemma batches_from {A} (rows : list A) j k :
  concat (batch_of rows <$> seq j k)
    = iloc rows (j * batch_size) (((j + k) * batch_size) `min` length rows).
Proof.
  revert j. induction k as [| k IH]; intros j.
  - simpl. unfold iloc.
    replace (((j + 0) * batch_size) `min` length rows - j * batch_size) with 0 by lia.
    done.
  - cbn [seq fmap list_fmap concat]. rewrite IH.
    replace (S j + k) with (j + S k) by lia.
    unfold batch_of. cbv zeta.
    destruct (decide ((j + 1) * batch_size ≤ length rows)) as [Hin | Hout].
    + replace (((j + 1) * batch_size) `min` length rows) with (S j * batch_size) by lia.
      apply iloc_app; unfold batch_size in *; lia.
    + replace (iloc rows (S j * batch_size) _) with (@nil A).
      * rewrite app_nil_r. f_equal. unfold batch_size in *. lia.
      * unfold iloc. rewrite drop_ge by (unfold batch_size in *; lia).
        by rewrite take_nil.
Qed.

Lemma batches_cover {A} (rows : list A) :
  concat (batch_of rows <$> seq 0 (total_batches (length rows))) = rows.
Proof.
  rewrite batches_from. unfold iloc, total_batches, batch_size. simpl skipn.
  pose proof (Nat.div_mod_eq (length rows + 25 - 1) 25) as Hdiv.
  pose proof (Nat.mod_upper_bound (length rows + 25 - 1) 25) as Hmod.
  apply take_ge. lia.
Qed.

End ScanReasoning.

(** ** The claims *)

Import Py.

(** C1. A document text that is empty, or whose stripped form has fewer
    than 50 characters, makes [comprehensive_document_analysis] return
    the result of [create_fallback_analysis] for the message
    [Document text too short or empty]: its [overall_confidence] is 0.0
    and the message is its [error] and its executive summary.  The session
    is returned as it was: no request went to the language model and the
    cache was not touched. *)
Theorem comprehensive_short_text_fallback {rt : Runtime} (client : service)
    (document_text : string) (s : session) :
  document_text = EmptyString ∨ len (strip document_text) < 50 →
  ∃ r summary,
    comprehensive_document_analysis client document_text s = (Returns r, s) ∧
    r = create_fallback_analysis "Document text too short or empty" ∧
    field "overall_confidence" r = Some (VFloat 0.0) ∧
    field "error" r = Some (VStr "Document text too short or empty") ∧
    field "summary" r = Some summary ∧
    field "executive_summary" summary = Some (VStr "Document text too short or empty") ∧
    field "confidence_score" summary = Some (VFloat 0.0).
Proof.
  intros Hshort.
  assert (too_short document_text = true) as Hguard.
  { unfold too_short. destruct Hshort as [-> | Hlen]; [done |].
    apply orb_true_iff. right. by apply Nat.ltb_lt. }
  unfold comprehensive_document_analysis. rewrite Hguard.
  do 2 eexists. repeat split; reflexivity.
Qed.

Lemma comprehensive_short_text_fallback_witness :
  ∃ r summary,
    comprehensive_document_analysis (rt := Stub.runtime) (Stub.always VNone)
      "  Council Decision 2021/17  " Stub.fresh = (Returns r, Stub.fresh) ∧
    r = create_fallback_analysis "Document text too short or empty" ∧
    field "overall_confidence" r = Some (VFloat 0.0) ∧
    field "error" r = Some (VStr "Document text too short or empty") ∧
    field "summary" r = Some summary ∧
    field "executive_summary" summary = Some (VStr "Document text too short or empty") ∧
    field "confidence_score" summary = Some (VFloat 0.0).
Proof.
  apply (comprehensive_short_text_fallback (rt := Stub.runtime)).
  right. vm_compute. lia.
Defined.

(** C2, as the code has it.  A second call with the same arguments returns
    the result of the first and leaves the session as it was, so that no
    request is sent, whatever the service would answer by then (the
    second call is made with an arbitrary service [client']), provided
    the first call was answered by the input guard or from the cache, or
    ran its [try] block to the end other than through the early return of
    [ai_regulatory_tracking]. *)
Theorem second_call_served_from_cache {rt : Runtime} (client client' : service)
    (seed : option Z) (a : analysis) (s s1 : session) (r : value) :
  perform client seed a s = (Returns r, s1) →
  rejected a = true ∨
  is_Some (ai_analysis_cache s !! cache_key_of a) ∨
  (try_block client seed a s = (Returns r, s1) ∧ ¬ early_shape a r) →
  perform client' seed a s1 = (Returns r, s1).
Proof.
  intros Hfirst Hsettled.
  rewrite perform_unfold in Hfirst. rewrite perform_unfold.
  destruct (rejected a); [by injection Hfirst as <- <- |].
  destruct (ai_analysis_cache s !! cache_key_of a) as [hit |] eqn:Hhit.
  { injection Hfirst as <- <-. by rewrite Hhit. }
  destruct Hsettled as [Hguard | [[hit Hhit'] | [Hrun Hlate]]]; try discriminate.
  by rewrite (try_block_stored client seed a s r s1 Hrun Hlate).
Qed.

Lemma second_call_served_from_cache_witness :
  let t := "Regulation (EU) 2016/679 of the European Parliament and of the Council" in
  let answer := VDict [("overall_confidence", VFloat 0.9)] in
  let unreachable := Stub.until 0 (Stub.always answer) in
  let after_first :=
    {| ai_analysis_cache :=
         <[cache_key_of (rt := Stub.runtime) (Comprehensive t) := answer]> ∅;
       sent := [comprehensive_request t] |} in
  perform (rt := Stub.runtime) unreachable None (Comprehensive t) after_first
    = (Returns answer, after_first).
Proof.
  intros t answer unreachable after_first.
  apply (second_call_served_from_cache (rt := Stub.runtime) (Stub.always answer)
           unreachable None (Comprehensive t) Stub.fresh after_first answer).
  - reflexivity.
  - right. right. split; [reflexivity | simpl; tauto].
Defined.

(** C2, as it is stated, fails on the early return of
    [ai_regulatory_tracking].  The service answers the detection request
    with the same document whenever it answers, and becomes unreachable
    after the first call: the first call returns the not-related result,
    the second call sends the detection request again and returns the
    value of the [except] clause. *)
Lemma tracking_early_return_not_repeated :
  let detection :=
    VDict [("mentions_regulation", VBool false); ("mention_type", VStr "None");
           ("confidence", VFloat 0.9)] in
  let a := Tracking "Commission notice on the market definition." "GDPR" in
  let client := Stub.until 1 (Stub.always detection) in
  let first := perform (rt := Stub.runtime) client None a Stub.fresh in
  let second := perform (rt := Stub.runtime) client None a first.2 in
  first.1 = Returns (not_related (VFloat 0.9)) ∧
  second.1 = Returns (VDict [("relevance_score", VFloat 0.0); ("is_related", VBool false);
                             ("error", VStr "Connection error.")]) ∧
  second.1 ≠ first.1 ∧
  length (sent first.2) = 1 ∧ length (sent second.2) = 2.
Proof.
  intros detection a client first second.
  assert (first.1 = Returns (not_related (VFloat 0.9))) as Hfirst by reflexivity.
  assert (second.1 = Returns (VDict [("relevance_score", VFloat 0.0);
                                     ("is_related", VBool false);
                                     ("error", VStr "Connection error.")]))
    as Hsecond by reflexivity.
  repeat split; try done; rewrite Hfirst, Hsecond; discriminate.
Qed.

(** C3, as the code has it.  Two document texts that share their first
    1000 characters give an operation the same cache key; and after a
    first call that left its result in the cache (it was answered from
    the cache, or ran its [try] block to the end other than through the
    early return of the tracking), the call for the second text returns
    that result and sends no request, provided the second text passes
    the input guard of the comprehensive analysis. *)
Theorem same_prefix_same_entry {rt : Runtime} (client client' : service)
    (seed : option Z) (a : analysis) (t' : string) (s s1 : session) (r : value) :
  take 1000 (text_of a) = take 1000 t' →
  rejected a = false →
  rejected (with_text a t') = false →
  perform client seed a s = (Returns r, s1) →
  is_Some (ai_analysis_cache s !! cache_key_of a) ∨
  (try_block client seed a s = (Returns r, s1) ∧ ¬ early_shape a r) →
  cache_key_of (with_text a t') = cache_key_of a ∧
  perform client' seed (with_text a t') s1 = (Returns r, s1).
Proof.
  intros Hsame Hguard Hguard' Hfirst Hsettled.
  pose proof (cache_key_same_prefix a t' Hsame) as Hkey.
  split; [exact Hkey |].
  assert (ai_analysis_cache s1 !! cache_key_of a = Some r) as Hstored.
  { rewrite perform_unfold, Hguard in Hfirst.
    destruct (ai_analysis_cache s !! cache_key_of a) as [hit |] eqn:Hhit.
    - by injection Hfirst as <- <-.
    - destruct Hsettled as [[hit Hhit'] | [Hrun Hlate]]; [discriminate |].
      by eapply try_block_stored. }
  by rewrite perform_unfold, Hguard', Hkey, Hstored.
Qed.

Lemma same_prefix_same_entry_witness :
  let t := Stub.repeat_char "a"%char 1000 +:+ " and the annexes" in
  let t' := Stub.repeat_char "a"%char 1000 +:+ " without annexes" in
  let answer := VDict [("sections_found", VList []); ("has_structured_format", VBool false)] in
  let unreachable := Stub.until 0 (Stub.always answer) in
  let first := perform (rt := Stub.runtime) (Stub.always answer) None (Structure t) Stub.fresh in
  ∃ r,
    first.1 = Returns r ∧
    cache_key_of (rt := Stub.runtime) (Structure t') = cache_key_of (rt := Stub.runtime) (Structure t) ∧
    perform (rt := Stub.runtime) unreachable None (Structure t') first.2 = (Returns r, first.2).
Proof.
  intros t t' answer unreachable first.
  eexists. split; [reflexivity |].
  apply (same_prefix_same_entry (rt := Stub.runtime) (Stub.always answer) unreachable
           None (Structure t) t' Stub.fresh).
  - reflexivity.
  - reflexivity.
  - reflexivity.
  - reflexivity.
  - right. split; [reflexivity | simpl; tauto].
Defined.

(** C3, as it is stated, fails on the input guard of the comprehensive
    analysis, which comes before the cache.  The two texts share their
    first 1000 characters, all of them blank; the first has 60 more
    characters and is analysed and cached, the second has one more
    character and gets the fallback result, not the cached one. *)
Lemma blank_prefix_bypasses_cache :
  let t := Stub.repeat_char " "%char 1000 +:+ Stub.repeat_char "x"%char 60 in
  let t' := Stub.repeat_char " "%char 1000 +:+ "y" in
  let answer := VDict [("overall_confidence", VFloat 0.9)] in
  let first :=
    perform (rt := Stub.runtime) (Stub.always answer) None (Comprehensive t) Stub.fresh in
  let second :=
    perform (rt := Stub.runtime) (Stub.always answer) None (Comprehensive t') first.2 in
  take 1000 t = take 1000 t' ∧
  cache_key_of (rt := Stub.runtime) (Comprehensive t')
    = cache_key_of (rt := Stub.runtime) (Comprehensive t) ∧
  first.1 = Returns answer ∧
  ai_analysis_cache first.2 !! cache_key_of (rt := Stub.runtime) (Comprehensive t)
    = Some answer ∧
  second.1 = Returns (create_fallback_analysis "Document text too short or empty") ∧
  second.1 ≠ first.1.
Proof.
  intros t t' answer first second.
  assert (first.1 = Returns answer) as Hfirst by (vm_compute; reflexivity).
  assert (second.1 = Returns (create_fallback_analysis "Document text too short or empty"))
    as Hsecond by (vm_compute; reflexivity).
  split; [by vm_compute |]. split; [by vm_compute |]. split; [done |].
  split; [by vm_compute |]. split; [done |].
  rewrite Hfirst, Hsecond. discriminate.
Qed.

(** C4, as the code has it.  The cache key of an operation is its kind, an
    underscore and the digest of [hashed_text]: the first 1000 characters
    of the document text for the comprehensive analysis, the summary and
    the structure; for the search, the tracking and the compliance
    assessment the first 500 characters of the document text followed by
    an underscore and the query, the topic or the comma-joined sector
    list, the whole cut to 1000 characters.  Under that key the operation
    looks its result up, and under that key it stores it. *)
Theorem cache_key_derivation {rt : Runtime} (client : service) (seed : option Z)
    (a : analysis) (s : session) :
  let key := kind_of a +:+ "_" +:+ md5_hexdigest (hashed_text a) in
  cache_key_of a = key ∧
  (∀ hit, rejected a = false → ai_analysis_cache s !! key = Some hit →
          perform client seed a s = (Returns hit, s)) ∧
  (∀ r s', try_block client seed a s = (Returns r, s') → ¬ early_shape a r →
           ai_analysis_cache s' !! key = Some r).
Proof.
  intros key. pose proof (cache_key_hashed a) as Hkey. fold key in Hkey.
  split; [exact Hkey |]. split.
  - intros hit Hguard Hhit. by rewrite perform_unfold, Hguard, Hkey, Hhit.
  - intros r s' Hrun Hlate. rewrite <- Hkey. by eapply try_block_stored.
Qed.

(** C4, as it is stated, fails for the search, the tracking and the
    compliance assessment: of the document text only the first 500
    characters are hashed.  The two texts below differ at their 501st
    character, so within their first 1000, and have the same key for
    every digest function. *)
Lemma search_key_ignores_text_beyond_500 :
  let t := Stub.repeat_char "a"%char 500 +:+ "b" in
  let t' := Stub.repeat_char "a"%char 500 +:+ "c" in
  take 1000 t ≠ take 1000 t' ∧
  hashed_text (Search t "tax") = Stub.repeat_char "a"%char 500 +:+ "_tax" ∧
  hashed_text (Search t' "tax") = Stub.repeat_char "a"%char 500 +:+ "_tax" ∧
  ∀ rt : Runtime,
    cache_key_of (rt := rt) (Search t "tax") = cache_key_of (rt := rt) (Search t' "tax").
Proof.
  intros t t'.
  assert (keyed_text (Search t "tax") = keyed_text (Search t' "tax")) as Hsame
    by (by vm_compute).
  split; [| split; [by vm_compute | split; [by vm_compute |]]].
  - intros Hequal.
    assert (take 501 (take 1000 t) = take 501 (take 1000 t')) as Hcut by (by rewrite Hequal).
    vm_compute in Hcut. discriminate Hcut.
  - intros rt. unfold cache_key_of. by rewrite Hsame.
Qed.

(** C5. In [ai_powered_search], when the relevance-scoring step answers
    with a relevance score that does not exceed 0.3 (the comparison
    [score > 0.3] is false), the excerpt-extraction request is not sent:
    exactly two requests go out, the semantic-match request and the
    relevance-scoring request; [is_relevant] is false in the result and
    [relevant_excerpts] is the empty list.  The semantic similarity score
    of step 1 plays no part in this. *)
Theorem search_low_score_skips_excerpts {rt : Runtime} (client : service)
    (seed : option Z) (t query : string) (s : session)
    (semantic_result relevance_result score : value) (concepts : string) :
  let n := length (sent s) in
  ai_analysis_cache s !! search_cache_key t query = None →
  client n (semantic_request seed t query) = ContentJson semantic_result →
  bind_outcome (get semantic_result "matched_concepts" (VList [])) (join_value ", ")
    = Returns concepts →
  client (n + 1) (relevance_request seed query concepts) = ContentJson relevance_result →
  get relevance_result "relevance_score" (VInt 0) = Returns score →
  gt_num score (NFloat 0.3) = Returns false →
  ∃ r s',
    ai_powered_search client seed t query s = (Returns r, s') ∧
    sent s' = sent s ++ [semantic_request seed t query;
                         relevance_request seed query concepts] ∧
    field "is_relevant" r = Some (VBool false) ∧
    field "relevant_excerpts" r = Some (VList []).
Proof.
  intros n Hmiss H1 Hconcepts H2 Hscore Hlow.
  destruct semantic_result as [ | | | | | | ds]; try discriminate Hconcepts.
  destruct relevance_result as [ | | | | | | dr]; try discriminate Hscore.
  simpl in Hconcepts, Hscore. injection Hscore as <-.
  eexists _, _. split.
  { by apply search_not_relevant with (ds := ds) (dr := dr). }
  repeat split; reflexivity.
Qed.

Lemma search_low_score_skips_excerpts_witness :
  let semantic_result :=
    VDict [("contains_related_concepts", VBool true);
           ("semantic_similarity_score", VFloat 0.9);
           ("matched_concepts", VList [VStr "state aid"; VStr "subsidies"])] in
  let relevance_result :=
    VDict [("relevance_score", VFloat 0.2); ("relevance_category", VStr "Tangential")] in
  let client := Stub.scripted [semantic_result; relevance_result] in
  ∃ r s',
    ai_powered_search (rt := Stub.runtime) client None
      "Guidelines on regional State aid." "data protection" Stub.fresh = (Returns r, s') ∧
    sent s' = sent Stub.fresh ++
      [semantic_request None "Guidelines on regional State aid." "data protection";
       relevance_request None "data protection" "state aid, subsidies"] ∧
    field "is_relevant" r = Some (VBool false) ∧
    field "relevant_excerpts" r = Some (VList []).
Proof.
  intros semantic_result relevance_result client.
  apply (search_low_score_skips_excerpts (rt := Stub.runtime) client None
           "Guidelines on regional State aid." "data protection" Stub.fresh
           semantic_result relevance_result (VFloat 0.2) "state aid, subsidies");
    reflexivity.
Defined.

(** C6. In [ai_regulatory_tracking], when the detection step answers with
    [mentions_regulation] false, exactly one request is sent in total (the
    detection request) and the result is the dictionary with
    [relevance_score] 0.0, [is_related] false, [relationship_type]
    ["None"], and for [confidence_score] the [confidence] of the
    detection (0.0 when the detection has none). *)
Theorem tracking_no_mention_single_call {rt : Runtime} (client : service)
    (seed : option Z) (t topic : string) (s : session) (detection : value) :
  ai_analysis_cache s !! tracking_cache_key t topic = None →
  client (length (sent s)) (detection_request seed t topic) = ContentJson detection →
  field "mentions_regulation" detection = Some (VBool false) →
  ∃ s' confidence,
    ai_regulatory_tracking client seed t topic s =
      (Returns (VDict [("relevance_score", VFloat 0.0);
                       ("is_related", VBool false);
                       ("relationship_type", VStr "None");
                       ("confidence_score", confidence)]), s') ∧
    get detection "confidence" (VFloat 0.0) = Returns confidence ∧
    sent s' = sent s ++ [detection_request seed t topic] ∧
    ai_analysis_cache s' = ai_analysis_cache s.
Proof.
  intros Hmiss Hdetection Hfalse.
  destruct detection as [ | | | | | | d]; try discriminate Hfalse.
  simpl in Hfalse.
  eexists _, _. split.
  { apply tracking_not_mentioned; try done. unfold item_or. by rewrite Hfalse. }
  repeat split; reflexivity.
Qed.

Lemma tracking_no_mention_single_call_witness :
  let detection :=
    VDict [("mentions_regulation", VBool false); ("mention_type", VStr "None");
           ("confidence", VFloat 0.9)] in
  let client := Stub.always detection in
  ∃ s' confidence,
    ai_regulatory_tracking (rt := Stub.runtime) client None
        "Commission notice on the market definition." "GDPR" Stub.fresh =
      (Returns (VDict [("relevance_score", VFloat 0.0);
                       ("is_related", VBool false);
                       ("relationship_type", VStr "None");
                       ("confidence_score", confidence)]), s') ∧
    get detection "confidence" (VFloat 0.0) = Returns confidence ∧
    sent s' = sent Stub.fresh ++
      [detection_request None "Commission notice on the market definition." "GDPR"] ∧
    ai_analysis_cache s' = ai_analysis_cache Stub.fresh.
Proof.
  intros detection client.
  apply (tracking_no_mention_single_call (rt := Stub.runtime) client None
           "Commission notice on the market definition." "GDPR" Stub.fresh detection);
    reflexivity.
Defined.

(** C7. On the full four-step path of [ai_regulatory_tracking] (the
    detection reports a mention and the three further answers are JSON
    objects), four requests are sent and, in the result,
    [confidence_score] is the [confidence] of the detection, whatever
    steps 2 to 4 answered; [relevance_score] is the
    [relationship_strength] of step 2; [related_concepts] is the
    [mention_type] string of the detection split on the bar character,
    and the empty list when [mention_type] is absent or empty;
    [temporal_references] is the [dates_mentioned] list of step 3 followed
    by its [deadlines] list. *)
Theorem tracking_full_path_fields {rt : Runtime} (client : service)
    (seed : option Z) (t topic : string) (s : session)
    (d dr dt de : list (string * value))
    (mention : option string) (dates deadlines : option (list value)) :
  let n := length (sent s) in
  ai_analysis_cache s !! tracking_cache_key t topic = None →
  client n (detection_request seed t topic) = ContentJson (VDict d) →
  truthy (item_or d "mentions_regulation" VNone) = true →
  client (n + 1) (relationship_request seed t topic) = ContentJson (VDict dr) →
  client (n + 2) (temporal_request seed t topic) = ContentJson (VDict dt) →
  client (n + 3) (evolution_request seed t topic) = ContentJson (VDict de) →
  lookup_item "mention_type" d = VStr <$> mention →
  lookup_item "dates_mentioned" dt = VList <$> dates →
  lookup_item "deadlines" dt = VList <$> deadlines →
  ∃ r s',
    ai_regulatory_tracking client seed t topic s = (Returns r, s') ∧
    sent s' = sent s ++ [detection_request seed t topic;
                         relationship_request seed t topic;
                         temporal_request seed t topic;
                         evolution_request seed t topic] ∧
    field "confidence_score" r = Some (item_or d "confidence" (VFloat 0.0)) ∧
    field "relevance_score" r = Some (item_or dr "relationship_strength" (VFloat 0.0)) ∧
    field "related_concepts" r =
      Some (VList (match mention with
                   | Some m => if decide (m = EmptyString) then []
                               else VStr <$> split "|"%char m
                   | None => []
                   end)) ∧
    field "temporal_references" r = Some (VList (default [] dates ++ default [] deadlines)).
Proof.
  intros n Hmiss H1 Hmentions H2 H3 H4 Hmention Hdates Hdeadlines.
  eexists _, _. split.
  - apply tracking_mentioned
      with (d := d) (dr := dr) (dt := dt) (de := de)
           (related := VList (match mention with
                              | Some m => if decide (m = EmptyString) then []
                                          else VStr <$> split "|"%char m
                              | None => []
                              end))
           (refs := VList (default [] dates ++ default [] deadlines)); try done.
    + unfold item_or. rewrite Hmention.
      destruct mention as [[|c m] |]; reflexivity.
    + unfold item_or. rewrite Hdates, Hdeadlines.
      destruct dates, deadlines; reflexivity.
  - repeat split; reflexivity.
Qed.

Lemma tracking_full_path_fields_witness :
  let script :=
    [VDict [("mentions_regulation", VBool true); ("mention_type", VStr "Explicit|Related Area");
            ("confidence", VFloat 0.9)];
     VDict [("relationship_type", VStr "Amendment"); ("relationship_strength", VFloat 0.6)];
     VDict [("dates_mentioned", VList [VStr "2024-01-01"]);
            ("deadlines", VList [VStr "two years after entry into force"]);
            ("time_references", VList [])];
     VDict [("evolution_type", VStr "Amendment"); ("evolution_indicators", VList []);
            ("importance", VStr "High")]] in
  ∃ r s',
    ai_regulatory_tracking (rt := Stub.runtime) (Stub.scripted script) (Some 42%Z)
      "Regulation amending the general data protection rules." "GDPR" Stub.fresh
      = (Returns r, s') ∧
    length (sent s') = 4 ∧
    field "confidence_score" r = Some (VFloat 0.9) ∧
    field "relevance_score" r = Some (VFloat 0.6) ∧
    field "related_concepts" r = Some (VList [VStr "Explicit"; VStr "Related Area"]) ∧
    field "temporal_references" r =
      Some (VList [VStr "2024-01-01"; VStr "two years after entry into force"]).
Proof.
  intros script.
  destruct (tracking_full_path_fields (rt := Stub.runtime) (Stub.scripted script)
              (Some 42%Z) "Regulation amending the general data protection rules."
              "GDPR" Stub.fresh
              [("mentions_regulation", VBool true);
               ("mention_type", VStr "Explicit|Related Area"); ("confidence", VFloat 0.9)]
              [("relationship_type", VStr "Amendment");
               ("relationship_strength", VFloat 0.6)]
              [("dates_mentioned", VList [VStr "2024-01-01"]);
               ("deadlines", VList [VStr "two years after entry into force"]);
               ("time_references", VList [])]
              [("evolution_type", VStr "Amendment"); ("evolution_indicators", VList []);
               ("importance", VStr "High")]
              (Some "Explicit|Related Area")
              (Some [VStr "2024-01-01"])
              (Some [VStr "two years after entry into force"])
              eq_refl eq_refl eq_refl eq_refl eq_refl eq_refl eq_refl eq_refl eq_refl)
    as (r & s' & Hrun & Hsent & Hconfidence & Hrelevance & Hrelated & Hrefs).
  exists r, s'.
  repeat split;
    [exact Hrun | by rewrite Hsent | exact Hconfidence | exact Hrelevance
    | exact Hrelated | exact Hrefs].
Defined.



(** With five sectors supplied and every answer reporting a relevant
    sector of high complexity: nine requests, three items, ["High"]. *)
Example compliance_five_sectors :
  let answer :=
    VDict [("is_relevant", VBool true);
           ("requirements", VList [VStr "appoint a compliance officer"]);
           ("complexity_level", VStr "High")] in
  let run :=
    assess_compliance_impact (rt := Stub.runtime) (Stub.always answer) None
      "Directive on operational resilience."
      ["Banking"; "Insurance"; "Energy"; "Telecom"; "Retail"] Stub.fresh in
  length (sent run.2) = 9 ∧
  ∃ r impacts,
    run.1 = Returns r ∧
    field "sector_impacts" r = Some (VDict impacts) ∧
    impacts.*1 = ["Banking"; "Insurance"; "Energy"] ∧
    field "overall_impact" r = Some (VStr "High").
Proof. split; [by vm_compute |]. by eexists _, _; vm_compute. Qed.



(** A search whose relevance-scoring request is refused: the run, spelled
    out. *)
Example search_second_call_refused :
  perform (rt := Stub.runtime)
    (Stub.scripted
       [VDict [("semantic_similarity_score", VFloat 0.9);
               ("matched_concepts", VList [VStr "state aid"; VStr "subsidies"])]])
    None (Search "Guidelines on regional State aid." "data protection") Stub.fresh
  = (Returns (VDict [("relevance_score", VFloat 0.0); ("is_relevant", VBool false);
                     ("error", VStr "Connection error.")]),
     {| ai_analysis_cache := ∅;
        sent := [semantic_request None "Guidelines on regional State aid." "data protection";
                 relevance_request None "data protection" "state aid, subsidies"] |}).
Proof. reflexivity. Qed.

(** C10. No degraded result reaches the cache.  For every operation, (1) a
    call leaves the cache as it was unless its [try] block ran to the
    end, and then the one change is the value the call returns, stored
    under the key of the call; (2) a call whose [try] block raises
    returns the value of its [except] clause and leaves the cache as it
    was, and the same call made again sends a request to the language
    model again; (3) the same holds of the early return of
    [ai_regulatory_tracking], taken when the detection reports no
    mention. *)
Theorem degraded_results_not_cached {rt : Runtime} (client : service)
    (seed : option Z) (a : analysis) (s : session) :
  (ai_analysis_cache (perform client seed a s).2 = ai_analysis_cache s ∨
   ∃ r s',
     try_block client seed a s = (Returns r, s') ∧
     perform client seed a s = (Returns r, s') ∧
     ai_analysis_cache s' = <[cache_key_of a := r]> (ai_analysis_cache s)) ∧
  (∀ e s',
     rejected a = false → ai_analysis_cache s !! cache_key_of a = None →
     try_block client seed a s = (Raises e, s') →
     perform client seed a s = (Returns (except_value a e), s') ∧
     ai_analysis_cache s' = ai_analysis_cache s ∧
     ∃ req new, sent (perform client seed a s').2 = sent s' ++ req :: new) ∧
  (∀ t topic d,
     a = Tracking t topic → ai_analysis_cache s !! cache_key_of a = None →
     client (length (sent s)) (detection_request seed t topic) = ContentJson (VDict d) →
     truthy (item_or d "mentions_regulation" VNone) = false →
     ∃ r s',
       perform client seed a s = (Returns r, s') ∧
       early_shape a r ∧
       ai_analysis_cache s' = ai_analysis_cache s ∧
       ∃ req new, sent (perform client seed a s').2 = sent s' ++ req :: new).
Proof.
  split; [| split].
  - destruct (rejected a) eqn:Hguard.
    { left. by rewrite perform_settled by auto. }
    destruct (ai_analysis_cache s !! cache_key_of a) as [hit |] eqn:Hmiss.
    { left. rewrite perform_settled; [done | right; by rewrite Hmiss]. }
    destruct (perform_miss client seed a s Hguard Hmiss) as (new & _ & Hrun).
    destruct (try_block client seed a s) as [[r | e] s'].
    + destruct Hrun as (Hrun & _ & [Hstored | [_ Hsame]]).
      * right. by exists r, s'.
      * left. by rewrite Hrun.
    + destruct Hrun as (Hrun & _ & Hsame). left. by rewrite Hrun.
  - intros e s' Hguard Hmiss Hraised.
    destruct (perform_miss client seed a s Hguard Hmiss) as (new & _ & Hrun).
    rewrite Hraised in Hrun. destruct Hrun as (Hrun & _ & Hsame).
    split; [done |]. split; [done |].
    eapply retry_calls; [done | by rewrite Hsame | exact Hraised].
  - intros t topic d -> Hmiss Hdetection Hfalsy.
    eexists _, _. split; [| split; [| split]].
    + by apply tracking_not_mentioned.
    + simpl. by eexists.
    + done.
    + apply miss_calls; done.
Qed.

(** The early return of the tracking, run twice against a service that
    always reports no mention: nothing is cached, and the second call
    asks the service again. *)
Example tracking_early_return_asks_again :
  let detection :=
    VDict [("mentions_regulation", VBool false); ("mention_type", VStr "None");
           ("confidence", VFloat 0.9)] in
  let a := Tracking "Commission notice on the market definition." "GDPR" in
  let first := perform (rt := Stub.runtime) (Stub.always detection) None a Stub.fresh in
  let second := perform (rt := Stub.runtime) (Stub.always detection) None a first.2 in
  ai_analysis_cache first.2 = ∅ ∧
  length (sent first.2) = 1 ∧ length (sent second.2) = 2 ∧
  second.1 = first.1.
Proof. by vm_compute. Qed.

(** A summary asked twice of a service whose responses never parse: the
    degraded result both times, nothing cached, one request per call. *)
Example failed_summary_asks_again :
  let client := Stub.garbled "Expecting value: line 1 column 1 (char 0)" in
  let a := Summary "Council Decision on the position to be taken." in
  let first := perform (rt := Stub.runtime) client None a Stub.fresh in
  let second := perform (rt := Stub.runtime) client None a first.2 in
  first.1 = Returns (VDict [("main_purpose", VStr "Summary generation failed");
                            ("key_points", VList [VStr "Unable to generate summary"]);
                            ("confidence_score", VFloat 0.0);
                            ("error", VStr "Expecting value: line 1 column 1 (char 0)")]) ∧
  second.1 = first.1 ∧
  ai_analysis_cache second.2 = ∅ ∧
  length (sent first.2) = 1 ∧ length (sent second.2) = 2.
Proof. by vm_compute. Qed.

(** ** Further properties of the analyzer *)

(** X1. One call of an operation sends at most [budget] requests: one for
    the comprehensive analysis, three for the search, four for the
    tracking and for the summary, two for the structure, and three for
    each of at most three sectors for the compliance assessment. *)
Theorem call_budget {rt : Runtime} (client : service) (seed : option Z)
    (a : analysis) (s : session) :
  ∃ new,
    sent (perform client seed a s).2 = sent s ++ new ∧
    length new ≤ budget a.
Proof.
  rewrite perform_unfold.
  destruct (rejected a); [exists []; simpl; rewrite app_nil_r; split; [done | lia] |].
  destruct (ai_analysis_cache s !! cache_key_of a);
    [exists []; simpl; rewrite app_nil_r; split; [done | lia] |].
  destruct (try_block_budget client seed a s) as (new & Hsent & _ & Hlen).
  exists new.
  by destruct (try_block client seed a s) as [[r | e] s'].
Qed.

(** X2. A call never removes or replaces an entry of the cache, and the
    only key it can add is its own: every entry present before the call
    is present, unchanged, after it, and every other key is looked up as
    before. *)
Theorem cache_only_grows {rt : Runtime} (client : service) (seed : option Z)
    (a : analysis) (s : session) (k : string) :
  let s' := (perform client seed a s).2 in
  (∀ v, ai_analysis_cache s !! k = Some v → ai_analysis_cache s' !! k = Some v) ∧
  (k ≠ cache_key_of a → ai_analysis_cache s' !! k = ai_analysis_cache s !! k).
Proof.
  intros s'. subst s'.
  destruct (perform_cache client seed a s) as [-> | (Hmiss & r & ->)]; [done |].
  split.
  - intros v Hv. rewrite lookup_insert_ne; [done |]. intros <-. congruence.
  - intros Hk. by rewrite lookup_insert_ne.
Qed.

(** X3. Operations of different kinds never share a cache entry, whatever
    the digest function does: a call of one operation leaves the entry of
    an operation of another kind as it was, so no operation is ever
    answered with a result that another kind of analysis stored. *)
Theorem kinds_do_not_share_entries {rt : Runtime} (client : service)
    (seed : option Z) (a a' : analysis) (s : session) :
  kind_of a ≠ kind_of a' →
  cache_key_of a ≠ cache_key_of a' ∧
  ai_analysis_cache (perform client seed a s).2 !! cache_key_of a'
    = ai_analysis_cache s !! cache_key_of a'.
Proof.
  intros Hkind. pose proof (cache_key_kind a a' Hkind) as Hkey.
  split; [done |].
  destruct (perform_cache client seed a s) as [-> | (_ & r & ->)]; [done |].
  by rewrite lookup_insert_ne.
Qed.

Lemma kinds_do_not_share_entries_witness :
  let t := "Regulation (EU) 2016/679 of the European Parliament and of the Council" in
  let answer := VDict [("overall_confidence", VFloat 0.9)] in
  let s' := (perform (rt := Stub.runtime) (Stub.always answer) None
               (Comprehensive t) Stub.fresh).2 in
  cache_key_of (rt := Stub.runtime) (Comprehensive t)
    ≠ cache_key_of (rt := Stub.runtime) (Summary t) ∧
  ai_analysis_cache s' !! cache_key_of (rt := Stub.runtime) (Summary t)
    = ai_analysis_cache Stub.fresh !! cache_key_of (rt := Stub.runtime) (Summary t).
Proof.
  intros t answer s'.
  apply (kinds_do_not_share_entries (rt := Stub.runtime) (Stub.always answer) None
           (Comprehensive t) (Summary t) Stub.fresh).
  simpl. discriminate.
Defined.

(** X4. In [ai_powered_search], when the relevance score exceeds 0.3, the
    excerpt request is the third and last request; in the result
    [is_relevant] is true, [relevant_excerpts] is what the third answer
    lists (the empty list when it lists none), [relevance_score] is the
    score of step 2, and [confidence_score] is the
    [semantic_similarity_score] of step 1, not the relevance score.  The
    result is stored under the key of the search. *)
Theorem search_high_score_extracts_excerpts {rt : Runtime} (client : service)
    (seed : option Z) (t query : string) (s : session)
    (ds dr dx : list (string * value)) (concepts : string) :
  let n := length (sent s) in
  ai_analysis_cache s !! search_cache_key t query = None →
  client n (semantic_request seed t query) = ContentJson (VDict ds) →
  join_value ", " (item_or ds "matched_concepts" (VList [])) = Returns concepts →
  client (n + 1) (relevance_request seed query concepts) = ContentJson (VDict dr) →
  gt_num (item_or dr "relevance_score" (VInt 0)) (NFloat 0.3) = Returns true →
  client (n + 2) (excerpt_request seed t query) = ContentJson (VDict dx) →
  ∃ r s',
    ai_powered_search client seed t query s = (Returns r, s') ∧
    sent s' = sent s ++ [semantic_request seed t query;
                         relevance_request seed query concepts;
                         excerpt_request seed t query] ∧
    field "is_relevant" r = Some (VBool true) ∧
    field "relevant_excerpts" r = Some (item_or dx "relevant_excerpts" (VList [])) ∧
    field "relevance_score" r = Some (item_or dr "relevance_score" (VFloat 0.0)) ∧
    field "confidence_score" r = Some (item_or ds "semantic_similarity_score" (VFloat 0.0)) ∧
    ai_analysis_cache s' !! search_cache_key t query = Some r.
Proof.
  intros n Hmiss H1 Hconcepts H2 Hscore H3.
  eexists _, _. split.
  { by apply search_relevant with (ds := ds) (dr := dr) (dx := dx). }
  repeat split; try reflexivity.
  simpl. apply lookup_insert_eq.
Qed.

Lemma search_high_score_extracts_excerpts_witness :
  let ds := [("semantic_similarity_score", VFloat 0.4);
             ("matched_concepts", VList [VStr "state aid"])] in
  let dr := [("relevance_score", VFloat 0.8); ("relevance_category", VStr "Direct Match")] in
  let dx := [("relevant_excerpts", VList [VStr "aid granted by a Member State"]);
             ("excerpt_relevance_scores", VList [VFloat 0.9])] in
  let client := Stub.scripted [VDict ds; VDict dr; VDict dx] in
  ∃ r s',
    ai_powered_search (rt := Stub.runtime) client None
      "Guidelines on regional State aid." "state aid" Stub.fresh = (Returns r, s') ∧
    length (sent s') = 3 ∧
    field "is_relevant" r = Some (VBool true) ∧
    field "relevant_excerpts" r = Some (VList [VStr "aid granted by a Member State"]) ∧
    field "relevance_score" r = Some (VFloat 0.8) ∧
    field "confidence_score" r = Some (VFloat 0.4).
Proof.
  intros ds dr dx client.
  destruct (search_high_score_extracts_excerpts (rt := Stub.runtime) client None
              "Guidelines on regional State aid." "state aid" Stub.fresh ds dr dx
              "state aid" eq_refl eq_refl eq_refl eq_refl eq_refl eq_refl)
    as (r & s' & Hrun & Hsent & Hrelevant & Hexcerpts & Hscore & Hconfidence & _).
  exists r, s'.
  repeat split;
    [exact Hrun | by rewrite Hsent | exact Hrelevant | exact Hexcerpts
    | exact Hscore | exact Hconfidence].
Defined.

(** X5. Whatever the language model answers, a search that is not served
    from the cache returns a dictionary whose [is_relevant] agrees with
    its own [relevance_score]: [is_relevant] is true exactly when the
    comparison [relevance_score > 0.3] is.  This holds of the degraded
    result too (score 0.0, not relevant). *)
Theorem search_result_consistent {rt : Runtime} (client : service)
    (seed : option Z) (t query : string) (s : session) :
  ai_analysis_cache s !! search_cache_key t query = None →
  ∃ r s',
    ai_powered_search client seed t query s = (Returns r, s') ∧
    consistent_relevance r.
Proof.
  intros Hmiss.
  change (ai_powered_search client seed t query)
    with (perform client seed (Search t query)).
  rewrite miss_run by done. simpl try_block.
  pose proof (ensures_search_try client seed
                (cache_key_of (Search t query)) t query s) as Hresult.
  destruct (search_try client seed _ t query s) as [[r | e] s'].
  - exists r, s'. split; [done |]. by eapply Hresult.
  - exists (search_except e), s'. split; [done |]. apply except_consistent.
Qed.

Lemma search_result_consistent_witness :
  let answer :=
    VDict [("semantic_similarity_score", VFloat 0.9); ("matched_concepts", VList []);
           ("relevance_score", VInt 1)] in
  ∃ r s',
    ai_powered_search (rt := Stub.runtime) (Stub.always answer) None
      "Guidelines on regional State aid." "state aid" Stub.fresh = (Returns r, s') ∧
    consistent_relevance r.
Proof.
  intros answer.
  apply (search_result_consistent (rt := Stub.runtime) (Stub.always answer) None
           "Guidelines on regional State aid." "state aid" Stub.fresh).
  reflexivity.
Defined.

(** X6. [generate_ai_summary] on four well-formed answers: when the
    key-points answer lists dictionaries that each have a [point] and
    whose importances are numbers, four requests are sent, [key_points]
    lists the points in the order of the answer, [topics] is the first two
    legal domains and [confidence_score] the smaller of the type confidence
    and the purpose clarity.  [importance] is High only if the importance
    of some point exceeds 0.7, and Medium if none does.  The summary is
    stored in the cache. *)
Theorem summary_merges_answers {rt : Runtime} (client : service) (seed : option Z)
    (t : string) (s : session) (d1 d2 d3 d4 : list (string * value))
    (ds : list (list (string * value))) (x : num) (xs : list num)
    (domains : list value) (confidence : value) :
  let n := length (sent s) in
  ai_analysis_cache s !! cache_key_of (Summary t) = None →
  client n (type_request seed t) = ContentJson (VDict d1) →
  client (n + 1) (purpose_request seed t) = ContentJson (VDict d2) →
  client (n + 2) (points_request seed t) = ContentJson (VDict d3) →
  client (n + 3) (domains_request seed t) = ContentJson (VDict d4) →
  lookup_item "key_points" d3 = Some (VList (VDict <$> ds)) →
  Forall (λ d, is_Some (lookup_item "point" d)) ds →
  all_nums ((λ d, item_or d "importance" (VInt 0)) <$> ds) = Some (x :: xs) →
  item_or d4 "legal_domains" (VList []) = VList domains →
  min2 (item_or d1 "type_confidence" (VFloat 0.0))
       (item_or d2 "purpose_clarity" (VFloat 0.0)) = Returns confidence →
  ∃ r s',
    generate_ai_summary client seed t s = (Returns r, s') ∧
    sent s' = sent s ++ [type_request seed t; purpose_request seed t;
                         points_request seed t; domains_request seed t] ∧
    field "key_points" r = Some (VList ((λ d, item_or d "point" VNone) <$> ds)) ∧
    (field "importance" r = Some (VStr "High") →
       ∃ i, i ∈ x :: xs ∧ num_gtb i (NFloat 0.7) = true) ∧
    ((∀ i, i ∈ x :: xs → num_gtb i (NFloat 0.7) = false) →
       field "importance" r = Some (VStr "Medium")) ∧
    field "topics" r = Some (VList (firstn 2 domains)) ∧
    field "confidence_score" r = Some confidence ∧
    ai_analysis_cache s' !! cache_key_of (Summary t) = Some r.
Proof.
  intros n Hmiss H1 H2 H3 H4 Hpoints Hpoint Hscores Hdomains Hmin.
  eexists _, _. split.
  { by apply (summary_merge client seed t s d1 d2 d3 d4 ds x xs domains confidence). }
  pose proof (max_num_elem x xs) as Hmax.
  do 2 (split; [reflexivity |]).
  split; [| split; [| split; [reflexivity | split; [reflexivity |]]]].
  - destruct (num_gtb (max_num x xs) (NFloat 0.7)) eqn:Hgt; [eauto | done].
  - intros Hnone. by rewrite (Hnone _ Hmax).
  - simpl. apply lookup_insert_eq.
Qed.

Lemma summary_merges_answers_witness :
  let d1 := [("document_type", VStr "Regulation"); ("type_confidence", VFloat 0.9)] in
  let d2 := [("main_purpose", VStr "Lays down rules on batteries");
             ("purpose_clarity", VFloat 0.6)] in
  let d3 := [("key_points",
              VList [VDict [("point", VStr "Recycling targets"); ("importance", VFloat 0.9)];
                     VDict [("point", VStr "Labelling"); ("importance", VFloat 0.4)]])] in
  let d4 := [("legal_domains",
              VList [VStr "Environmental Law"; VStr "Consumer Law"; VStr "Trade Law"])] in
  let client := Stub.scripted [VDict d1; VDict d2; VDict d3; VDict d4] in
  ∃ r s',
    generate_ai_summary (rt := Stub.runtime) client None
      "Regulation on batteries and waste batteries." Stub.fresh = (Returns r, s') ∧
    length (sent s') = 4 ∧
    field "key_points" r = Some (VList [VStr "Recycling targets"; VStr "Labelling"]) ∧
    field "topics" r = Some (VList [VStr "Environmental Law"; VStr "Consumer Law"]) ∧
    field "confidence_score" r = Some (VFloat 0.6).
Proof.
  intros d1 d2 d3 d4 client.
  destruct (summary_merges_answers (rt := Stub.runtime) client None
              "Regulation on batteries and waste batteries." Stub.fresh d1 d2 d3 d4
              [[("point", VStr "Recycling targets"); ("importance", VFloat 0.9)];
               [("point", VStr "Labelling"); ("importance", VFloat 0.4)]]
              (NFloat 0.9) [NFloat 0.4]
              [VStr "Environmental Law"; VStr "Consumer Law"; VStr "Trade Law"]
              (VFloat 0.6)
              eq_refl eq_refl eq_refl eq_refl eq_refl eq_refl)
    as (r & s' & Hrun & Hsent & Hpoints & _ & _ & Htopics & Hconfidence & _);
    [repeat constructor; by eexists | reflexivity | reflexivity | reflexivity |].
  exists r, s'.
  repeat split;
    [exact Hrun | by rewrite Hsent | exact Hpoints | exact Htopics | exact Hconfidence].
Defined.

(** X7. A key-points answer whose [key_points] is the empty list makes
    [generate_ai_summary] fail although all four requests were answered:
    [max] of the empty list raises, the result is the degraded summary
    (Summary generation failed, confidence 0.0, the text of the exception
    as [error]) and nothing is stored in the cache. *)
Theorem summary_empty_key_points_degrades {rt : Runtime} (client : service)
    (seed : option Z) (t : string) (s : session)
    (d1 d2 d3 : list (string * value)) (v4 : value) :
  let n := length (sent s) in
  ai_analysis_cache s !! cache_key_of (Summary t) = None →
  client n (type_request seed t) = ContentJson (VDict d1) →
  client (n + 1) (purpose_request seed t) = ContentJson (VDict d2) →
  client (n + 2) (points_request seed t) = ContentJson (VDict d3) →
  client (n + 3) (domains_request seed t) = ContentJson v4 →
  lookup_item "key_points" d3 = Some (VList []) →
  ∃ r s',
    generate_ai_summary client seed t s = (Returns r, s') ∧
    sent s' = sent s ++ [type_request seed t; purpose_request seed t;
                         points_request seed t; domains_request seed t] ∧
    field "main_purpose" r = Some (VStr "Summary generation failed") ∧
    field "key_points" r = Some (VList [VStr "Unable to generate summary"]) ∧
    field "confidence_score" r = Some (VFloat 0.0) ∧
    field "error" r = Some (VStr (fault_text "max" [VList []; VFloat 0.7])) ∧
    ai_analysis_cache s' = ai_analysis_cache s.
Proof.
  intros n Hmiss H1 H2 H3 H4 Hpoints.
  eexists _, _. split.
  { by apply (summary_no_point client seed t s d1 d2 d3 v4). }
  repeat split; reflexivity.
Qed.

Lemma summary_empty_key_points_degrades_witness :
  let d1 := [("document_type", VStr "Decision"); ("type_confidence", VFloat 0.9)] in
  let d2 := [("main_purpose", VStr "Appoints a member"); ("purpose_clarity", VFloat 0.9)] in
  let d3 := [("key_points", VList [])] in
  let client := Stub.scripted [VDict d1; VDict d2; VDict d3; VDict []] in
  ∃ r s',
    generate_ai_summary (rt := Stub.runtime) client None
      "Council Decision appointing a member." Stub.fresh = (Returns r, s') ∧
    length (sent s') = 4 ∧
    field "main_purpose" r = Some (VStr "Summary generation failed") ∧
    field "error" r = Some (VStr "max") ∧
    ai_analysis_cache s' = ∅.
Proof.
  intros d1 d2 d3 client.
  destruct (summary_empty_key_points_degrades (rt := Stub.runtime) client None
              "Council Decision appointing a member." Stub.fresh d1 d2 d3 (VDict [])
              eq_refl eq_refl eq_refl eq_refl eq_refl eq_refl)
    as (r & s' & Hrun & Hsent & Hpurpose & _ & _ & Herror & Hcache).
  exists r, s'.
  repeat split;
    [exact Hrun | by rewrite Hsent | exact Hpurpose | exact Herror | exact Hcache].
Defined.

(** X8. A key-points answer without [key_points] does not fail: the
    summary has an empty [key_points] list and the importance Medium,
    and is stored in the cache. *)
Theorem summary_absent_key_points {rt : Runtime} (client : service)
    (seed : option Z) (t : string) (s : session)
    (d1 d2 d3 d4 : list (string * value)) (domains : list value) (confidence : value) :
  let n := length (sent s) in
  ai_analysis_cache s !! cache_key_of (Summary t) = None →
  client n (type_request seed t) = ContentJson (VDict d1) →
  client (n + 1) (purpose_request seed t) = ContentJson (VDict d2) →
  client (n + 2) (points_request seed t) = ContentJson (VDict d3) →
  client (n + 3) (domains_request seed t) = ContentJson (VDict d4) →
  lookup_item "key_points" d3 = None →
  item_or d4 "legal_domains" (VList []) = VList domains →
  min2 (item_or d1 "type_confidence" (VFloat 0.0))
       (item_or d2 "purpose_clarity" (VFloat 0.0)) = Returns confidence →
  ∃ r s',
    generate_ai_summary client seed t s = (Returns r, s') ∧
    field "key_points" r = Some (VList []) ∧
    field "importance" r = Some (VStr "Medium") ∧
    field "error" r = None ∧
    ai_analysis_cache s' !! cache_key_of (Summary t) = Some r.
Proof.
  intros n Hmiss H1 H2 H3 H4 Hpoints Hdomains Hmin.
  eexists _, _. split.
  { by apply (summary_points_absent client seed t s d1 d2 d3 d4 domains confidence). }
  do 3 (split; [reflexivity |]).
  simpl. apply lookup_insert_eq.
Qed.

Lemma summary_absent_key_points_witness :
  let d1 := [("document_type", VStr "Decision"); ("type_confidence", VFloat 0.9)] in
  let d2 := [("main_purpose", VStr "Appoints a member"); ("purpose_clarity", VFloat 0.9)] in
  let client := Stub.scripted [VDict d1; VDict d2; VDict []; VDict []] in
  ∃ r s',
    generate_ai_summary (rt := Stub.runtime) client None
      "Council Decision appointing a member." Stub.fresh = (Returns r, s') ∧
    field "key_points" r = Some (VList []) ∧
    field "importance" r = Some (VStr "Medium").
Proof.
  intros d1 d2 client.
  destruct (summary_absent_key_points (rt := Stub.runtime) client None
              "Council Decision appointing a member." Stub.fresh d1 d2 [] [] []
              (VFloat 0.9)
              eq_refl eq_refl eq_refl eq_refl eq_refl eq_refl eq_refl eq_refl)
    as (r & s' & Hrun & Hpoints & Himportance & _).
  by exists r, s'.
Defined.

(** X9. [extract_document_structure] on a well-formed section answer
    (every detected section has a [type] and an [identifier]): the
    article request is sent exactly when [has_structured_format] is
    truthy; [sections] has one entry for each detected section, in order,
    with the heading made of type and identifier; [total_sections] is
    their number; [has_annexes] says whether some section has the type
    Annex; [has_articles] whether the article count of the second answer
    exceeds 0, and is false when no second request was sent;
    [confidence_score] is the constant 0.8.  The result is stored in the
    cache. *)
Theorem structure_of_sections {rt : Runtime} (client : service) (seed : option Z)
    (t : string) (s : session) (d da : list (string * value))
    (secs : list (list (string * value))) (total : num) :
  let n := length (sent s) in
  let structured := truthy (item_or d "has_structured_format" VNone) in
  ai_analysis_cache s !! cache_key_of (Structure t) = None →
  client n (sections_request seed t) = ContentJson (VDict d) →
  item_or d "sections_found" (VList []) = VList (VDict <$> secs) →
  Forall typed secs →
  (if structured
   then client (n + 1) (articles_request seed t) = ContentJson (VDict da)
   else VDict da = no_articles) →
  as_num (item_or da "total_articles" (VInt 0)) = Some total →
  ∃ r s',
    extract_document_structure client seed t s = (Returns r, s') ∧
    sent s' = sent s ++ sections_request seed t ::
                (if structured then [articles_request seed t] else []) ∧
    field "sections" r = Some (VList (entry_of <$> secs)) ∧
    field "total_sections" r = Some (VInt (Z.of_nat (length secs))) ∧
    field "has_annexes" r
      = Some (VBool (existsb (λ d, eq_str (item_or d "type" VNone) "Annex") secs)) ∧
    field "has_articles" r = Some (VBool (num_gtb total (NInt 0))) ∧
    (structured = false → field "has_articles" r = Some (VBool false)) ∧
    field "confidence_score" r = Some (VFloat 0.8) ∧
    ai_analysis_cache s' !! cache_key_of (Structure t) = Some r.
Proof.
  intros n structured Hmiss H1 Hfound Htyped Harticles Htotal.
  eexists _, _. split.
  { by apply (structure_merge client seed t s d da secs total). }
  do 5 (split; [reflexivity |]).
  split; [| split; [reflexivity | simpl; apply lookup_insert_eq]].
  intros Hplain. fold structured in Harticles. rewrite Hplain in Harticles.
  injection Harticles as ->. simpl in Htotal. by injection Htotal as <-.
Qed.

Lemma structure_of_sections_witness :
  let d := [("sections_found",
             VList [VDict [("type", VStr "Article"); ("identifier", VStr "1")];
                    VDict [("type", VStr "Annex"); ("identifier", VStr "I")]]);
            ("has_structured_format", VBool true)] in
  let da := [("articles", VList []); ("total_articles", VInt 12)] in
  let client := Stub.scripted [VDict d; VDict da] in
  ∃ r s',
    extract_document_structure (rt := Stub.runtime) client None
      "Article 1 Subject matter. Annex I List of substances." Stub.fresh
      = (Returns r, s') ∧
    length (sent s') = 2 ∧
    field "total_sections" r = Some (VInt 2) ∧
    field "has_annexes" r = Some (VBool true) ∧
    field "has_articles" r = Some (VBool true).
Proof.
  intros d da client.
  destruct (structure_of_sections (rt := Stub.runtime) client None
              "Article 1 Subject matter. Annex I List of substances." Stub.fresh d da
              [[("type", VStr "Article"); ("identifier", VStr "1")];
               [("type", VStr "Annex"); ("identifier", VStr "I")]]
              (NInt 12) eq_refl eq_refl eq_refl)
    as (r & s' & Hrun & Hsent & _ & Htotal & Hannexes & Harticles & _);
    [repeat constructor; by eexists | reflexivity | reflexivity |].
  exists r, s'.
  repeat split;
    [exact Hrun | by rewrite Hsent | exact Htotal | exact Hannexes | exact Harticles].
Defined.

(** X10. [assess_compliance_impact] when the relevance check of each of
    the first three sectors is answered with [is_relevant] false (or
    absent): one request is sent for each of those sectors and no other,
    [sector_impacts] is empty, [overall_impact] and
    [implementation_complexity] are Low, the confidence is 0.7, and this
    result is stored in the cache. *)
Theorem compliance_no_relevant_sector {rt : Runtime} (client : service)
    (seed : option Z) (t : string) (sectors : list string) (s : session) :
  ai_analysis_cache s !! cache_key_of (Compliance t sectors) = None →
  Forall (dismissed client seed t) (firstn 3 sectors) →
  ∃ r s',
    assess_compliance_impact client seed t sectors s = (Returns r, s') ∧
    sent s' = sent s ++ (sector_relevance_request seed t <$> firstn 3 sectors) ∧
    field "overall_impact" r = Some (VStr "Low") ∧
    field "implementation_complexity" r = Some (VStr "Low") ∧
    field "sector_impacts" r = Some (VDict []) ∧
    field "confidence_score" r = Some (VFloat 0.7) ∧
    ai_analysis_cache s' !! cache_key_of (Compliance t sectors) = Some r.
Proof.
  intros Hmiss Hall.
  eexists _, _. split.
  { by apply (compliance_dismissed client seed t sectors s). }
  do 5 (split; [reflexivity |]).
  simpl. apply lookup_insert_eq.
Qed.

Lemma compliance_no_relevant_sector_witness :
  let sectors := ["Energy"; "Healthcare"; "Transportation"; "Manufacturing"] in
  let client := Stub.always (VDict [("is_relevant", VBool false)]) in
  ∃ r s',
    assess_compliance_impact (rt := Stub.runtime) client None
      "Regulation on roaming on public mobile networks." sectors Stub.fresh
      = (Returns r, s') ∧
    length (sent s') = 3 ∧
    field "overall_impact" r = Some (VStr "Low").
Proof.
  intros sectors client.
  destruct (compliance_no_relevant_sector (rt := Stub.runtime) client None
              "Regulation on roaming on public mobile networks." sectors Stub.fresh
              eq_refl)
    as (r & s' & Hrun & Hsent & Hoverall & _).
  { repeat constructor; intros m; eexists; split; reflexivity. }
  exists r, s'.
  repeat split; [exact Hrun | by rewrite Hsent | exact Hoverall].
Defined.

(** X11. No operation reads the document text beyond a fixed prefix: the
    first 4000 characters for the comprehensive analysis, 3000 for the
    structure extraction and 2000 for the other four.  Two texts that
    agree on that prefix (and, for the comprehensive analysis, that the
    length guard treats alike) give, from the same session and with the
    same backend, the same result, the same requests and the same cache. *)
Theorem text_beyond_window_unread {rt : Runtime} (client : service) (seed : option Z)
    (a : analysis) (t' : string) (s : session) :
  take (window a) (text_of a) = take (window a) t' →
  rejected (with_text a t') = rejected a →
  perform client seed (with_text a t') s = perform client seed a s.
Proof. apply perform_window. Qed.

Lemma text_beyond_window_unread_witness :
  let t := Stub.repeat_char "a"%char 3000 +:+ " and the annexes" in
  let t' := Stub.repeat_char "a"%char 3000 +:+ " without annexes" in
  let answer := VDict [("sections_found", VList []); ("has_structured_format", VBool true)] in
  perform (rt := Stub.runtime) (Stub.always answer) None (Structure t') Stub.fresh
    = perform (rt := Stub.runtime) (Stub.always answer) None (Structure t) Stub.fresh.
Proof.
  intros t t' answer.
  apply (text_beyond_window_unread (rt := Stub.runtime) (Stub.always answer) None
           (Structure t) t' Stub.fresh).
  - vm_compute. reflexivity.
  - reflexivity.
Defined.

(** X12. [comprehensive_document_analysis] returns the decoded answer of
    the model as it is, whatever JSON value it is, after one request, and
    stores it in the cache under the key of the text.  That request has no
    seed, the temperature 0.1 and room for 2000 tokens, and carries the
    first 4000 characters of the text. *)
Theorem comprehensive_answer_unchecked {rt : Runtime} (client : service)
    (t : string) (s : session) (v : value) :
  too_short t = false →
  ai_analysis_cache s !! cache_key_of (Comprehensive t) = None →
  client (length (sent s)) (comprehensive_request t) = ContentJson v →
  ∃ s',
    comprehensive_document_analysis client t s = (Returns v, s') ∧
    sent s' = sent s ++ [comprehensive_request t] ∧
    ai_analysis_cache s' !! cache_key_of (Comprehensive t) = Some v ∧
    seed (comprehensive_request t) = None ∧
    temperature (comprehensive_request t) = 0.1%float ∧
    max_tokens (comprehensive_request t) = 2000%Z ∧
    user_content (comprehensive_request t)
      = Prompts.comprehensive_prompt (take 4000 t).
Proof.
  intros Hguard Hmiss Hanswer.
  eexists. split.
  { by apply (comprehensive_answered client None t s v). }
  split; [reflexivity |]. split; [simpl; apply lookup_insert_eq |].
  repeat split; reflexivity.
Qed.

Lemma comprehensive_answer_unchecked_witness :
  let t := Stub.repeat_char "x"%char 60 in
  let v := VList [VInt 1; VInt 2] in
  ∃ s',
    comprehensive_document_analysis (rt := Stub.runtime) (Stub.always v) t Stub.fresh
      = (Returns v, s') ∧
    length (sent s') = 1.
Proof.
  intros t v.
  destruct (comprehensive_answer_unchecked (rt := Stub.runtime) (Stub.always v)
              t Stub.fresh v eq_refl eq_refl eq_refl)
    as (s' & Hrun & Hsent & _).
  exists s'. split; [exact Hrun | by rewrite Hsent].
Defined.

(** X13. The search button: the scan sends requests for the first 50
    documents of the filtered data frame only, at most three for each of
    them.  When the scan completes, the documents of its results are
    among those 50, in the order of the data frame, and each one comes
    with the search result that passed the test of the loop. *)
Theorem search_scan_bounded {rt : Runtime} (client : service) (seed : option Z)
    (document : Type) (text : document → string) (query : string)
    (docs : list document) (s : session) :
  let run := search_scan client seed text query docs s in
  (∃ new, sent run.2 = sent s ++ new ∧ length new ≤ 3 * (50 `min` length docs)) ∧
  (∀ results, run.1 = Returns results →
     results.*1 `sublist_of` firstn 50 docs ∧
     Forall (λ found, search_hit found.2 = Returns true) results).
Proof.
  intros run. subst run. unfold search_scan. cbv zeta. split.
  - destruct (sends_search_each client seed document text query (firstn 50 docs) [] s)
      as (new & Hsent & _ & Hlen).
    exists new. split; [done |]. by rewrite length_take in Hlen.
  - intros results Hrun.
    destruct (search_each client seed text query (firstn 50 docs) [] s)
      as [out s'] eqn:Hscan.
    simpl in Hrun. subst out.
    by apply search_each_kept in Hscan as (kept & -> & Hsub & Hall).
Qed.

(** X14. A search scan over documents whose searches are all in the cache
    costs nothing: when the cache has an entry for the search key of each
    of the first 50 documents, the scan sends no request and leaves the
    cache as it was. *)
Theorem search_scan_cached_is_free {rt : Runtime} (client : service)
    (seed : option Z) (document : Type) (text : document → string)
    (query : string) (docs : list document) (s : session) :
  (∀ doc, doc ∈ firstn 50 docs →
     is_Some (ai_analysis_cache s !! search_cache_key (text doc) query)) →
  (search_scan client seed text query docs s).2 = s.
Proof. apply search_each_cached. Qed.

Lemma search_scan_cached_is_free_witness :
  let ds := [("semantic_similarity_score", VFloat 0.4);
             ("matched_concepts", VList [VStr "state aid"])] in
  let dr := [("relevance_score", VFloat 0.8)] in
  let client := Stub.scripted [VDict ds; VDict dr; VDict []] in
  let docs := ["Guidelines on regional State aid."] in
  let first :=
    search_scan (rt := Stub.runtime) client None (λ doc : string, doc)
      "state aid" docs Stub.fresh in
  length (sent first.2) = 3 ∧
  (search_scan (rt := Stub.runtime) (Stub.until 0 client) None (λ doc : string, doc)
     "state aid" docs first.2).2 = first.2.
Proof.
  intros ds dr client docs first. split; [reflexivity |].
  apply (search_scan_cached_is_free (rt := Stub.runtime) (Stub.until 0 client) None
           string (λ doc, doc) "state aid" docs first.2).
  intros doc Hin. apply list_elem_of_singleton in Hin as ->.
  vm_compute. by eexists.
Defined.

(** X15. Every result of a completed search scan is in the cache at the
    end of the scan, under the search key of its document: a search that
    failed, whose result was not cached, never passes the test of the
    loop. *)
Theorem search_scan_results_cached {rt : Runtime} (client : service)
    (seed : option Z) (document : Type) (text : document → string)
    (query : string) (docs : list document) (s : session)
    (results : list (document * value)) (s' : session) :
  search_scan client seed text query docs s = (Returns results, s') →
  ∀ doc r, (doc, r) ∈ results →
    ai_analysis_cache s' !! search_cache_key (text doc) query = Some r.
Proof.
  intros Hrun. apply (search_each_stored _ _ _ _ _ _ _ _ _ _ Hrun).
  intros doc r Hin. by apply elem_of_nil in Hin.
Qed.

Lemma search_scan_results_cached_witness :
  let ds := [("semantic_similarity_score", VFloat 0.4);
             ("matched_concepts", VList [VStr "state aid"])] in
  let dr := [("relevance_score", VFloat 0.8)] in
  let client := Stub.scripted [VDict ds; VDict dr; VDict []] in
  ∃ results s',
    search_scan (rt := Stub.runtime) client None (λ doc : string, doc)
      "state aid" ["Guidelines on regional State aid."] Stub.fresh
      = (Returns results, s') ∧
    length results = 1 ∧
    ∀ (doc : string) (r : value), (doc, r) ∈ results →
      ai_analysis_cache s' !! search_cache_key (rt := Stub.runtime) doc "state aid"
        = Some r.
Proof.
  intros ds dr client.
  destruct (search_scan (rt := Stub.runtime) client None (λ doc : string, doc)
              "state aid" ["Guidelines on regional State aid."] Stub.fresh)
    as [[results | e] s'] eqn:Hrun.
  - exists results, s'. split; [reflexivity |].
    split; [vm_compute in Hrun; by injection Hrun as <- _ |].
    apply (search_scan_results_cached (rt := Stub.runtime) client None string
             (λ doc, doc) "state aid" ["Guidelines on regional State aid."]
             Stub.fresh results s' Hrun).
  - vm_compute in Hrun. discriminate Hrun.
Defined.

(** X16. The tracking button: the batches of 25 cover the filtered data
    frame without a gap and without an overlap.  The batched scan is the
    same computation as one pass over all the documents in the order of
    the data frame: same requests, same results, same cache. *)
Theorem tracking_scan_covers {rt : Runtime} (client : service) (seed : option Z)
    (document : Type) (text : document → string) (attribute_error : exn → bool)
    (threshold : float) (query : string) (docs : list document) (s : session) :
  concat (batch_of docs <$> seq 0 (total_batches (length docs))) = docs ∧
  tracking_scan client seed text attribute_error threshold query docs s
    = track_each client seed text attribute_error threshold query docs [] s.
Proof.
  split; [apply batches_cover |].
  unfold tracking_scan. cbv zeta.
  by rewrite track_batches_concat, batches_cover.
Qed.

(** X17. In the tracking scan the fallback to [ai_powered_search] is never
    taken: [ai_regulatory_tracking] returns a result in every case, so the
    handler for [AttributeError] around it has nothing to catch, whichever
    exceptions count as such. *)
Theorem tracking_fallback_unused {rt : Runtime} (client : service) (seed : option Z)
    (document : Type) (text : document → string) (attribute_error : exn → bool)
    (doc : document) (query : string) (s : session) :
  track_document client seed text attribute_error doc query s
    = ai_regulatory_tracking client seed (text doc) query s.
Proof. apply track_document_direct. Qed.

(** X18. The tracking scan sends at most four requests for each document
    of the filtered data frame. *)
Theorem tracking_scan_bounded {rt : Runtime} (client : service) (seed : option Z)
    (document : Type) (text : document → string) (attribute_error : exn → bool)
    (threshold : float) (query : string) (docs : list document) (s : session) :
  ∃ new,
    sent (tracking_scan client seed text attribute_error threshold query docs s).2
      = sent s ++ new ∧
    length new ≤ 4 * length docs.
Proof.
  unfold tracking_scan. cbv zeta.
  rewrite track_batches_concat, batches_cover.
  destruct (sends_track_each client seed document text attribute_error
              threshold query docs [] s) as (new & Hsent & _ & Hlen).
  by exists new.
Qed.

(** X19. Every result of a completed tracking scan is in the cache at the
    end of the scan, under the tracking key of its document: an analysis
    that failed or that returned early, neither of which is cached, never
    passes the test of the loop. *)
Theorem tracking_scan_results_cached {rt : Runtime} (client : service)
    (seed : option Z) (document : Type) (text : document → string)
    (attribute_error : exn → bool) (threshold : float) (query : string)
    (docs : list document) (s : session)
    (results : list (document * value)) (s' : session) :
  tracking_scan client seed text attribute_error threshold query docs s
    = (Returns results, s') →
  ∀ doc r, (doc, r) ∈ results →
    ai_analysis_cache s' !! tracking_cache_key (text doc) query = Some r.
Proof.
  unfold tracking_scan. cbv zeta. rewrite track_batches_concat, batches_cover.
  intros Hrun. apply (track_each_stored _ _ _ _ _ _ _ _ _ _ _ _ Hrun).
  intros doc r Hin. by apply elem_of_nil in Hin.
Qed.

Lemma tracking_scan_results_cached_witness :
  let detection := [("mentions_regulation", VBool true); ("confidence", VFloat 0.9)] in
  let relationship := [("relationship_strength", VFloat 0.8)] in
  let client := Stub.scripted [VDict detection; VDict relationship; VDict []; VDict []] in
  ∃ results s',
    tracking_scan (rt := Stub.runtime) client None (λ doc : string, doc) (λ _, false)
      0.3%float "GDPR" ["Regulation on the protection of personal data."] Stub.fresh
      = (Returns results, s') ∧
    length results = 1 ∧
    ∀ (doc : string) (r : value), (doc, r) ∈ results →
      ai_analysis_cache s' !! tracking_cache_key (rt := Stub.runtime) doc "GDPR"
        = Some r.
Proof.
  intros detection relationship client.
  destruct (tracking_scan (rt := Stub.runtime) client None (λ doc : string, doc)
              (λ _, false) 0.3%float "GDPR"
              ["Regulation on the protection of personal data."] Stub.fresh)
    as [[results | e] s'] eqn:Hrun.
  - exists results, s'. split; [reflexivity |].
    split; [vm_compute in Hrun; by injection Hrun as <- _ |].
    apply (tracking_scan_results_cached (rt := Stub.runtime) client None string
             (λ doc, doc) (λ _, false) 0.3%float "GDPR"
             ["Regulation on the protection of personal data."]
             Stub.fresh results s' Hrun).
  - vm_compute in Hrun. discriminate Hrun.
Defined.
